(** * KaraokeVerse: UI flow, panel registry, input routing and profile API

    A shallow embedding of the TypeScript sources of KaraokeVerse:

      - [UISystem]            (ui/UISystem.ts): panels, buttons, hover, raycast
      - [UIController]        (ui/UIController.ts): per-frame controller input
      - [ProfileInputPanel]   (ui/ProfileInputPanel.ts): display-name validation
      - [MicrophoneEntity]    (entities/MicrophoneEntity.ts): grab / release
      - [AppFlowController]   (AppFlowController.ts): the application flow
      - [profileController], [songsController] (server/src/controllers)

    Conventions.  A JavaScript object that is shared and mutated in place
    (a [UIButton] referenced both from its panel and from
    [UISystem.hoveredButton]) lives in a store and is named by its index.
    A [Map] iterated in insertion order is an association list; a [Map] that
    is only read with [get] and written with [set] is a [gmap].  JavaScript
    numbers that carry geometry are rationals.  An [async] method with one
    [await] is split into the part before the [await] ([_begin]) and the part
    after it ([_resume]), the awaited result being an argument. *)

From stdpp Require Import gmap strings list pretty.
From Stdlib Require Import ZArith QArith Lia.

Set Default Proof Using "Type".
Set Warnings "-register-all,-clear-no-such-hyp".
Open Scope Z_scope.

(** ** JavaScript strings

    A JavaScript string is a sequence of UTF-16 code units and [length] counts
    them.  Literals of the sources are ASCII and are written with [js]. *)

Definition JSString := list N.

Definition js (s : string) : JSString :=
  map Ascii.N_of_ascii (String.list_ascii_of_string s).

(** [WhiteSpace] and [LineTerminator] of ECMAScript, the code units that
    [String.prototype.trim] removes. *)
Definition isWhiteSpace (c : N) : bool :=
  ((9 <=? c) && (c <=? 13) || (c =? 32) || (c =? 160) || (c =? 5760)
   || (8192 <=? c) && (c <=? 8202) || (c =? 8232) || (c =? 8233)
   || (c =? 8239) || (c =? 8287) || (c =? 12288) || (c =? 65279))%N.

Fixpoint trimStart (s : JSString) : JSString :=
  match s with
  | c :: s' => if isWhiteSpace c then trimStart s' else s
  | [] => []
  end.

Definition trimEnd (s : JSString) : JSString := rev (trimStart (rev s)).

Definition trim (s : JSString) : JSString := trimEnd (trimStart s).

(** ** Sorting

    A stable sort by a comparison [leb]: of two elements that compare equal
    the one that came first stays first ([Array.prototype.sort]). *)

Fixpoint insertBy {A : Type} (leb : A -> A -> bool) (x : A) (l : list A) : list A :=
  match l with
  | [] => [x]
  | y :: l' => if leb x y then x :: l else y :: insertBy leb x l'
  end.

Fixpoint sortBy {A : Type} (leb : A -> A -> bool) (l : list A) : list A :=
  match l with
  | [] => []
  | x :: l' => insertBy leb x (sortBy leb l')
  end.

(** ** Vectors *)

Record Vector3 := mkVector3 { vx : Q; vy : Q; vz : Q }.

Record Quaternion := mkQuaternion { qx : Q; qy : Q; qz : Q; qw : Q }.

(** * UISystem *)

Module UISystem.

Inductive UIPanelType := RoomSelection | SongSearch | ProfileInput | Keyboard.

#[global] Instance UIPanelType_eq_dec : EqDecision UIPanelType.
Proof. solve_decision. Defined.

(** [UI_CONSTANTS], the colours written to a button's material. *)
Definition buttonDefault : string := "#2d2d44".
Definition buttonHover : string := "#4a4a6a".
Definition buttonActive : string := "#6a6a8a".

(** A button mesh: its identity as an object, and [userData.buttonId]. *)
Record Mesh := mkMesh { meshObj : nat; userData_buttonId : string }.

(** What the sources use of the rendering library ([@iwsdk/core]):
    [raycastMesh origin direction m] is the distance along the ray at which
    the ray meets mesh [m], if it does; [applyQuaternion v q] rotates [v]. *)
Record RenderLib := mkRenderLib {
  raycastMesh : Vector3 -> Vector3 -> Mesh -> option Q;
  applyQuaternion : Vector3 -> Quaternion -> Vector3
}.

Section WithCallback.

Context (lib : RenderLib).

(** The closures bound to [onClick].  The registry never looks inside one: it
    only invokes it, which the model records by returning it. *)
Context {Callback : Type}.

Record UIButton := mkButton {
  id : string;
  label : string;
  mesh : Mesh;
  materialColor : string;
  onClick : Callback;
  isHovered : bool;
  isActive : bool
}.

(** [buttons] holds references into the button store. *)
Record UIPanel := mkPanel {
  buttons : list nat;
  isVisible : bool;
  rootVisible : bool
}.

Record t := mkUI {
  store : list UIButton;
  panels : list (UIPanelType * UIPanel);
  hoveredButton : option nat;
  activePanel : option UIPanelType
}.

Definition empty : t := mkUI [] [] None None.

(** [Map.get] and [Map.set] on the insertion-ordered [panels] map. *)
Fixpoint mapGet (ty : UIPanelType) (m : list (UIPanelType * UIPanel)) : option UIPanel :=
  match m with
  | [] => None
  | (k, p) :: m' => if decide (k = ty) then Some p else mapGet ty m'
  end.

Fixpoint mapSet (ty : UIPanelType) (p : UIPanel) (m : list (UIPanelType * UIPanel))
  : list (UIPanelType * UIPanel) :=
  match m with
  | [] => [(ty, p)]
  | (k, q) :: m' => if decide (k = ty) then (k, p) :: m' else (k, q) :: mapSet ty p m'
  end.

(** Mutation of the panel object registered under [ty], if there is one. *)
Fixpoint mapUpdate (ty : UIPanelType) (f : UIPanel -> UIPanel) (m : list (UIPanelType * UIPanel))
  : list (UIPanelType * UIPanel) :=
  match m with
  | [] => []
  | (k, q) :: m' => if decide (k = ty) then (k, f q) :: m' else (k, q) :: mapUpdate ty f m'
  end.

Definition createPanel (ty : UIPanelType) (ui : t) : t :=
  mkUI (store ui) (mapSet ty (mkPanel [] false true) (panels ui))
       (hoveredButton ui) (activePanel ui).

(** [createButton] followed by [addButtonToPanel]: the new button object is
    allocated at the end of the store and its reference pushed on the panel. *)
Definition createButton (bid lbl : string) (obj : nat) (cb : Callback) : UIButton :=
  mkButton bid lbl (mkMesh obj bid) buttonDefault cb false false.

Definition addButtonToPanel (ty : UIPanelType) (b : UIButton) (ui : t) : t :=
  let r := length (store ui) in
  mkUI (store ui ++ [b])
       (mapUpdate ty (fun p => mkPanel (buttons p ++ [r]) (isVisible p) (rootVisible p)) (panels ui))
       (hoveredButton ui) (activePanel ui).

Definition showPanel (ty : UIPanelType) (ui : t) : t :=
  match mapGet ty (panels ui) with
  | Some _ =>
      mkUI (store ui)
           (mapUpdate ty (fun p => mkPanel (buttons p) true true) (panels ui))
           (hoveredButton ui) (Some ty)
  | None => ui
  end.

Definition hidePanel (ty : UIPanelType) (ui : t) : t :=
  match mapGet ty (panels ui) with
  | Some _ =>
      mkUI (store ui)
           (mapUpdate ty (fun p => mkPanel (buttons p) false false) (panels ui))
           (hoveredButton ui)
           (if decide (activePanel ui = Some ty) then None else activePanel ui)
  | None => ui
  end.

(** [for (const [type] of this.panels) this.hidePanel(type)]: the keys are
    those of the map when the loop starts; [hidePanel] neither adds nor
    removes one. *)
Definition hideAllPanels (ui : t) : t :=
  fold_left (fun u ty => hidePanel ty u) (map fst (panels ui)) ui.

Definition getPanel (ty : UIPanelType) (ui : t) : option UIPanel := mapGet ty (panels ui).

Definition hasVisiblePanel (ui : t) : bool :=
  existsb (fun kp => isVisible (snd kp)) (panels ui).

Definition getActivePanel (ui : t) : option UIPanelType := activePanel ui.
Definition getHoveredButton (ui : t) : option nat := hoveredButton ui.

(** The types of the panels flagged visible, in map order. *)
Definition visiblePanels (ui : t) : list UIPanelType :=
  map fst (filter (fun kp => isVisible (snd kp) = true) (panels ui)).

(** The association list stands for a [Map]: no key occurs twice. *)
Definition wellFormed (ui : t) : Prop := NoDup (map fst (panels ui)).

(** *** Ray casting *)

(** One entry of the array returned by [Raycaster.intersectObjects]. *)
Record Intersection := mkHit { distance : Q; object : Mesh }.

(** [intersects.sort(ascSort)]: ascending distance, stable. *)
Definition ascSort (a b : Intersection) : bool := Qle_bool (distance a) (distance b).

Definition sortHits (l : list Intersection) : list Intersection := sortBy ascSort l.

(** [raycaster.set(origin, direction)] then
    [raycaster.intersectObjects(meshes, false)]: every mesh is tested on its
    own, the hits are sorted by distance. *)
Definition intersectObjects (origin direction : Vector3) (meshes : list Mesh) : list Intersection :=
  sortHits (omap (fun m => (fun d => mkHit d m) <$> raycastMesh lib origin direction m) meshes).

Definition visibleButtonRefs (ui : t) : list nat :=
  flat_map (fun kp => if isVisible (snd kp) then buttons (snd kp) else []) (panels ui).

Definition allButtonRefs (ui : t) : list nat :=
  flat_map (fun kp => buttons (snd kp)) (panels ui).

Definition buttonMeshes (ui : t) : list Mesh :=
  omap (fun r => mesh <$> store ui !! r) (visibleButtonRefs ui).

(** The nested loops of [handleRaycast] that look a button up by its id, over
    every panel, visible or not. *)
Definition findButtonById (bid : string) (ui : t) : option nat :=
  find (fun r => match store ui !! r with
                 | Some b => bool_decide (id b = bid)
                 | None => false
                 end) (allButtonRefs ui).

Definition updateButton (r : nat) (f : UIButton -> UIButton) (ui : t) : t :=
  match store ui !! r with
  | Some b => mkUI (<[r := f b]> (store ui)) (panels ui) (hoveredButton ui) (activePanel ui)
  | None => ui
  end.

Definition setButtonHover (r : nat) (hov : bool) (ui : t) : t :=
  updateButton r (fun b =>
    mkButton (id b) (label b) (mesh b) (if hov then buttonHover else buttonDefault)
             (onClick b) hov (isActive b)) ui.

Definition setHoveredButton (h : option nat) (ui : t) : t :=
  mkUI (store ui) (panels ui) h (activePanel ui).

Definition handleRaycast (controllerPosition controllerDirection : Vector3) (ui : t)
  : t * option nat :=
  let meshes := buttonMeshes ui in
  if decide (length meshes = 0%nat) then (ui, None) else
  let intersects := intersectObjects controllerPosition controllerDirection meshes in
  let ui1 :=
    match hoveredButton ui with
    | Some h => setHoveredButton None (setButtonHover h false ui)
    | None => ui
    end in
  match intersects with
  | hit :: _ =>
      match findButtonById (userData_buttonId (object hit)) ui1 with
      | Some r => (setHoveredButton (Some r) (setButtonHover r true ui1), Some r)
      | None => (ui1, None)
      end
  | [] => (ui1, None)
  end.

(** [handleTriggerPress]: the second component is the [onClick] closure that
    was invoked, if any; the boolean result of the source is whether it is
    [Some]. *)
Definition handleTriggerPress (ui : t) : t * option Callback :=
  match hoveredButton ui with
  | Some h =>
      match store ui !! h with
      | Some b =>
          (updateButton h (fun b =>
             mkButton (id b) (label b) (mesh b) buttonActive (onClick b) (isHovered b) true) ui,
           Some (onClick b))
      | None => (ui, None)
      end
  | None => (ui, None)
  end.

Definition handleTriggerRelease (ui : t) : t :=
  match hoveredButton ui with
  | Some h =>
      updateButton h (fun b =>
        if isActive b then
          mkButton (id b) (label b) (mesh b)
                   (if isHovered b then buttonHover else buttonDefault)
                   (onClick b) (isHovered b) false
        else b) ui
  | None => ui
  end.

End WithCallback.

Arguments UIButton : clear implicits.
Arguments t : clear implicits.

End UISystem.

(** * WebXR input, as one frame presents it *)

Inductive TargetRayMode := TrackedPointer | Gaze | Screen | TransientPointer.

Record Pose := mkPose { position : Vector3; orientation : Quaternion }.

(** One [XRInputSource] in one frame.  [source] is the identity of the
    object (the key of the [triggerStates] maps).  [targetRaySpace] and
    [gripSpace] are [None] when the space is absent and [Some None] when
    [xrFrame.getPose] yields no pose; [gamepad] is [None] when the source has
    no gamepad and [Some None] when it has no [buttons[0]]. *)
Record XRInputSource := mkSource {
  source : nat;
  targetRayMode : TargetRayMode;
  targetRaySpace : option (option Pose);
  gripSpace : option (option Pose);
  gamepad : option (option bool)
}.

(** [triggerButton && triggerButton.pressed], as a truth value. *)
Definition isTriggerPressed (g : option bool) : bool := default false g.

(** [this.triggerStates.get(source) || false]. *)
Definition wasTriggerPressed (states : gmap nat bool) (s : nat) : bool :=
  default false (states !! s).

(** * UIController *)

Module UIController.

Definition rayColor : string := "#00ff00".
Definition rayHoverColor : string := "#ffff00".

Record t := mkController {
  rayVisible : bool;
  hitPointVisible : bool;
  rayMaterialColor : string;
  triggerStates : gmap nat bool
}.

(** The constructor: both visualisation meshes start invisible. *)
Definition create : t := mkController false false rayColor ∅.

Definition showRay (c : t) : t :=
  mkController true (hitPointVisible c) (rayMaterialColor c) (triggerStates c).

Definition hideRay (c : t) : t :=
  mkController false false (rayMaterialColor c) (triggerStates c).

(** What one call of [processControllerInput] did besides updating the two
    objects: the source for which [handleTriggerPress] was called, and the
    [onClick] closure that call invoked. *)
Record Outcome {Callback : Type} := mkOutcome {
  pressedBy : option nat;
  clicked : option Callback;
  releasedBy : option nat
}.
Arguments Outcome : clear implicits.
Arguments mkOutcome {Callback}.

Section WithCallback.

Context (lib : UISystem.RenderLib) {Callback : Type}.

Definition noOutcome : Outcome Callback := mkOutcome None None None.

(** The body of the loop for a tracked-pointer source whose pose is known;
    the loop ends after it ([break]). *)
Definition processSource (src : XRInputSource) (pose : Pose) (c : t) (ui : UISystem.t Callback)
  : t * UISystem.t Callback * Outcome Callback :=
  let tempPosition := position pose in
  let tempDirection :=
    UISystem.applyQuaternion lib (mkVector3 0 0 (-1)) (orientation pose) in
  let c := showRay c in
  let '(ui, hoveredButton) := UISystem.handleRaycast lib tempPosition tempDirection ui in
  let c :=
    match hoveredButton with
    | Some _ => mkController (rayVisible c) true rayHoverColor (triggerStates c)
    | None => mkController (rayVisible c) false rayColor (triggerStates c)
    end in
  match gamepad src with
  | Some triggerButton =>
      let isPressed := isTriggerPressed triggerButton in
      let wasPressed := wasTriggerPressed (triggerStates c) (source src) in
      let '(ui, pressedBy, clicked) :=
        if isPressed && negb wasPressed then
          let '(ui, cb) := UISystem.handleTriggerPress ui in (ui, Some (source src), cb)
        else (ui, None, None) in
      let '(ui, releasedBy) :=
        if negb isPressed && wasPressed then
          (UISystem.handleTriggerRelease ui, Some (source src))
        else (ui, None) in
      (mkController (rayVisible c) (hitPointVisible c) (rayMaterialColor c)
                    (<[source src := isPressed]> (triggerStates c)),
       ui, mkOutcome pressedBy clicked releasedBy)
  | None => (c, ui, noOutcome)
  end.

(** The [for] loop over [inputSources]. *)
Fixpoint processSources (srcs : list XRInputSource) (c : t) (ui : UISystem.t Callback)
  : t * UISystem.t Callback * Outcome Callback :=
  match srcs with
  | [] => (c, ui, noOutcome)
  | src :: rest =>
      match targetRayMode src with
      | TrackedPointer =>
          match targetRaySpace src with
          | Some (Some pose) => processSource src pose c ui
          | _ => processSources rest c ui
          end
      | _ => processSources rest c ui
      end
  end.

Definition processControllerInput (inputSources : list XRInputSource) (c : t)
  (ui : UISystem.t Callback) : t * UISystem.t Callback * Outcome Callback :=
  if negb (UISystem.hasVisiblePanel ui) then (hideRay c, ui, noOutcome)
  else processSources inputSources c ui.

(** A controller driven over successive frames.  Between two frames the
    panels may have changed in any way (callbacks, completed requests), so
    every frame comes with the registry as it is when the frame starts. *)
Fixpoint runFrames (frames : list (UISystem.t Callback * list XRInputSource)) (c : t)
  : list (Outcome Callback) :=
  match frames with
  | [] => []
  | (ui, srcs) :: rest =>
      let '(c', _, out) := processControllerInput srcs c ui in
      out :: runFrames rest c'
  end.

End WithCallback.

End UIController.

(** The trigger of source [s] as frame [srcs] reports it: [Some true] when
    some entry of [s] with a gamepad reads pressed. *)
Definition triggerReading (s : nat) (srcs : list XRInputSource) : list bool :=
  omap (fun src => if decide (source src = s)
                   then isTriggerPressed <$> gamepad src else None) srcs.

(** * ProfileInputPanel *)

Module ProfileInputPanel.

Definition NAME_MIN_LENGTH : nat := 3.
Definition NAME_MAX_LENGTH : nat := 20.

Record t := mkPanel {
  displayName : JSString;
  errorMessage : string;
  errorMeshVisible : bool
}.

Definition create : t := mkPanel [] String.EmptyString false.

(** [redrawErrorText]: the error mesh is visible exactly when there is a
    message. *)
Definition redrawErrorText (p : t) : t :=
  mkPanel (displayName p) (errorMessage p)
          (negb (bool_decide (errorMessage p = String.EmptyString))).

Definition setDisplayName (name : JSString) (p : t) : t :=
  redrawErrorText (mkPanel name String.EmptyString (errorMeshVisible p)).

Definition getDisplayName (p : t) : JSString := displayName p.

Definition reset (p : t) : t :=
  redrawErrorText (mkPanel [] String.EmptyString (errorMeshVisible p)).

(** [validateName]: the result and the panel with its [errorMessage] set. *)
Definition validateName (p : t) : bool * t :=
  let name := trim (displayName p) in
  if (length name <? NAME_MIN_LENGTH)%nat then
    (false, mkPanel (displayName p) "Name must be at least 3 characters" (errorMeshVisible p))
  else if (NAME_MAX_LENGTH <? length name)%nat then
    (false, mkPanel (displayName p) "Name must be at most 20 characters" (errorMeshVisible p))
  else
    (true, mkPanel (displayName p) String.EmptyString (errorMeshVisible p)).

(** [handleSubmit]: the second component is the argument with which
    [onSubmit] is called, [None] when it is not called.  [onSubmit] is set by
    the flow controller's constructor, so it is never null here. *)
Definition handleSubmit (p : t) : t * option JSString :=
  let '(ok, p) := validateName p in
  if ok then (p, Some (trim (displayName p)))
  else (redrawErrorText p, None).

(** The desktop [keydown] handler, once the panel is known to be visible. *)
Inductive Key := Enter | Backspace | Char (c : N) | Named.

Definition keyboardHandler (k : Key) (p : t) : t * option JSString :=
  match k with
  | Enter => handleSubmit p
  | Backspace =>
      (mkPanel (removelast (displayName p)) (errorMessage p) (errorMeshVisible p), None)
  | Char c =>
      if (length (displayName p) <? NAME_MAX_LENGTH)%nat
      then (mkPanel (displayName p ++ [c]) (errorMessage p) (errorMeshVisible p), None)
      else (p, None)
  | Named => (p, None)
  end.

End ProfileInputPanel.

(** * LoadingIndicator and ErrorDisplay

    Of the two overlays the flow needs the visibility flag only. *)

Module LoadingIndicator.

Record t := mkLoading { isVisible : bool; message : string; spinnerRotation : Q }.

Definition create : t := mkLoading false String.EmptyString 0.
Definition show (msg : string) (l : t) : t := mkLoading true msg (spinnerRotation l).
Definition hide (l : t) : t := mkLoading false (message l) (spinnerRotation l).
Definition getIsVisible (l : t) : bool := isVisible l.

(** [update(delta)]: the spinner turns at 2 rad/s while visible. *)
Definition update (delta : Q) (l : t) : t :=
  if isVisible l
  then mkLoading (isVisible l) (message l) (spinnerRotation l - 2 * delta)%Q
  else l.

End LoadingIndicator.

Module ErrorDisplay.

Record t := mkError { isVisible : bool; message : string }.

Definition create : t := mkError false String.EmptyString.
Definition show (msg : string) (e : t) : t := mkError true msg.
Definition hide (e : t) : t := mkError false (message e).

End ErrorDisplay.

(** * MicrophoneEntity *)

Module MicrophoneEntity.

(** [MICROPHONE_COLORS]. *)
Definition colorBody : string := "#2c3e50".
Definition colorHead : string := "#7f8c8d".
Definition colorBodyGrabbed : string := "#27ae60".
Definition colorHeadGrabbed : string := "#2ecc71".
Definition black : string := "#000000".

(** [MICROPHONE_DIMENSIONS.grabDistance]. *)
Definition grabDistance : Q := 3 # 10.

Record Material := mkMaterial { color : string; emissive : string; emissiveIntensity : Q }.

Record t := mkMic {
  rootPosition : Vector3;
  isGrabbed : bool;
  spawnPosition : Vector3;
  bodyMaterial : Material;
  headMaterial : Material;
  originalBodyColor : string;
  originalHeadColor : string;
  grabbingController : option nat
}.

(** The constructor.  A new material is not emissive: emissive colour black,
    intensity 1. *)
Definition create (spawn : Vector3) : t :=
  mkMic spawn false spawn
        (mkMaterial colorBody black 1) (mkMaterial colorHead black 1)
        colorBody colorHead None.

(** Squared distance; [distanceTo p <= grabDistance] is compared on squares,
    both sides being non-negative. *)
Definition distanceToSquared (a b : Vector3) : Q :=
  ((vx a - vx b) * (vx a - vx b) + (vy a - vy b) * (vy a - vy b)
   + (vz a - vz b) * (vz a - vz b))%Q.

Definition isWithinGrabRange (p : Vector3) (m : t) : bool :=
  Qle_bool (distanceToSquared (rootPosition m) p) (grabDistance * grabDistance).

Definition grab (controller : option nat) (m : t) : t :=
  if isGrabbed m then m else
  mkMic (rootPosition m) true (spawnPosition m)
        (mkMaterial colorBodyGrabbed colorBodyGrabbed (3 # 10))
        (mkMaterial colorHeadGrabbed colorHeadGrabbed (4 # 10))
        (originalBodyColor m) (originalHeadColor m) controller.

Definition release (m : t) : t :=
  if negb (isGrabbed m) then m else
  mkMic (spawnPosition m) false (spawnPosition m)
        (mkMaterial (originalBodyColor m) black 0)
        (mkMaterial (originalHeadColor m) black 0)
        (originalBodyColor m) (originalHeadColor m) None.

Definition updatePosition (controllerPosition : Vector3) (m : t) : t :=
  if isGrabbed m then
    mkMic controllerPosition (isGrabbed m) (spawnPosition m) (bodyMaterial m) (headMaterial m)
          (originalBodyColor m) (originalHeadColor m) (grabbingController m)
  else m.

Definition getSpawnPosition (m : t) : Vector3 := spawnPosition m.
Definition getPosition (m : t) : Vector3 := rootPosition m.

Definition isGrabbedBy (controller : nat) (m : t) : bool :=
  isGrabbed m && bool_decide (grabbingController m = Some controller).

End MicrophoneEntity.

(** * The application flow *)

Inductive RoomTheme := Anime | Kpop | Bollywood | Hollywood | TaylorSwift.

Definition themeName (th : RoomTheme) : string :=
  match th with
  | Anime => "anime" | Kpop => "kpop" | Bollywood => "bollywood"
  | Hollywood => "hollywood" | TaylorSwift => "taylor-swift"
  end.

Inductive KeyboardTarget := KProfile | KSongSearch.

(** [SongResponse], the fields the client reads. *)
Record Song := mkSong { songId : string; youtubeId : string; title : string; artist : string }.

(** The closures that the panels bind to [onClick]. *)
Inductive Callback :=
| OpenProfileKeyboard          (* name-input: [onOpenKeyboard], target profile *)
| SubmitName                   (* submit-name: [ProfileInputPanel.handleSubmit] *)
| RoomClick (theme : RoomTheme)(* room-<theme>: [RoomSelectionPanel.handleRoomSelect] *)
| OpenSearchKeyboard           (* search-input: [onOpenKeyboard], target song-search *)
| StopClick                    (* stop: [onStop] *)
| BackClick                    (* back: [onBack] *)
| SongClick (song : Song)      (* song-<id>: [SongSearchPanel.handleSongSelect] *)
| KeyClick (key : string).     (* key-<key>: [VirtualKeyboard.handleKeyPress] *)

(** The result of an awaited promise: fulfilled with a value, or rejected;
    [Some m] when the rejection is an [Error] with message [m]. *)
Inductive Awaited (A : Type) := Fulfilled (a : A) | Rejected (message : option string).
Arguments Fulfilled {A}.
Arguments Rejected {A}.

Record Player := mkPlayer { playerId : string; playerName : JSString }.

(** What the room classes report to the scene manager after [setup]. *)
Record Room := mkRoom { microphonePosition : Vector3 }.

(** How the collaborators answer: the profile API, the room set-up, the
    song API ([None]: the request failed or was not [ok]). *)
Record Services := mkServices {
  createProfileResult : JSString -> Awaited Player;
  roomSetupResult : RoomTheme -> Awaited Room;
  loadSongsResult : option string -> option (list Song);
  searchSongsResult : JSString -> option (list Song)
}.

(** Every call made to a collaborator, latest first. *)
Inductive ServiceCall :=
| CreateProfile (name : JSString)
| LoadRoom (theme : RoomTheme)
| FetchSongs (theme : option string)
| FetchSearch (query : JSString).

Module SceneManager.

Record t := mkScene {
  currentRoom : option RoomTheme;
  currentMicrophone : option MicrophoneEntity.t;
  currentVideoScreen : option (option string)
}.

Definition create : t := mkScene None None None.

Definition getCurrentRoom (s : t) : option RoomTheme := currentRoom s.
Definition getCurrentTheme (s : t) : option RoomTheme := currentRoom s.
Definition getCurrentMicrophone (s : t) : option MicrophoneEntity.t := currentMicrophone s.

Definition unloadCurrentRoom (s : t) : t :=
  match currentRoom s with
  | None => s
  | Some _ => mkScene None None None
  end.

(** [loadRoom] has no [await] of its own: it runs when it is called.  It
    fails when creating or setting up the room throws, which is after the
    previous room has been unloaded. *)
Definition loadRoom (theme : RoomTheme) (r : Awaited Room) (s : t) : t :=
  let s := unloadCurrentRoom s in
  match r with
  | Fulfilled room =>
      mkScene (Some theme) (Some (MicrophoneEntity.create (microphonePosition room))) (Some None)
  | Rejected _ => s
  end.

(** Whether [playVideo] and [stopVideo] reach the video screen. *)
Definition playVideo (yid : string) (s : t) : t :=
  match currentVideoScreen s with
  | None => s
  | Some _ => mkScene (currentRoom s) (currentMicrophone s) (Some (Some yid))
  end.

Definition stopVideo (s : t) : t :=
  match currentVideoScreen s with
  | None => s
  | Some _ => mkScene (currentRoom s) (currentMicrophone s) (Some None)
  end.

End SceneManager.

Module VirtualKeyboard.

Record t := mkKeyboard { currentText : JSString; maxLength : nat }.

Definition create : t := mkKeyboard [] 50.

Definition setText (text : JSString) (k : t) : t :=
  mkKeyboard (take (maxLength k) text) (maxLength k).

Definition setMaxLength (n : nat) (k : t) : t := mkKeyboard (currentText k) n.

(** The keys of [KEYBOARD_ROWS] that are not a backspace, a space or Done
    append their own text. *)
Inductive KeyEffect := TextChanged (text : JSString) | Done (text : JSString) | NoEffect.

Definition backspaceKey : string := "⌫".

Definition handleKeyPress (key : string) (k : t) : t * KeyEffect :=
  if bool_decide (key = backspaceKey) then
    if (0 <? length (currentText k))%nat then
      let txt := removelast (currentText k) in
      (mkKeyboard txt (maxLength k), TextChanged txt)
    else (k, NoEffect)
  else if bool_decide (key = "Space") then
    if (length (currentText k) <? maxLength k)%nat then
      let txt := currentText k ++ js " " in
      (mkKeyboard txt (maxLength k), TextChanged txt)
    else (k, NoEffect)
  else if bool_decide (key = "Done") then
    (k, Done (currentText k))
  else
    if (length (currentText k) <? maxLength k)%nat then
      let txt := currentText k ++ js key in
      (mkKeyboard txt (maxLength k), TextChanged txt)
    else (k, NoEffect).

End VirtualKeyboard.

Module SongSearchPanel.

Definition maxVisibleSongs : nat := 6.

Record t := mkSongPanel {
  songs : list Song;
  searchQuery : JSString;
  currentTheme : option string
}.

Definition create : t := mkSongPanel [] [] None.

Definition setSearchQuery (q : JSString) (p : t) : t :=
  mkSongPanel (songs p) q (currentTheme p).

Definition createSongButton (song : Song) (obj : nat) : UISystem.UIButton Callback :=
  UISystem.mkButton ("song-" ++ songId song) (title song ++ " - " ++ artist song)
    (UISystem.mkMesh obj ("song-" ++ songId song)) "#2d2d44" (SongClick song) false false.

(** [updateSongList]: the meshes of the former song buttons leave the scene
    graph, the buttons themselves stay in [panel.buttons]; a button is then
    pushed for each of the first [maxVisibleSongs] songs.  A new mesh object
    is named by the store index of its button. *)
Definition updateSongList (p : t) (ui : UISystem.t Callback) : UISystem.t Callback :=
  match UISystem.getPanel UISystem.SongSearch ui with
  | None => ui
  | Some _ =>
      fold_left (fun u song =>
                   UISystem.addButtonToPanel UISystem.SongSearch
                     (createSongButton song (length (UISystem.store u))) u)
                (take maxVisibleSongs (songs p)) ui
  end.

(** [loadSongs] after its request has been answered; a failed request is
    caught inside and leaves an empty list. *)
Definition loadSongs_begin (theme : option string) (p : t) : t :=
  mkSongPanel (songs p) (searchQuery p) theme.

Definition loadSongs_resume (response : option (list Song)) (p : t) (ui : UISystem.t Callback)
  : t * UISystem.t Callback :=
  let p := mkSongPanel (default [] response) (searchQuery p) (currentTheme p) in
  (p, updateSongList p ui).

(** [searchSongs] after its request has been answered, for a query that is
    not blank; a failed request changes nothing. *)
Definition searchSongs_resume (response : option (list Song)) (p : t) (ui : UISystem.t Callback)
  : t * UISystem.t Callback :=
  match response with
  | Some found =>
      let p := mkSongPanel found (searchQuery p) (currentTheme p) in
      (p, updateSongList p ui)
  | None => (p, ui)
  end.

End SongSearchPanel.

(** * AppFlowController

    The sources hold the controller twice, without and with the desktop
    mouse input; the handlers are the same in both.  The embedding follows
    the one with the desktop input. *)

Module AppFlowController.

Inductive AppState :=
| Initializing | ProfileInputState | RoomSelectionState | LoadingRoom
| InRoom | SongSearchState | PlayingSong | ErrorState.

#[global] Instance AppState_eq_dec : EqDecision AppState.
Proof. solve_decision. Defined.

(** The closures stored in [lastFailedAction]. *)
Inductive RetryThunk :=
| RetryProfileSubmit (name : JSString)   (* [() => this.handleProfileSubmit(name)] *)
| RetryRoomSelect (theme : RoomTheme)    (* [() => this.handleRoomSelect(theme)] *)
| RetryShowSongSearch.                   (* [() => this.showSongSearch()] *)

Record t := mkApp {
  sceneManager : SceneManager.t;
  cachedProfile : option Player;
  uiSystem : UISystem.t Callback;
  uiController : UIController.t;
  profileInputPanel : ProfileInputPanel.t;
  songSearchPanel : SongSearchPanel.t;
  virtualKeyboard : VirtualKeyboard.t;
  loadingIndicator : LoadingIndicator.t;
  errorDisplay : ErrorDisplay.t;
  currentState : AppState;
  currentKeyboardTarget : option KeyboardTarget;
  lastFailedAction : option RetryThunk;
  triggerStates : gmap nat bool;
  issued : list ServiceCall
}.

(** Field updates. *)
Definition withScene (f : SceneManager.t -> SceneManager.t) (a : t) : t :=
  mkApp (f (sceneManager a)) (cachedProfile a) (uiSystem a) (uiController a)
        (profileInputPanel a) (songSearchPanel a) (virtualKeyboard a) (loadingIndicator a)
        (errorDisplay a) (currentState a) (currentKeyboardTarget a) (lastFailedAction a)
        (triggerStates a) (issued a).

Definition withProfile (p : option Player) (a : t) : t :=
  mkApp (sceneManager a) p (uiSystem a) (uiController a)
        (profileInputPanel a) (songSearchPanel a) (virtualKeyboard a) (loadingIndicator a)
        (errorDisplay a) (currentState a) (currentKeyboardTarget a) (lastFailedAction a)
        (triggerStates a) (issued a).

Definition withUI (f : UISystem.t Callback -> UISystem.t Callback) (a : t) : t :=
  mkApp (sceneManager a) (cachedProfile a) (f (uiSystem a)) (uiController a)
        (profileInputPanel a) (songSearchPanel a) (virtualKeyboard a) (loadingIndicator a)
        (errorDisplay a) (currentState a) (currentKeyboardTarget a) (lastFailedAction a)
        (triggerStates a) (issued a).

Definition withController (c : UIController.t) (a : t) : t :=
  mkApp (sceneManager a) (cachedProfile a) (uiSystem a) c
        (profileInputPanel a) (songSearchPanel a) (virtualKeyboard a) (loadingIndicator a)
        (errorDisplay a) (currentState a) (currentKeyboardTarget a) (lastFailedAction a)
        (triggerStates a) (issued a).

Definition withProfilePanel (f : ProfileInputPanel.t -> ProfileInputPanel.t) (a : t) : t :=
  mkApp (sceneManager a) (cachedProfile a) (uiSystem a) (uiController a)
        (f (profileInputPanel a)) (songSearchPanel a) (virtualKeyboard a) (loadingIndicator a)
        (errorDisplay a) (currentState a) (currentKeyboardTarget a) (lastFailedAction a)
        (triggerStates a) (issued a).

Definition withSongPanel (f : SongSearchPanel.t -> SongSearchPanel.t) (a : t) : t :=
  mkApp (sceneManager a) (cachedProfile a) (uiSystem a) (uiController a)
        (profileInputPanel a) (f (songSearchPanel a)) (virtualKeyboard a) (loadingIndicator a)
        (errorDisplay a) (currentState a) (currentKeyboardTarget a) (lastFailedAction a)
        (triggerStates a) (issued a).

Definition withKeyboard (f : VirtualKeyboard.t -> VirtualKeyboard.t) (a : t) : t :=
  mkApp (sceneManager a) (cachedProfile a) (uiSystem a) (uiController a)
        (profileInputPanel a) (songSearchPanel a) (f (virtualKeyboard a)) (loadingIndicator a)
        (errorDisplay a) (currentState a) (currentKeyboardTarget a) (lastFailedAction a)
        (triggerStates a) (issued a).

Definition withLoading (f : LoadingIndicator.t -> LoadingIndicator.t) (a : t) : t :=
  mkApp (sceneManager a) (cachedProfile a) (uiSystem a) (uiController a)
        (profileInputPanel a) (songSearchPanel a) (virtualKeyboard a) (f (loadingIndicator a))
        (errorDisplay a) (currentState a) (currentKeyboardTarget a) (lastFailedAction a)
        (triggerStates a) (issued a).

Definition withError (f : ErrorDisplay.t -> ErrorDisplay.t) (a : t) : t :=
  mkApp (sceneManager a) (cachedProfile a) (uiSystem a) (uiController a)
        (profileInputPanel a) (songSearchPanel a) (virtualKeyboard a) (loadingIndicator a)
        (f (errorDisplay a)) (currentState a) (currentKeyboardTarget a) (lastFailedAction a)
        (triggerStates a) (issued a).

Definition setState (st : AppState) (a : t) : t :=
  mkApp (sceneManager a) (cachedProfile a) (uiSystem a) (uiController a)
        (profileInputPanel a) (songSearchPanel a) (virtualKeyboard a) (loadingIndicator a)
        (errorDisplay a) st (currentKeyboardTarget a) (lastFailedAction a)
        (triggerStates a) (issued a).

Definition setKeyboardTarget (k : option KeyboardTarget) (a : t) : t :=
  mkApp (sceneManager a) (cachedProfile a) (uiSystem a) (uiController a)
        (profileInputPanel a) (songSearchPanel a) (virtualKeyboard a) (loadingIndicator a)
        (errorDisplay a) (currentState a) k (lastFailedAction a)
        (triggerStates a) (issued a).

Definition setLastFailedAction (r : option RetryThunk) (a : t) : t :=
  mkApp (sceneManager a) (cachedProfile a) (uiSystem a) (uiController a)
        (profileInputPanel a) (songSearchPanel a) (virtualKeyboard a) (loadingIndicator a)
        (errorDisplay a) (currentState a) (currentKeyboardTarget a) r
        (triggerStates a) (issued a).

Definition setTriggerStates (m : gmap nat bool) (a : t) : t :=
  mkApp (sceneManager a) (cachedProfile a) (uiSystem a) (uiController a)
        (profileInputPanel a) (songSearchPanel a) (virtualKeyboard a) (loadingIndicator a)
        (errorDisplay a) (currentState a) (currentKeyboardTarget a) (lastFailedAction a)
        m (issued a).

Definition issue (c : ServiceCall) (a : t) : t :=
  mkApp (sceneManager a) (cachedProfile a) (uiSystem a) (uiController a)
        (profileInputPanel a) (songSearchPanel a) (virtualKeyboard a) (loadingIndicator a)
        (errorDisplay a) (currentState a) (currentKeyboardTarget a) (lastFailedAction a)
        (triggerStates a) (c :: issued a).

Definition getState (a : t) : AppState := currentState a.

(** ** The constructor

    The panels are created in the order of the constructor: profile input,
    room selection, song search, keyboard.  A mesh object is named by the
    store index of its button. *)

Definition addButton (ty : UISystem.UIPanelType) (bid lbl color : string) (cb : Callback)
  (ui : UISystem.t Callback) : UISystem.t Callback :=
  UISystem.addButtonToPanel ty
    (UISystem.mkButton bid lbl (UISystem.mkMesh (length (UISystem.store ui)) bid)
                       color cb false false) ui.

(** [panel.rootObject.visible = false], the last statement of every panel
    class's [createPanel]. *)
Definition hideRoot (ty : UISystem.UIPanelType) (ui : UISystem.t Callback) : UISystem.t Callback :=
  UISystem.mkUI (UISystem.store ui)
    (UISystem.mapUpdate ty
       (fun p => UISystem.mkPanel (UISystem.buttons p) (UISystem.isVisible p) false)
       (UISystem.panels ui))
    (UISystem.hoveredButton ui) (UISystem.activePanel ui).

Definition createProfileInputPanel (ui : UISystem.t Callback) : UISystem.t Callback :=
  hideRoot UISystem.ProfileInput
    (addButton UISystem.ProfileInput "submit-name" "Continue" "#27ae60" SubmitName
    (addButton UISystem.ProfileInput "name-input" "Enter name..." "#0f0f23" OpenProfileKeyboard
    (UISystem.createPanel UISystem.ProfileInput ui))).

Definition roomThemes : list RoomTheme := [Anime; Kpop; Bollywood; Hollywood; TaylorSwift].

(** [ROOM_THEMES[theme].primaryColor]; the button colour is 0.6 times it. *)
Definition primaryColor (th : RoomTheme) : string :=
  match th with
  | Anime => "#ff6b9d" | Kpop => "#a55eea" | Bollywood => "#f7b731"
  | Hollywood => "#3867d6" | TaylorSwift => "#e056fd"
  end.

Definition createRoomSelectionPanel (ui : UISystem.t Callback) : UISystem.t Callback :=
  hideRoot UISystem.RoomSelection
    (fold_left (fun u th =>
                  addButton UISystem.RoomSelection ("room-" ++ themeName th) (themeName th)
                            ("0.6*" ++ primaryColor th) (RoomClick th) u)
               roomThemes (UISystem.createPanel UISystem.RoomSelection ui)).

Definition createSongSearchPanel (ui : UISystem.t Callback) : UISystem.t Callback :=
  hideRoot UISystem.SongSearch
    (addButton UISystem.SongSearch "back" "Back" "#7f8c8d" BackClick
    (addButton UISystem.SongSearch "stop" "Stop" "#c0392b" StopClick
    (addButton UISystem.SongSearch "search-input" "Search..." "#2d2d44" OpenSearchKeyboard
    (UISystem.createPanel UISystem.SongSearch ui)))).

Definition KEYBOARD_ROWS : list (list string) :=
  [ ["1"; "2"; "3"; "4"; "5"; "6"; "7"; "8"; "9"; "0"];
    ["Q"; "W"; "E"; "R"; "T"; "Y"; "U"; "I"; "O"; "P"];
    ["A"; "S"; "D"; "F"; "G"; "H"; "J"; "K"; "L"];
    ["Z"; "X"; "C"; "V"; "B"; "N"; "M"; VirtualKeyboard.backspaceKey];
    ["Space"; "Done"] ].

Definition keyColor (key : string) : string :=
  if bool_decide (key = "Done") then "#27ae60"
  else if bool_decide (key = VirtualKeyboard.backspaceKey) then "#c0392b"
  else if bool_decide (key = "Space") then "#4a4a6a"
  else "#3d3d5c".

Definition createKeyboard (ui : UISystem.t Callback) : UISystem.t Callback :=
  hideRoot UISystem.Keyboard
    (fold_left (fun u key =>
                  addButton UISystem.Keyboard ("key-" ++ key) key (keyColor key) (KeyClick key) u)
               (concat KEYBOARD_ROWS) (UISystem.createPanel UISystem.Keyboard ui)).

Definition create : t :=
  mkApp SceneManager.create None
        (createKeyboard (createSongSearchPanel (createRoomSelectionPanel
           (createProfileInputPanel UISystem.empty))))
        UIController.create ProfileInputPanel.create SongSearchPanel.create
        VirtualKeyboard.create LoadingIndicator.create ErrorDisplay.create
        Initializing None None ∅ [].

(** ** Overlays *)

Definition showLoading (msg : string) (a : t) : t := withLoading (LoadingIndicator.show msg) a.
Definition hideLoading (a : t) : t := withLoading LoadingIndicator.hide a.

(** [this.lastFailedAction = retryAction || null]. *)
Definition showError (msg : string) (retryAction : option RetryThunk) (a : t) : t :=
  setState ErrorState (withError (ErrorDisplay.show msg) (setLastFailedAction retryAction a)).

(** ** Showing the main panels *)

Definition showProfileInput (a : t) : t :=
  withUI (UISystem.showPanel UISystem.ProfileInput)
    (withProfilePanel ProfileInputPanel.reset
      (withUI UISystem.hideAllPanels (setState ProfileInputState a))).

Definition showRoomSelection (a : t) : t :=
  withUI (UISystem.showPanel UISystem.RoomSelection)
    (withUI UISystem.hideAllPanels (setState RoomSelectionState a)).

(** [showSongSearch] up to its [await]: [loadSongs] has recorded the theme
    and sent its request. *)
Definition showSongSearch_begin (a : t) : t :=
  let a := showLoading "Loading songs..." (withUI UISystem.hideAllPanels (setState SongSearchState a)) in
  let theme := themeName <$> SceneManager.getCurrentTheme (sceneManager a) in
  issue (FetchSongs theme) (withSongPanel (SongSearchPanel.loadSongs_begin theme) a).

(** [showSongSearch] after its [await].  [loadSongs] catches the failure of
    its own request, so the promise is fulfilled, with the response or
    without one; the [catch] branch is kept as the source has it. *)
Definition showSongSearch_resume (r : Awaited (option (list Song))) (a : t) : t :=
  match r with
  | Fulfilled response =>
      let '(p, ui) := SongSearchPanel.loadSongs_resume response (songSearchPanel a) (uiSystem a) in
      let a := withUI (fun _ => ui) (withSongPanel (fun _ => p) a) in
      withUI (UISystem.showPanel UISystem.SongSearch) (hideLoading a)
  | Rejected _ =>
      showError "Failed to load songs. Please try again." (Some RetryShowSongSearch) (hideLoading a)
  end.

(** ** The virtual keyboard *)

Definition openKeyboard (target : KeyboardTarget) (a : t) : t :=
  let a := setKeyboardTarget (Some target) a in
  let a :=
    match target with
    | KProfile =>
        withKeyboard (VirtualKeyboard.setMaxLength 20)
          (withKeyboard
             (VirtualKeyboard.setText (ProfileInputPanel.getDisplayName (profileInputPanel a))) a)
    | KSongSearch =>
        withKeyboard (VirtualKeyboard.setMaxLength 50)
          (withKeyboard (VirtualKeyboard.setText []) a)
    end in
  withUI (UISystem.showPanel UISystem.Keyboard) a.

Definition handleKeyboardTextChange (text : JSString) (a : t) : t :=
  match currentKeyboardTarget a with
  | Some KProfile => withProfilePanel (ProfileInputPanel.setDisplayName text) a
  | Some KSongSearch => withSongPanel (SongSearchPanel.setSearchQuery text) a
  | None => a
  end.

(** [handleKeyboardDone] up to the [await] of [searchSongs]; for the other
    targets there is no [await] and the method runs to its end. *)
Definition handleKeyboardDone_begin (text : JSString) (a : t) : t :=
  match currentKeyboardTarget a with
  | Some KProfile =>
      setKeyboardTarget None (withProfilePanel (ProfileInputPanel.setDisplayName text) a)
  | Some KSongSearch =>
      let a := withSongPanel (SongSearchPanel.setSearchQuery text) a in
      match trim text with
      | [] =>
          let theme := SongSearchPanel.currentTheme (songSearchPanel a) in
          issue (FetchSongs theme) (withSongPanel (SongSearchPanel.loadSongs_begin theme) a)
      | _ => issue (FetchSearch text) a
      end
  | None => setKeyboardTarget None a
  end.

Definition handleKeyboardDone_resume (text : JSString) (response : option (list Song)) (a : t) : t :=
  let '(p, ui) :=
    match trim text with
    | [] => SongSearchPanel.loadSongs_resume response (songSearchPanel a) (uiSystem a)
    | _ => SongSearchPanel.searchSongs_resume response (songSearchPanel a) (uiSystem a)
    end in
  setKeyboardTarget None (withUI (fun _ => ui) (withSongPanel (fun _ => p) a)).

(** ** Profile submission *)

Definition handleProfileSubmit_begin (name : JSString) (a : t) : t :=
  issue (CreateProfile name) (showLoading "Creating profile..." a).

Definition handleProfileSubmit_resume (name : JSString) (r : Awaited Player) (a : t) : t :=
  match r with
  | Fulfilled player => showRoomSelection (hideLoading (withProfile (Some player) a))
  | Rejected m =>
      showError (default "Failed to create profile" m) (Some (RetryProfileSubmit name))
                (hideLoading a)
  end.

(** ** Room selection

    [sceneManager.loadRoom] does its work when it is called, so the scene
    changes before the [await]. *)

Definition handleRoomSelect_begin (theme : RoomTheme) (r : Awaited Room) (a : t) : t :=
  let a := showLoading "Loading room..."
             (withUI UISystem.hideAllPanels (setState LoadingRoom a)) in
  issue (LoadRoom theme) (withScene (SceneManager.loadRoom theme r) a).

(** On success the song search is shown by a timer, 500 ms later: the
    event [showSongSearch]. *)
Definition handleRoomSelect_resume (theme : RoomTheme) (r : Awaited Room) (a : t) : t :=
  match r with
  | Fulfilled _ => setState InRoom (hideLoading a)
  | Rejected m =>
      showError (default "Failed to load room" m) (Some (RetryRoomSelect theme)) (hideLoading a)
  end.

(** ** Songs *)

Definition handleSongSelect (yid : string) (a : t) : t :=
  withScene (SceneManager.playVideo yid)
    (withUI (UISystem.hidePanel UISystem.SongSearch) (setState PlayingSong a)).

Definition handleStopSong (a : t) : t :=
  setState InRoom (withScene SceneManager.stopVideo a).

Definition handleBackToRoomSelection (a : t) : t :=
  showRoomSelection
    (withScene SceneManager.unloadCurrentRoom (withScene SceneManager.stopVideo a)).

(** ** Asynchronous methods run without interleaving

    The method up to its [await], the answer of the collaborator, the rest. *)

Section WithServices.

Context (env : Services).

Definition showSongSearch (a : t) : t :=
  let a := showSongSearch_begin a in
  showSongSearch_resume
    (Fulfilled (loadSongsResult env (SongSearchPanel.currentTheme (songSearchPanel a)))) a.

Definition handleProfileSubmit (name : JSString) (a : t) : t :=
  handleProfileSubmit_resume name (createProfileResult env name) (handleProfileSubmit_begin name a).

Definition handleRoomSelect (theme : RoomTheme) (a : t) : t :=
  handleRoomSelect_resume theme (roomSetupResult env theme)
    (handleRoomSelect_begin theme (roomSetupResult env theme) a).

(** ** The error overlay *)

Definition invoke (th : RetryThunk) (a : t) : t :=
  match th with
  | RetryProfileSubmit name => handleProfileSubmit name a
  | RetryRoomSelect theme => handleRoomSelect theme a
  | RetryShowSongSearch => showSongSearch a
  end.

Definition handleErrorRetry (a : t) : t :=
  match lastFailedAction a with
  | Some th => invoke th a
  | None => a
  end.

Definition handleErrorDismiss (a : t) : t :=
  let a := withError ErrorDisplay.hide a in
  match SceneManager.getCurrentRoom (sceneManager a) with
  | Some _ => showSongSearch a
  | None => showRoomSelection a
  end.

(** ** Start *)

Definition start_begin (a : t) : t := showLoading "Loading profile..." (setState Initializing a).

Definition start_resume (r : Awaited (option Player)) (a : t) : t :=
  match r with
  | Fulfilled (Some player) => showRoomSelection (hideLoading (withProfile (Some player) a))
  | Fulfilled None => showProfileInput (hideLoading a)
  | Rejected _ => showProfileInput (hideLoading a)
  end.

(** ** What a button's [onClick] does before it returns *)

Definition submitName (a : t) : t :=
  let '(p, submitted) := ProfileInputPanel.handleSubmit (profileInputPanel a) in
  let a := withProfilePanel (fun _ => p) a in
  match submitted with
  | Some name => handleProfileSubmit_begin name a
  | None => a
  end.

Definition keyPress (key : string) (a : t) : t :=
  let '(k, effect) := VirtualKeyboard.handleKeyPress key (virtualKeyboard a) in
  let a := withKeyboard (fun _ => k) a in
  match effect with
  | VirtualKeyboard.TextChanged text => handleKeyboardTextChange text a
  | VirtualKeyboard.Done text =>
      withUI (UISystem.hidePanel UISystem.Keyboard) (handleKeyboardDone_begin text a)
  | VirtualKeyboard.NoEffect => a
  end.

Definition onClick (cb : Callback) (a : t) : t :=
  match cb with
  | OpenProfileKeyboard => openKeyboard KProfile a
  | SubmitName => submitName a
  | RoomClick theme => handleRoomSelect_begin theme (roomSetupResult env theme) a
  | OpenSearchKeyboard => openKeyboard KSongSearch a
  | StopClick => handleStopSong a
  | BackClick => handleBackToRoomSelection a
  | SongClick song => handleSongSelect (youtubeId song) a
  | KeyClick key => keyPress key a
  end.

Definition invokeClicked (cb : option Callback) (a : t) : t :=
  match cb with
  | Some cb => onClick cb a
  | None => a
  end.

(** ** Microphone input *)

Definition microphoneStep (src : XRInputSource) (st : gmap nat bool * MicrophoneEntity.t)
  : gmap nat bool * MicrophoneEntity.t :=
  let '(states, mic) := st in
  match gamepad src with
  | None => st
  | Some triggerButton =>
      let isPressed := isTriggerPressed triggerButton in
      let wasPressed := wasTriggerPressed states (source src) in
      match gripSpace src with
      | Some (Some pose) =>
          let controllerPosition := position pose in
          let mic :=
            if isPressed && negb wasPressed then
              if negb (MicrophoneEntity.isGrabbed mic)
                 && MicrophoneEntity.isWithinGrabRange controllerPosition mic
              then MicrophoneEntity.grab (Some (source src)) mic else mic
            else mic in
          let mic :=
            if negb isPressed && wasPressed then
              if MicrophoneEntity.isGrabbedBy (source src) mic
              then MicrophoneEntity.release mic else mic
            else mic in
          let mic :=
            if MicrophoneEntity.isGrabbedBy (source src) mic
            then MicrophoneEntity.updatePosition controllerPosition mic else mic in
          (<[source src := isPressed]> states, mic)
      | _ => st
      end
  end.

Definition processMicrophoneInput (inputSources : list XRInputSource) (a : t) : t :=
  match SceneManager.getCurrentMicrophone (sceneManager a) with
  | None => a
  | Some mic =>
      let '(states, mic) :=
        fold_left (fun st src => microphoneStep src st) inputSources (triggerStates a, mic) in
      setTriggerStates states
        (withScene (fun s => SceneManager.mkScene (SceneManager.currentRoom s) (Some mic)
                               (SceneManager.currentVideoScreen s)) a)
  end.

(** ** The frame update

    [xr] is [Some inputSources] when there is an XR session, frame and
    reference space. *)

Context (lib : UISystem.RenderLib).

Definition update (delta : Q) (xr : option (list XRInputSource)) (a : t) : t :=
  let a := withLoading (LoadingIndicator.update delta) a in
  if LoadingIndicator.getIsVisible (loadingIndicator a) then a else
  match xr with
  | Some inputSources =>
      let '(c, ui, out) :=
        UIController.processControllerInput lib inputSources (uiController a) (uiSystem a) in
      let a := invokeClicked (UIController.clicked out) (withUI (fun _ => ui) a) in
      let a := withController c a in
      if bool_decide (currentState a = InRoom) || bool_decide (currentState a = PlayingSong)
      then processMicrophoneInput inputSources a
      else a
  | None => a
  end.

(** ** Desktop input

    The ray of a mouse event is computed from the camera and the pointer
    position; the handlers are given it. *)

Definition onMouseClick (origin direction : Vector3) (a : t) : t :=
  if negb (UISystem.hasVisiblePanel (uiSystem a)) then a else
  let '(ui, hoveredButton) := UISystem.handleRaycast lib origin direction (uiSystem a) in
  let a := withUI (fun _ => ui) a in
  match hoveredButton with
  | Some r => invokeClicked (UISystem.onClick <$> UISystem.store ui !! r) a
  | None => a
  end.

Definition onMouseMove (origin direction : Vector3) (a : t) : t :=
  if negb (UISystem.hasVisiblePanel (uiSystem a)) then a else
  withUI (fun _ => fst (UISystem.handleRaycast lib origin direction (uiSystem a))) a.

(** The [keydown] handler of the profile input panel. *)
Definition onKeyDown (key : ProfileInputPanel.Key) (a : t) : t :=
  match UISystem.getPanel UISystem.ProfileInput (uiSystem a) with
  | Some panel =>
      if UISystem.isVisible panel then
        let '(p, submitted) := ProfileInputPanel.keyboardHandler key (profileInputPanel a) in
        let a := withProfilePanel (fun _ => p) a in
        match submitted with
        | Some name => handleProfileSubmit_begin name a
        | None => a
        end
      else a
  | None => a
  end.

End WithServices.

End AppFlowController.

(** * The server: profile and song controllers *)

Module Server.

(** Values of a parsed request body and of a JSON response. *)
Inductive JSValue :=
| JUndefined
| JNull
| JBool (b : bool)
| JNumber (n : Z)
| JString (s : JSString)
| JDate (t : Z)
| JArray (items : list JSValue)
| JObject (fields : list (string * JSValue)).

(** Property access on a value that is neither [undefined] nor [null]. *)
Definition getField (name : string) (v : JSValue) : JSValue :=
  match v with
  | JObject fields =>
      match find (fun kv => bool_decide (fst kv = name)) fields with
      | Some kv => snd kv
      | None => JUndefined
      end
  | _ => JUndefined
  end.

Record Response := mkResponse { status : nat; body : JSValue }.

Definition errorBody (msg : string) : JSValue := JObject [("error", JString (js msg))].

Record PlayerRow := mkPlayerRow {
  id : string; display_name : JSString; created_at : Z; last_active : Z
}.

Record SongRow := mkSongRow {
  song_id : string; youtube_id : string; song_title : JSString; song_artist : JSString;
  song_theme : string
}.

Record Db := mkDb { players : list PlayerRow; songs : list SongRow }.

(** What the controllers rely on PostgreSQL for: whether a statement is
    executed rather than rejected, the [ILIKE] operator (pattern first), and
    the order of titles that [ORDER BY title ASC] uses. *)
Record Engine := mkEngine {
  insertAccepted : Db -> PlayerRow -> bool;
  selectAccepted : Db -> bool;
  ilike : JSString -> JSString -> bool;
  titleLeb : JSString -> JSString -> bool
}.

(** [validateDisplayName]: [None] when valid, otherwise the error. *)
Definition validateDisplayName (name : JSValue) : option string :=
  match name with
  | JString s =>
      if (length s <? 3)%nat || (20 <? length s)%nat
      then Some "Display name must be 3-20 characters"
      else None
  | _ => Some "Display name must be a string"
  end.

Definition playerJson (player : PlayerRow) : JSValue :=
  JObject [("id", JString (js (id player)));
           ("displayName", JString (display_name player));
           ("createdAt", JDate (created_at player));
           ("lastActive", JDate (last_active player))].

Section WithEngine.

Context (pg : Engine).

(** [INSERT INTO players ... RETURNING ...]; [None] when the query rejects. *)
Definition insertPlayer (row : PlayerRow) (db : Db) : option (Db * list PlayerRow) :=
  if insertAccepted pg db row
  then Some (mkDb (players db ++ [row]) (songs db), [row])
  else None.

(** [profileController.create]; [uuid] and [now] are the values of
    [uuidv4()] and [new Date()].  Destructuring a body that is [undefined] or
    [null] throws, as does a rejected query: the [catch] answers 500. *)
Definition create (uuid : string) (now : Z) (reqBody : JSValue) (db : Db) : Db * Response :=
  let failed := (db, mkResponse 500 (errorBody "Failed to create profile")) in
  match reqBody with
  | JUndefined | JNull => failed
  | _ =>
      let displayName := getField "displayName" reqBody in
      match validateDisplayName displayName with
      | Some error => (db, mkResponse 400 (errorBody error))
      | None =>
          match displayName with
          | JString name =>
              match insertPlayer (mkPlayerRow uuid name now now) db with
              | Some (db', player :: _) => (db', mkResponse 201 (playerJson player))
              | Some (db', []) => (db', mkResponse 500 (errorBody "Failed to create profile"))
              | None => failed
              end
          | _ => failed
          end
      end
  end.

(** The value of [req.query.q]. *)
Inductive QueryValue :=
| QMissing
| QString (s : JSString)
| QArray (items : list JSString)
| QNested.

Definition songJson (row : SongRow) : JSValue :=
  JObject [("id", JString (js (song_id row)));
           ("youtubeId", JString (js (youtube_id row)));
           ("title", JString (song_title row));
           ("artist", JString (song_artist row));
           ("theme", JString (js (song_theme row)))].

(** [SELECT ... WHERE title ILIKE $1 OR artist ILIKE $1 ORDER BY title ASC]. *)
Definition selectSongsLike (searchTerm : JSString) (db : Db) : option (list SongRow) :=
  if selectAccepted pg db then
    Some (sortBy (fun a b => titleLeb pg (song_title a) (song_title b))
            (filter (fun row => ilike pg searchTerm (song_title row)
                                || ilike pg searchTerm (song_artist row) = true)
                    (songs db)))
  else None.

(** [songsController.search].  [!q] holds of a missing [q] and of the empty
    string. *)
Definition search (q : QueryValue) (db : Db) : Response :=
  match q with
  | QString (c :: rest) =>
      let searchTerm := js "%" ++ (c :: rest) ++ js "%" in
      match selectSongsLike searchTerm db with
      | Some rows =>
          mkResponse 200
            (JObject [("songs", JArray (map songJson rows));
                      ("total", JNumber (Z.of_nat (length rows)))])
      | None => mkResponse 500 (errorBody "Failed to search songs")
      end
  | _ => mkResponse 400 (errorBody "Search query is required")
  end.

End WithEngine.

End Server.

(** * The server: the other routes *)

Module ServerRoutes.

Section WithEngine.

Context (pg : Server.Engine).

(** Whether PostgreSQL executes the look-up of a player by id (the
    connection is up, the text is a UUID) and the update of a player. *)
Context (lookupAccepted : Server.Db -> string -> bool).
Context (updateAccepted : Server.Db -> string -> JSString -> bool).

(** [SELECT ... FROM players WHERE id = $1]. *)
Definition selectPlayer (id : string) (db : Server.Db) : option (list Server.PlayerRow) :=
  if lookupAccepted db id
  then Some (filter (fun row => Server.id row = id) (Server.players db))
  else None.

(** [profileController.getById]. *)
Definition getById (id : string) (db : Server.Db) : Server.Response :=
  match selectPlayer id db with
  | Some [] => Server.mkResponse 404 (Server.errorBody "Profile not found")
  | Some (player :: _) => Server.mkResponse 200 (Server.playerJson player)
  | None => Server.mkResponse 500 (Server.errorBody "Failed to fetch profile")
  end.

Definition renamed (name : JSString) (now : Z) (row : Server.PlayerRow) : Server.PlayerRow :=
  Server.mkPlayerRow (Server.id row) name (Server.created_at row) now.

(** [UPDATE players SET display_name = $1, last_active = $2 WHERE id = $3
    RETURNING ...]: the table after the update and the rows returned. *)
Definition updatePlayer (id : string) (name : JSString) (now : Z) (db : Server.Db)
  : option (Server.Db * list Server.PlayerRow) :=
  if updateAccepted db id name then
    Some (Server.mkDb
            (map (fun row => if decide (Server.id row = id) then renamed name now row else row)
                 (Server.players db))
            (Server.songs db),
          map (renamed name now) (filter (fun row => Server.id row = id) (Server.players db)))
  else None.

(** [profileController.update]; [now] is the value of [new Date()]. *)
Definition update (id : string) (now : Z) (reqBody : Server.JSValue) (db : Server.Db)
  : Server.Db * Server.Response :=
  let failed := (db, Server.mkResponse 500 (Server.errorBody "Failed to update profile")) in
  match reqBody with
  | Server.JUndefined | Server.JNull => failed
  | _ =>
      let displayName := Server.getField "displayName" reqBody in
      match Server.validateDisplayName displayName with
      | Some error => (db, Server.mkResponse 400 (Server.errorBody error))
      | None =>
          match displayName with
          | Server.JString name =>
              match updatePlayer id name now db with
              | Some (db', []) =>
                  (db', Server.mkResponse 404 (Server.errorBody "Profile not found"))
              | Some (db', player :: _) => (db', Server.mkResponse 200 (Server.playerJson player))
              | None => failed
              end
          | _ => failed
          end
      end
  end.

(** [SELECT ... FROM songs [WHERE theme = $1] ORDER BY title ASC]. *)
Definition selectSongs (theme : option JSString) (db : Server.Db) : option (list Server.SongRow) :=
  if Server.selectAccepted pg db then
    Some (sortBy (fun a b => Server.titleLeb pg (Server.song_title a) (Server.song_title b))
            match theme with
            | Some th => filter (fun row => js (Server.song_theme row) = th) (Server.songs db)
            | None => Server.songs db
            end)
  else None.

(** [songsController.list]: the filter is applied when [theme] is a string
    that is not empty. *)
Definition list (theme : Server.QueryValue) (db : Server.Db) : Server.Response :=
  let filterBy :=
    match theme with
    | Server.QString (c :: rest) => Some (c :: rest)
    | _ => None
    end in
  match selectSongs filterBy db with
  | Some rows =>
      Server.mkResponse 200
        (Server.JObject [("songs", Server.JArray (map Server.songJson rows));
                         ("total", Server.JNumber (Z.of_nat (length rows)))])
  | None => Server.mkResponse 500 (Server.errorBody "Failed to list songs")
  end.

End WithEngine.

End ServerRoutes.

(** * ProfileService

    The client of the profile routes, with the profile id it keeps in
    [localStorage]. *)

Module ProfileService.

(** [localStorage] as this service uses it, under the one key
    [karaokeverse_profile_id]: the stored item, and whether every access
    throws (storage disabled by the browser). *)
Record Storage := mkStorage { item : option string; blocked : bool }.

(** [Player]; a [Date] is kept as the text it was parsed from. *)
Record Player := mkPlayer {
  id : string; displayName : JSString; createdAt : string; lastActive : string
}.

Record ProfileResponse := mkProfileResponse {
  response_id : string; response_displayName : JSString;
  response_createdAt : string; response_lastActive : string
}.

Record t := mkService { cachedProfile : option Player; storage : Storage }.

Definition create (st : Storage) : t := mkService None st.

(** The answer to a [fetch]: the request fails; the response is [ok] and
    its body parses to a profile, or does not parse (the message of the
    error); the response is not [ok], with its status and, when the body
    parses, its [error] field. *)
Inductive Answer :=
| NetworkError (message : string)
| Ok (body : string + ProfileResponse)
| NotOk (status : nat) (body : option (option string)).

Definition getCachedProfileId (s : t) : option string :=
  if blocked (storage s) then None else item (storage s).

Definition saveProfileId (profileId : string) (s : t) : t :=
  if blocked (storage s) then s
  else mkService (cachedProfile s) (mkStorage (Some profileId) false).

Definition clearCache (s : t) : t :=
  mkService None
    (if blocked (storage s) then storage s else mkStorage None false).

Definition getCachedProfile (s : t) : option Player := cachedProfile s.

Definition responseToPlayer (r : ProfileResponse) : Player :=
  mkPlayer (response_id r) (response_displayName r) (response_createdAt r) (response_lastActive r).

(** [error.error || fallback], where a body that does not parse stands for
    [{ error: 'Unknown error' }]. *)
Definition errorText (body : option (option string)) (fallback : string) : string :=
  match body with
  | None => "Unknown error"
  | Some (Some e) => if bool_decide (e = String.EmptyString) then fallback else e
  | Some None => fallback
  end.

Definition createProfile (answer : Answer) (s : t) : Awaited Player * t :=
  match answer with
  | NetworkError m => (Rejected (Some m), s)
  | NotOk status body =>
      (Rejected (Some (errorText body ("Failed to create profile: " +:+ pretty status))), s)
  | Ok (inl m) => (Rejected (Some m), s)
  | Ok (inr data) =>
      let player := responseToPlayer data in
      (Fulfilled player, saveProfileId (id player) (mkService (Some player) (storage s)))
  end.

Definition getProfile (answer : Answer) (s : t) : Awaited (option Player) * t :=
  match answer with
  | NetworkError m => (Rejected (Some m), s)
  | NotOk status _ =>
      if bool_decide (status = 404%nat) then (Fulfilled None, s)
      else (Rejected (Some ("Failed to fetch profile: " +:+ pretty status)), s)
  | Ok (inl m) => (Rejected (Some m), s)
  | Ok (inr data) =>
      let player := responseToPlayer data in
      (Fulfilled (Some player), mkService (Some player) (storage s))
  end.

Definition updateProfile (answer : Answer) (s : t) : Awaited Player * t :=
  match answer with
  | NetworkError m => (Rejected (Some m), s)
  | NotOk status body =>
      (Rejected (Some (errorText body ("Failed to update profile: " +:+ pretty status))), s)
  | Ok (inl m) => (Rejected (Some m), s)
  | Ok (inr data) =>
      let player := responseToPlayer data in
      (Fulfilled player, mkService (Some player) (storage s))
  end.

(** [loadCachedProfile]; [server] answers the request for a profile id.
    [!profileId] holds of no id and of the empty text. *)
Definition loadCachedProfile (server : string -> Answer) (s : t) : option Player * t :=
  match getCachedProfileId s with
  | None => (None, s)
  | Some profileId =>
      if bool_decide (profileId = String.EmptyString) then (None, s) else
      match getProfile (server profileId) s with
      | (Fulfilled r, s') => (r, s')
      | (Rejected _, s') => (None, clearCache s')
      end
  end.

Definition hasProfile (s : t) : bool :=
  bool_decide (cachedProfile s <> None) || bool_decide (getCachedProfileId s <> None).

End ProfileService.

(** * The text of the error overlay

    [ErrorDisplay.show] draws [displayMessage], not the message it is given. *)

Module ErrorText.


End ErrorText.

(** * Notions used in the statements *)

(** The two updates that [hidePanel] and [showPanel] apply to a panel. *)
Definition hidden (p : UISystem.UIPanel) : UISystem.UIPanel :=
  UISystem.mkPanel (UISystem.buttons p) false false.

Definition shown (p : UISystem.UIPanel) : UISystem.UIPanel :=
  UISystem.mkPanel (UISystem.buttons p) true true.

(** The loop of [hideAllPanels] over a list of keys. *)
Definition hideEach {Callback : Type} (ks : list UISystem.UIPanelType) (ui : UISystem.t Callback)
  : UISystem.t Callback :=
  fold_left (fun u ty => UISystem.hidePanel ty u) ks ui.

(** The panel [ty] alone, when it is registered. *)
Definition only {Callback : Type} (ty : UISystem.UIPanelType) (ui : UISystem.t Callback)
  : list UISystem.UIPanelType :=
  if bool_decide (ty ∈ map fst (UISystem.panels ui)) then [ty] else [].

(** ** Sample collaborators and states *)

Definition sampleSong : Song := mkSong "1" "dQw4w9WgXcQ" "Never Gonna Give You Up" "Rick Astley".

(** Collaborators that answer every call. *)
Definition servicesUp : Services :=
  mkServices (fun name => Fulfilled (mkPlayer "p-1" name))
             (fun _ => Fulfilled (mkRoom (mkVector3 0 1 (-1))))
             (fun _ => Some [sampleSong])
             (fun _ => Some [sampleSong]).

(** Collaborators that fail every call. *)
Definition servicesDown : Services :=
  mkServices (fun _ => Rejected (Some "Failed to fetch"))
             (fun _ => Rejected (Some "Room setup failed"))
             (fun _ => None)
             (fun _ => None).

(** A returning visitor in a room, the song list on display. *)
Definition inSongSearch : AppFlowController.t :=
  AppFlowController.showSongSearch servicesUp
    (AppFlowController.handleRoomSelect servicesUp Hollywood
       (AppFlowController.start_resume (Fulfilled (Some (mkPlayer "p-1" (js "Alice"))))
          (AppFlowController.start_begin AppFlowController.create))).

(** The same, after the search field has opened the keyboard. *)
Definition searchKeyboardOpen : AppFlowController.t :=
  AppFlowController.openKeyboard KSongSearch inSongSearch.

(** A first-time visitor: no cached profile, the profile input on display. *)
Definition newVisitor : AppFlowController.t :=
  AppFlowController.start_resume (Fulfilled None)
    (AppFlowController.start_begin AppFlowController.create).

(** The visitor has typed [name]. *)
Definition typed (name : string) : AppFlowController.t :=
  AppFlowController.withProfilePanel (ProfileInputPanel.setDisplayName (js name)) newVisitor.

(** The profile request for "Alice" has failed: the error overlay is up. *)
Definition profileSubmitFailed : AppFlowController.t :=
  AppFlowController.handleProfileSubmit servicesDown (js "Alice") newVisitor.

(** The service call that invoking a retry thunk issues. *)
Definition callOf (th : AppFlowController.RetryThunk) (a : AppFlowController.t) : ServiceCall :=
  match th with
  | AppFlowController.RetryProfileSubmit name => CreateProfile name
  | AppFlowController.RetryRoomSelect theme => LoadRoom theme
  | AppFlowController.RetryShowSongSearch =>
      FetchSongs (themeName <$> SceneManager.getCurrentTheme (AppFlowController.sceneManager a))
  end.

(** The calls that can be made on a microphone. *)
Inductive MicrophoneCall :=
| Grab (controller : option nat)
| Release
| UpdatePosition (controllerPosition : Vector3).

Definition microphoneCall (m : MicrophoneEntity.t) (c : MicrophoneCall) : MicrophoneEntity.t :=
  match c with
  | Grab controller => MicrophoneEntity.grab controller m
  | Release => MicrophoneEntity.release m
  | UpdatePosition p => MicrophoneEntity.updatePosition p m
  end.

Definition microphoneCalls (cs : list MicrophoneCall) (m : MicrophoneEntity.t) : MicrophoneEntity.t :=
  fold_left microphoneCall cs m.

(** The loop of [processMicrophoneInput]. *)
Definition microphoneSteps (srcs : list XRInputSource) (st : gmap nat bool * MicrophoneEntity.t)
  : gmap nat bool * MicrophoneEntity.t :=
  fold_left (fun st src => AppFlowController.microphoneStep src st) srcs st.

(** What holds of a microphone created at [spawn], whatever was called on it. *)
Definition microphoneInvariant (spawn : Vector3) (m : MicrophoneEntity.t) : Prop :=
  MicrophoneEntity.spawnPosition m = spawn
  /\ MicrophoneEntity.originalBodyColor m = MicrophoneEntity.colorBody
  /\ MicrophoneEntity.originalHeadColor m = MicrophoneEntity.colorHead
  /\ (MicrophoneEntity.isGrabbed m = false -> MicrophoneEntity.grabbingController m = None).

Definition sampleSpawn : Vector3 := mkVector3 0 1 (-1).

(** The number of frames in which [handleTriggerPress] was called for
    source [s]. *)
Definition pressCount {Callback : Type} (s : nat) (outs : list (UIController.Outcome Callback))
  : nat :=
  length (filter (fun o => UIController.pressedBy o = Some s) outs).

(** Source [s] reports its trigger pressed in every frame in which it
    reports a gamepad. *)
Definition heldThroughout {Callback : Type} (s : nat)
  (frames : list (UISystem.t Callback * list XRInputSource)) : Prop :=
  Forall (fun fr => Forall (fun b => b = true) (triggerReading s (snd fr))) frames.

(** A rendering library for the examples: the ray meets the mesh of the
    Continue button (object 1) at distance 2 and no other mesh; the poses of
    the examples are not rotated. *)
Definition rayOnContinue : UISystem.RenderLib :=
  UISystem.mkRenderLib
    (fun _ _ m => if bool_decide (UISystem.meshObj m = 1%nat) then Some 2%Q else None)
    (fun v _ => v).

Definition samplePose : Pose := mkPose (mkVector3 0 1 0) (mkQuaternion 0 0 0 1).

(** Controller 0 with its trigger down: tracked, then not tracked. *)
Definition heldTracked : XRInputSource :=
  mkSource 0 TrackedPointer (Some (Some samplePose)) (Some (Some samplePose)) (Some (Some true)).

Definition heldUntracked : XRInputSource :=
  mkSource 0 TrackedPointer (Some None) (Some None) (Some (Some true)).

(** What one call of [processControllerInput] does to the trigger map: *)
Definition frameEffect {Callback : Type} (srcs : list XRInputSource) (c c' : UIController.t)
  (out : UIController.Outcome Callback) : Prop :=
  (UIController.triggerStates c' = UIController.triggerStates c
   /\ UIController.pressedBy out = None /\ UIController.clicked out = None)
  \/ exists src g,
       src ∈ srcs /\ gamepad src = Some g
       /\ UIController.triggerStates c'
          = <[source src := isTriggerPressed g]> (UIController.triggerStates c)
       /\ UIController.pressedBy out
          = (if isTriggerPressed g
                && negb (wasTriggerPressed (UIController.triggerStates c) (source src))
             then Some (source src) else None)
       /\ (UIController.clicked out <> None -> UIController.pressedBy out <> None).

(** The visitor has typed "Alice" and pressed Enter: the profile request is
    awaited, the loading overlay is up, the profile input is still shown. *)
Definition awaitingProfile : AppFlowController.t :=
  AppFlowController.onKeyDown ProfileInputPanel.Enter (typed "Alice").

Definition cameraPosition : Vector3 := mkVector3 0 (16 # 10) 0.
Definition towardsContinue : Vector3 := mkVector3 0 0 (-1).

(** ** A sample database engine *)

Definition lowerCase (c : N) : N := if ((65 <=? c) && (c <=? 90))%N then (c + 32)%N else c.

(** [ILIKE] on ASCII text: [%] stands for any run of characters, [_] for
    any one character, letters match without regard to case. *)
Fixpoint sampleIlike (pattern : JSString) : JSString -> bool :=
  match pattern with
  | [] => fun s => match s with [] => true | _ => false end
  | c :: pattern' =>
      if (c =? 37)%N then
        fix star (s : JSString) : bool :=
          sampleIlike pattern' s || match s with [] => false | _ :: s' => star s' end
      else if (c =? 95)%N then
        fun s => match s with [] => false | _ :: s' => sampleIlike pattern' s' end
      else
        fun s => match s with
                 | [] => false
                 | d :: s' => (lowerCase c =? lowerCase d)%N && sampleIlike pattern' s'
                 end
  end.

Fixpoint sampleTitleLeb (a b : JSString) : bool :=
  match a, b with
  | [], _ => true
  | _ :: _, [] => false
  | x :: a', y :: b' => (x <? y)%N || ((x =? y)%N && sampleTitleLeb a' b')
  end.

(** An engine that executes every statement, and one that rejects them. *)
Definition engineUp : Server.Engine :=
  Server.mkEngine (fun _ _ => true) (fun _ => true) sampleIlike sampleTitleLeb.

Definition engineDown : Server.Engine :=
  Server.mkEngine (fun _ _ => false) (fun _ => false) sampleIlike sampleTitleLeb.

Definition sampleDb : Server.Db :=
  Server.mkDb []
    [ Server.mkSongRow "s-2" "y-2" (js "Love Story") (js "Taylor Swift") "taylor-swift";
      Server.mkSongRow "s-1" "y-1" (js "Dynamite") (js "BTS") "kpop";
      Server.mkSongRow "s-3" "y-3" (js "Blank Space") (js "Taylor Swift") "taylor-swift" ].

Definition profileBody (name : JSString) : Server.JSValue :=
  Server.JObject [("displayName", Server.JString name)].

(** "abc" followed by eighteen spaces, and "a" between spaces. *)
Definition paddedName : JSString := js "abc                  ".
Definition blankedName : JSString := js "  a   ".

(** The row that [create] inserts. *)
Definition newPlayer (uuid : string) (now : Z) (name : JSString) : Server.PlayerRow :=
  Server.mkPlayerRow uuid name now now.

(** The rows that [search] selects for [q], before ordering. *)
Definition matching (pg : Server.Engine) (q : JSString) (db : Server.Db) : list Server.SongRow :=
  filter (fun row => Server.ilike pg (js "%" ++ q ++ js "%") (Server.song_title row)
                     || Server.ilike pg (js "%" ++ q ++ js "%") (Server.song_artist row) = true)
         (Server.songs db).

Definition songsBody (rows : list Server.SongRow) : Server.JSValue :=
  Server.JObject [("songs", Server.JArray (map Server.songJson rows));
                  ("total", Server.JNumber (Z.of_nat (length rows)))].

(** ** Notions for the ray cast *)

(** The ids of all buttons of all panels, in the order of the look-up. *)
Definition buttonIds {Callback : Type} (ui : UISystem.t Callback) : list string :=
  omap (fun r => UISystem.id <$> UISystem.store ui !! r) (UISystem.allButtonRefs ui).

(** Every button reference of a panel names a button, the mesh of a button
    carries the button's id in [userData.buttonId], and no two buttons have
    the same id. *)
Definition buttonsConsistent {Callback : Type} (ui : UISystem.t Callback) : Prop :=
  Forall (fun r => is_Some (UISystem.store ui !! r)
                   /\ (fun b => UISystem.userData_buttonId (UISystem.mesh b))
                         <$> UISystem.store ui !! r
                      = UISystem.id <$> UISystem.store ui !! r)
         (UISystem.allButtonRefs ui)
  /\ NoDup (buttonIds ui).

(** The distance at which the ray meets the mesh of button [r]. *)
Definition hitDistance {Callback : Type} (lib : UISystem.RenderLib) (origin direction : Vector3)
  (ui : UISystem.t Callback) (r : nat) : option Q :=
  UISystem.store ui !! r ≫= fun b => UISystem.raycastMesh lib origin direction (UISystem.mesh b).

(** Two panels with a button of the same id; the first is hidden. *)
Definition twoOkButtons : UISystem.t Callback :=
  UISystem.showPanel UISystem.Keyboard
    (AppFlowController.addButton UISystem.Keyboard "ok" "OK" "#27ae60" (KeyClick "Done")
    (UISystem.createPanel UISystem.Keyboard
    (AppFlowController.addButton UISystem.ProfileInput "ok" "OK" "#27ae60" SubmitName
    (UISystem.createPanel UISystem.ProfileInput UISystem.empty)))).

(** The first step of [handleRaycast] once there are meshes to test: the
    hover state of the button hovered so far is reset. *)
Definition resetHover {Callback : Type} (ui : UISystem.t Callback) : UISystem.t Callback :=
  match UISystem.hoveredButton ui with
  | Some h => UISystem.setHoveredButton None (UISystem.setButtonHover h false ui)
  | None => ui
  end.

(** The hits of the ray on the meshes of the visible buttons, unsorted. *)
Definition rayHits {Callback : Type} (lib : UISystem.RenderLib) (origin direction : Vector3)
  (ui : UISystem.t Callback) : list UISystem.Intersection :=
  omap (fun m => (fun d => UISystem.mkHit d m) <$> UISystem.raycastMesh lib origin direction m)
       (UISystem.buttonMeshes ui).

(** ** Samples for the other routes *)

Definition everyLookup : Server.Db -> string -> bool := fun _ _ => true.
Definition everyUpdate : Server.Db -> string -> JSString -> bool := fun _ _ _ => true.

Definition aliceDb : Server.Db :=
  Server.mkDb [Server.mkPlayerRow "u-1" (js "Alice") 10 10;
               Server.mkPlayerRow "u-2" (js "Bob") 20 20]
              (Server.songs sampleDb).

(** ** Samples for the profile service *)

Definition aliceResponse : ProfileService.ProfileResponse :=
  ProfileService.mkProfileResponse "u-1" (js "Alice")
    "2025-01-01T00:00:00.000Z" "2025-01-01T00:00:00.000Z".

(** A server that knows the profile u-1 only. *)
Definition aliceServer (profileId : string) : ProfileService.Answer :=
  if bool_decide (profileId = "u-1") then ProfileService.Ok (inr aliceResponse)
  else ProfileService.NotOk 404 (Some (Some "Profile not found")).

Definition emptyStorage : ProfileService.Storage := ProfileService.mkStorage None false.

(** ** Notions for the further properties *)

(** A source that [processControllerInput] can use: a tracked pointer whose
    pose is known. *)
Definition usablePointer (src : XRInputSource) : Prop :=
  targetRayMode src = TrackedPointer /\ exists pose, targetRaySpace src = Some (Some pose).


(** Controller 1, tracked, trigger up. *)
Definition idleTracked : XRInputSource :=
  mkSource 1 TrackedPointer (Some (Some samplePose)) (Some (Some samplePose)) (Some (Some false)).


(** Name entry: the keyboard is opened, a key of the virtual keyboard is
    clicked, a key of the desktop keyboard goes down. *)
Inductive EntryEvent :=
| OpenKeyboard (target : KeyboardTarget)
| VirtualKey (key : string)
| DesktopKey (key : ProfileInputPanel.Key).

Definition entryStep (e : EntryEvent) (a : AppFlowController.t) : AppFlowController.t :=
  match e with
  | OpenKeyboard target => AppFlowController.openKeyboard target a
  | VirtualKey key => AppFlowController.keyPress key a
  | DesktopKey key => AppFlowController.onKeyDown key a
  end.

Definition entrySteps (es : list EntryEvent) (a : AppFlowController.t) : AppFlowController.t :=
  fold_left (fun a e => entryStep e a) es a.

(** The virtual keys are those the keyboard panel has. *)
Definition onKeyboard (e : EntryEvent) : Prop :=
  match e with
  | VirtualKey key => key ∈ concat AppFlowController.KEYBOARD_ROWS
  | _ => True
  end.

Definition entryInvariant (a : AppFlowController.t) : Prop :=
  (length (ProfileInputPanel.displayName (AppFlowController.profileInputPanel a)) <= 20)%nat
  /\ (length (VirtualKeyboard.currentText (AppFlowController.virtualKeyboard a))
      <= VirtualKeyboard.maxLength (AppFlowController.virtualKeyboard a))%nat
  /\ (AppFlowController.currentKeyboardTarget a = Some KProfile ->
      (VirtualKeyboard.maxLength (AppFlowController.virtualKeyboard a) <= 20)%nat).


Definition loadingVisible (a : AppFlowController.t) : bool :=
  LoadingIndicator.getIsVisible (AppFlowController.loadingIndicator a).

(** What reaches the flow controller from outside: a frame, and the mouse
    and key events of the desktop handlers. *)
Inductive InputEvent :=
| Frame (delta : Q) (xr : option (list XRInputSource))
| MouseClick (origin direction : Vector3)
| MouseMove (origin direction : Vector3)
| KeyDown (key : ProfileInputPanel.Key).

Definition inputStep (env : Services) (lib : UISystem.RenderLib) (e : InputEvent)
  (a : AppFlowController.t) : AppFlowController.t :=
  match e with
  | Frame delta xr => AppFlowController.update env lib delta xr a
  | MouseClick origin direction => AppFlowController.onMouseClick env lib origin direction a
  | MouseMove origin direction => AppFlowController.onMouseMove lib origin direction a
  | KeyDown key => AppFlowController.onKeyDown key a
  end.

Definition inputSteps (env : Services) (lib : UISystem.RenderLib) (es : list InputEvent)
  (a : AppFlowController.t) : AppFlowController.t :=
  fold_left (fun a e => inputStep env lib e a) es a.


(** * Properties *)

(** ** Lists *)

Lemma filter_all {A} (P : A -> Prop) `{!forall x, Decision (P x)} (l : list A) :
  Forall P l -> filter P l = l.
Proof.
  induction 1 as [|x l Hx _ IH]; [done|].
  by rewrite filter_cons_True, IH.
Qed.

Lemma filter_none {A} (P : A -> Prop) `{!forall x, Decision (P x)} (l : list A) :
  Forall (fun x => ~ P x) l -> filter P l = [].
Proof.
  induction 1 as [|x l Hx _ IH]; [done|].
  by rewrite filter_cons_False.
Qed.

(** ** The panel map *)

Section PanelMap.

Context {Callback : Type}.


Lemma mapUpdate_keys ty f (m : list (UISystem.UIPanelType * UISystem.UIPanel)) :
  map fst (UISystem.mapUpdate ty f m) = map fst m.
Proof.
  induction m as [|[k q] m IH]; simpl; [done|].
  case_decide; simpl; by rewrite ?IH.
Qed.

Lemma mapGet_mapUpdate_eq ty f (m : list (UISystem.UIPanelType * UISystem.UIPanel)) :
  UISystem.mapGet ty (UISystem.mapUpdate ty f m) = f <$> UISystem.mapGet ty m.
Proof.
  induction m as [|[k q] m IH]; simpl; [done|].
  case_decide; simpl; case_decide; try done.
Qed.

Lemma mapGet_mapUpdate_ne ty ty' f (m : list (UISystem.UIPanelType * UISystem.UIPanel)) :
  ty ≠ ty' -> UISystem.mapGet ty' (UISystem.mapUpdate ty f m) = UISystem.mapGet ty' m.
Proof.
  intros Hne. induction m as [|[k q] m IH]; simpl; [done|].
  case_decide; simpl; case_decide; try done; congruence.
Qed.

Lemma mapGet_None_notin ty (m : list (UISystem.UIPanelType * UISystem.UIPanel)) :
  UISystem.mapGet ty m = None <-> ty ∉ map fst m.
Proof.
  induction m as [|[k q] m IH]; simpl.
  - split; [intros _; apply not_elem_of_nil | done].
  - case_decide; subst.
    + split; [done | intros H; exfalso; apply H; left].
    + rewrite IH. rewrite not_elem_of_cons. naive_solver.
Qed.

Lemma mapUpdate_twice ty f (m : list (UISystem.UIPanelType * UISystem.UIPanel)) :
  (forall p, f (f p) = f p) ->
  UISystem.mapUpdate ty f (UISystem.mapUpdate ty f m) = UISystem.mapUpdate ty f m.
Proof.
  intros Hf. induction m as [|[k q] m IH]; simpl; [done|].
  case_decide; simpl; case_decide; try done; by rewrite ?Hf, ?IH.
Qed.

(** Visibility after an update of the panel [ty] that sets its flag to [v]. *)
Lemma visiblePanels_update ty f v (m : list (UISystem.UIPanelType * UISystem.UIPanel)) (st : list (UISystem.UIButton Callback)) h ap h' ap' :
  NoDup (map fst m) ->
  (forall p, UISystem.isVisible (f p) = v) ->
  UISystem.visiblePanels (UISystem.mkUI st (UISystem.mapUpdate ty f m) h ap) =
  if v then
    map fst (filter (fun kp => fst kp = ty \/ UISystem.isVisible (snd kp) = true) m)
  else
    filter (fun k => k ≠ ty) (UISystem.visiblePanels (UISystem.mkUI st m h' ap')).
Proof.
  intros Hnd Hf. unfold UISystem.visiblePanels. simpl.
  induction m as [|[k q] m IH]; simpl; [by destruct v|].
  apply NoDup_cons in Hnd as [Hk Hnd]. specialize (IH Hnd).
  case_decide as Hkt.
  - subst k.
    assert (Hm : forall g, UISystem.mapUpdate ty g m = m).
    { clear -Hk. intros g. induction m as [|[k' q'] m IH]; simpl; [done|].
      simpl in Hk. apply not_elem_of_cons in Hk as [? ?].
      case_decide; [congruence|]. by rewrite IH. }
    rewrite Hm in IH.
    rewrite !filter_cons. simpl. rewrite Hf.
    destruct v.
    + rewrite decide_True by done. rewrite (decide_True (P := ty = ty \/ _)) by (by left).
      simpl. f_equal. rewrite <- IH. done.
    + rewrite decide_False by done.
      destruct (decide (UISystem.isVisible q = true)); simpl.
      * rewrite filter_cons. rewrite decide_False by naive_solver. by rewrite <- IH.
      * by rewrite <- IH.
  - rewrite !filter_cons. simpl.
    destruct v.
    + destruct (decide (UISystem.isVisible q = true)).
      * rewrite (decide_True (P := k = ty \/ _)) by (by right). simpl. by rewrite IH.
      * rewrite (decide_False (P := k = ty \/ _)) by naive_solver. by rewrite IH.
    + destruct (decide (UISystem.isVisible q = true)); simpl.
      * rewrite filter_cons. rewrite decide_True by done. by rewrite IH.
      * by rewrite IH.
Qed.

End PanelMap.

(** ** Showing and hiding panels *)

Section Visibility.

Context {Callback : Type}.

Lemma mapUpdate_unregistered ty f (m : list (UISystem.UIPanelType * UISystem.UIPanel)) :
  UISystem.mapGet ty m = None -> UISystem.mapUpdate ty f m = m.
Proof.
  induction m as [|[k q] m IH]; simpl; [done|].
  case_decide; [done|]. intros H'. by rewrite IH.
Qed.

Lemma mapUpdate_comm ty1 ty2 f g (m : list (UISystem.UIPanelType * UISystem.UIPanel)) :
  (forall p, f (g p) = g (f p)) ->
  UISystem.mapUpdate ty1 f (UISystem.mapUpdate ty2 g m) =
  UISystem.mapUpdate ty2 g (UISystem.mapUpdate ty1 f m).
Proof.
  intros Hfg. induction m as [|[k q] m IH]; simpl; [done|].
  repeat (case_decide; simpl); subst; try congruence; by rewrite ?Hfg, ?IH.
Qed.

Lemma hidePanel_unfold ty (ui : UISystem.t Callback) :
  UISystem.hidePanel ty ui =
  UISystem.mkUI (UISystem.store ui) (UISystem.mapUpdate ty hidden (UISystem.panels ui))
    (UISystem.hoveredButton ui)
    (if decide (UISystem.activePanel ui = Some ty /\ is_Some (UISystem.mapGet ty (UISystem.panels ui)))
     then None else UISystem.activePanel ui).
Proof.
  unfold UISystem.hidePanel. destruct ui as [st m h ap]; simpl.
  destruct (UISystem.mapGet ty m) eqn:E.
  - f_equal. repeat case_decide; try done; naive_solver.
  - rewrite mapUpdate_unregistered by done.
    rewrite decide_False; [done|]. intros [_ [? ?]]; done.
Qed.

Lemma showPanel_unfold ty (ui : UISystem.t Callback) :
  UISystem.showPanel ty ui =
  UISystem.mkUI (UISystem.store ui) (UISystem.mapUpdate ty shown (UISystem.panels ui))
    (UISystem.hoveredButton ui)
    (if decide (is_Some (UISystem.mapGet ty (UISystem.panels ui)))
     then Some ty else UISystem.activePanel ui).
Proof.
  unfold UISystem.showPanel. destruct ui as [st m h ap]; simpl.
  destruct (UISystem.mapGet ty m) eqn:E.
  - rewrite decide_True by eauto. done.
  - rewrite mapUpdate_unregistered by done.
    rewrite decide_False; [done|]. intros [? ?]; done.
Qed.

Lemma hidePanel_keys ty (ui : UISystem.t Callback) :
  map fst (UISystem.panels (UISystem.hidePanel ty ui)) = map fst (UISystem.panels ui).
Proof. rewrite hidePanel_unfold. simpl. apply mapUpdate_keys. Qed.

Lemma showPanel_keys ty (ui : UISystem.t Callback) :
  map fst (UISystem.panels (UISystem.showPanel ty ui)) = map fst (UISystem.panels ui).
Proof. rewrite showPanel_unfold. simpl. apply mapUpdate_keys. Qed.

Lemma mapGet_is_Some_update ty ty' f (m : list (UISystem.UIPanelType * UISystem.UIPanel)) :
  is_Some (UISystem.mapGet ty' (UISystem.mapUpdate ty f m)) <-> is_Some (UISystem.mapGet ty' m).
Proof.
  destruct (decide (ty = ty')) as [->|Hne].
  - rewrite mapGet_mapUpdate_eq. by rewrite fmap_is_Some.
  - by rewrite mapGet_mapUpdate_ne.
Qed.

Lemma hidePanel_idem ty (ui : UISystem.t Callback) :
  UISystem.hidePanel ty (UISystem.hidePanel ty ui) = UISystem.hidePanel ty ui.
Proof.
  rewrite (hidePanel_unfold ty (UISystem.hidePanel ty ui)).
  rewrite !hidePanel_unfold. simpl.
  rewrite mapUpdate_twice by done. f_equal.
  repeat case_decide; try done; exfalso;
    repeat match goal with
           | H : context [UISystem.mapGet _ (UISystem.mapUpdate _ _ _)] |- _ =>
               rewrite mapGet_is_Some_update in H
           end; naive_solver.
Qed.

Lemma hidePanel_comm ty1 ty2 (ui : UISystem.t Callback) :
  UISystem.hidePanel ty1 (UISystem.hidePanel ty2 ui) =
  UISystem.hidePanel ty2 (UISystem.hidePanel ty1 ui).
Proof.
  rewrite (hidePanel_unfold ty1 (UISystem.hidePanel ty2 ui)).
  rewrite (hidePanel_unfold ty2 (UISystem.hidePanel ty1 ui)).
  rewrite !hidePanel_unfold. simpl.
  rewrite (mapUpdate_comm ty1 ty2) by done. f_equal.
  repeat case_decide; try done; exfalso;
    repeat match goal with
           | H : context [UISystem.mapGet _ (UISystem.mapUpdate _ _ _)] |- _ =>
               rewrite mapGet_is_Some_update in H
           end; naive_solver.
Qed.

Lemma hideEach_cons k ks (ui : UISystem.t Callback) :
  hideEach (k :: ks) ui = hideEach ks (UISystem.hidePanel k ui).
Proof. done. Qed.

Lemma hideEach_hidePanel ks ty (ui : UISystem.t Callback) :
  hideEach ks (UISystem.hidePanel ty ui) = UISystem.hidePanel ty (hideEach ks ui).
Proof.
  revert ui. induction ks as [|k ks IH]; intros ui; [done|].
  rewrite !hideEach_cons, <- IH. by rewrite hidePanel_comm.
Qed.

Lemma hideEach_idem ks (ui : UISystem.t Callback) :
  hideEach ks (hideEach ks ui) = hideEach ks ui.
Proof.
  revert ui. induction ks as [|k ks IH]; intros ui; [done|].
  rewrite !hideEach_cons.
  rewrite (hideEach_hidePanel ks k (hideEach ks _)), IH.
  by rewrite !hideEach_hidePanel, hidePanel_idem.
Qed.

Lemma hideEach_keys ks (ui : UISystem.t Callback) :
  map fst (UISystem.panels (hideEach ks ui)) = map fst (UISystem.panels ui).
Proof.
  revert ui. induction ks as [|k ks IH]; intros ui; [done|].
  by rewrite hideEach_cons, IH, hidePanel_keys.
Qed.

Lemma hideAllPanels_idem (ui : UISystem.t Callback) :
  UISystem.hideAllPanels (UISystem.hideAllPanels ui) = UISystem.hideAllPanels ui.
Proof.
  unfold UISystem.hideAllPanels.
  change (hideEach (map fst (UISystem.panels (hideEach (map fst (UISystem.panels ui)) ui)))
            (hideEach (map fst (UISystem.panels ui)) ui)
          = hideEach (map fst (UISystem.panels ui)) ui).
  rewrite hideEach_keys. apply hideEach_idem.
Qed.

Lemma hidePanel_wellFormed ty (ui : UISystem.t Callback) :
  UISystem.wellFormed ui -> UISystem.wellFormed (UISystem.hidePanel ty ui).
Proof. unfold UISystem.wellFormed. by rewrite hidePanel_keys. Qed.

Lemma showPanel_wellFormed ty (ui : UISystem.t Callback) :
  UISystem.wellFormed ui -> UISystem.wellFormed (UISystem.showPanel ty ui).
Proof. unfold UISystem.wellFormed. by rewrite showPanel_keys. Qed.

Lemma hideAllPanels_wellFormed (ui : UISystem.t Callback) :
  UISystem.wellFormed ui -> UISystem.wellFormed (UISystem.hideAllPanels ui).
Proof.
  unfold UISystem.wellFormed, UISystem.hideAllPanels.
  change (fold_left _ ?ks ui) with (hideEach ks ui). by rewrite hideEach_keys.
Qed.

Lemma visiblePanels_hidePanel ty (ui : UISystem.t Callback) :
  UISystem.wellFormed ui ->
  UISystem.visiblePanels (UISystem.hidePanel ty ui) =
  filter (fun k => k ≠ ty) (UISystem.visiblePanels ui).
Proof.
  intros Hwf. rewrite hidePanel_unfold.
  rewrite (visiblePanels_update ty hidden false _ _ _ _
             (UISystem.hoveredButton ui) (UISystem.activePanel ui)); [|done|done].
  by destruct ui.
Qed.

Lemma visiblePanels_showPanel ty (ui : UISystem.t Callback) :
  UISystem.wellFormed ui ->
  UISystem.visiblePanels (UISystem.showPanel ty ui) =
  map fst (filter (fun kp => fst kp = ty \/ UISystem.isVisible (snd kp) = true)
                  (UISystem.panels ui)).
Proof.
  intros Hwf. rewrite showPanel_unfold.
  by rewrite (visiblePanels_update ty shown true _ _ _ _
                (UISystem.hoveredButton ui) (UISystem.activePanel ui)).
Qed.

Lemma visiblePanels_hideEach ks (ui : UISystem.t Callback) :
  UISystem.wellFormed ui ->
  UISystem.visiblePanels (hideEach ks ui) =
  filter (fun k => k ∉ ks) (UISystem.visiblePanels ui).
Proof.
  revert ui. induction ks as [|k ks IH]; intros ui Hwf.
  - symmetry. apply filter_all, Forall_forall. intros x _. apply not_elem_of_nil.
  - rewrite hideEach_cons, IH by by apply hidePanel_wellFormed.
    rewrite visiblePanels_hidePanel by done.
    rewrite list_filter_filter. apply list_filter_iff.
    intros x. rewrite not_elem_of_cons. naive_solver.
Qed.

Lemma visiblePanels_subseteq_keys (ui : UISystem.t Callback) :
  UISystem.visiblePanels ui ⊆ map fst (UISystem.panels ui).
Proof.
  unfold UISystem.visiblePanels. intros k Hk.
  apply list_elem_of_fmap in Hk as [kp [-> Hkp]].
  apply list_elem_of_filter in Hkp as [_ Hkp].
  apply list_elem_of_fmap. eauto.
Qed.

Lemma visiblePanels_hideAllPanels (ui : UISystem.t Callback) :
  UISystem.wellFormed ui -> UISystem.visiblePanels (UISystem.hideAllPanels ui) = [].
Proof.
  intros Hwf. unfold UISystem.hideAllPanels.
  change (fold_left _ ?ks ui) with (hideEach ks ui).
  rewrite visiblePanels_hideEach by done.
  apply filter_none, Forall_forall. intros k Hk Hn.
  apply Hn. by apply visiblePanels_subseteq_keys.
Qed.

Lemma hasVisiblePanel_visiblePanels (ui : UISystem.t Callback) :
  UISystem.hasVisiblePanel ui = negb (bool_decide (UISystem.visiblePanels ui = [])).
Proof.
  unfold UISystem.hasVisiblePanel, UISystem.visiblePanels.
  induction (UISystem.panels ui) as [|[k q] m IH]; simpl; [done|].
  rewrite filter_cons. simpl. destruct (UISystem.isVisible q); simpl; [done|].
  by rewrite IH.
Qed.

End Visibility.

(** ** Panels shown by the flow *)

Section FlowPanels.

Lemma visiblePanels_show_after_hide {Callback : Type} ty (ui : UISystem.t Callback) :
  UISystem.wellFormed ui ->
  UISystem.visiblePanels ui = [] ->
  UISystem.visiblePanels (UISystem.showPanel ty ui) = only ty ui.
Proof.
  intros Hwf Hnone. rewrite visiblePanels_showPanel by done.
  unfold only, UISystem.visiblePanels, UISystem.wellFormed in *.
  induction (UISystem.panels ui) as [|[k q] m IH]; simpl in *; [done|].
  apply NoDup_cons in Hwf as [Hk Hwf].
  rewrite filter_cons in Hnone. simpl in Hnone.
  destruct (decide (UISystem.isVisible q = true)) as [Hq|Hq]; [done|].
  specialize (IH Hwf Hnone).
  rewrite filter_cons. simpl.
  destruct (decide (k = ty)) as [->|Hne].
  - rewrite decide_True by (by left). simpl.
    rewrite bool_decide_eq_true_2 by left.
    rewrite IH. by rewrite bool_decide_eq_false_2.
  - rewrite decide_False by naive_solver. rewrite IH.
    assert (bool_decide (ty ∈ k :: map fst m) = bool_decide (ty ∈ map fst m)) as ->; [|done].
    apply bool_decide_ext. rewrite elem_of_cons. naive_solver.
Qed.

Lemma addButtonToPanel_visiblePanels {Callback : Type} ty b (ui : UISystem.t Callback) :
  UISystem.visiblePanels (UISystem.addButtonToPanel ty b ui) = UISystem.visiblePanels ui
  /\ map fst (UISystem.panels (UISystem.addButtonToPanel ty b ui)) = map fst (UISystem.panels ui).
Proof.
  unfold UISystem.addButtonToPanel, UISystem.visiblePanels. simpl.
  split; [|apply mapUpdate_keys].
  induction (UISystem.panels ui) as [|[k q] m IH]; simpl; [done|].
  case_decide; simpl; rewrite !filter_cons; simpl;
    destruct (decide (UISystem.isVisible q = true)); simpl; by rewrite ?IH.
Qed.

Lemma updateSongList_visiblePanels p (ui : UISystem.t Callback) :
  UISystem.visiblePanels (SongSearchPanel.updateSongList p ui) = UISystem.visiblePanels ui
  /\ map fst (UISystem.panels (SongSearchPanel.updateSongList p ui)) = map fst (UISystem.panels ui).
Proof.
  unfold SongSearchPanel.updateSongList.
  destruct (UISystem.getPanel UISystem.SongSearch ui); [|done].
  generalize (take SongSearchPanel.maxVisibleSongs (SongSearchPanel.songs p)).
  intros l. revert ui. induction l as [|s l IH]; intros ui; simpl; [done|].
  destruct (IH (UISystem.addButtonToPanel UISystem.SongSearch
                  (SongSearchPanel.createSongButton s (length (UISystem.store ui))) ui))
    as [-> ->].
  apply addButtonToPanel_visiblePanels.
Qed.

Lemma only_keys {Callback : Type} ty (ui ui' : UISystem.t Callback) :
  map fst (UISystem.panels ui') = map fst (UISystem.panels ui) -> only ty ui' = only ty ui.
Proof. unfold only. by intros ->. Qed.

Lemma hideAllPanels_keys {Callback : Type} (ui : UISystem.t Callback) :
  map fst (UISystem.panels (UISystem.hideAllPanels ui)) = map fst (UISystem.panels ui).
Proof. apply hideEach_keys. Qed.

Lemma showProfileInput_ui a :
  AppFlowController.uiSystem (AppFlowController.showProfileInput a) =
  UISystem.showPanel UISystem.ProfileInput
    (UISystem.hideAllPanels (AppFlowController.uiSystem a)).
Proof. done. Qed.

Lemma showRoomSelection_ui a :
  AppFlowController.uiSystem (AppFlowController.showRoomSelection a) =
  UISystem.showPanel UISystem.RoomSelection
    (UISystem.hideAllPanels (AppFlowController.uiSystem a)).
Proof. done. Qed.

Lemma showSongSearch_begin_ui a :
  AppFlowController.uiSystem (AppFlowController.showSongSearch_begin a) =
  UISystem.hideAllPanels (AppFlowController.uiSystem a).
Proof. done. Qed.

Lemma showSongSearch_ui env a :
  exists p,
    AppFlowController.uiSystem (AppFlowController.showSongSearch env a) =
    UISystem.showPanel UISystem.SongSearch
      (SongSearchPanel.updateSongList p (UISystem.hideAllPanels (AppFlowController.uiSystem a))).
Proof.
  unfold AppFlowController.showSongSearch, AppFlowController.showSongSearch_resume.
  unfold SongSearchPanel.loadSongs_resume. simpl. eauto.
Qed.

Lemma handleSongSelect_ui yid a :
  AppFlowController.uiSystem (AppFlowController.handleSongSelect yid a) =
  UISystem.hidePanel UISystem.SongSearch (AppFlowController.uiSystem a).
Proof. done. Qed.

End FlowPanels.

(** ** Claims on the panel registry and the panels the flow shows *)

(** C9.  [hidePanel] and [hideAllPanels] are idempotent: hiding a panel a
    second time changes nothing and the panel is hidden after each call;
    hiding all panels a second time changes nothing, and after
    [hideAllPanels] no panel is flagged visible.  Both are total functions:
    no call fails, whether the panel is registered or not. *)
Theorem hide_is_idempotent {Callback : Type} (ui : UISystem.t Callback) (ty : UISystem.UIPanelType) :
  UISystem.wellFormed ui ->
  UISystem.hidePanel ty (UISystem.hidePanel ty ui) = UISystem.hidePanel ty ui
  /\ (ty ∉ UISystem.visiblePanels (UISystem.hidePanel ty ui))
  /\ (ty ∉ UISystem.visiblePanels (UISystem.hidePanel ty (UISystem.hidePanel ty ui)))
  /\ UISystem.hideAllPanels (UISystem.hideAllPanels ui) = UISystem.hideAllPanels ui
  /\ UISystem.visiblePanels (UISystem.hideAllPanels ui) = []
  /\ UISystem.hasVisiblePanel (UISystem.hideAllPanels ui) = false.
Proof.
  intros Hwf.
  assert (Hty : ty ∉ UISystem.visiblePanels (UISystem.hidePanel ty ui)).
  { rewrite visiblePanels_hidePanel by done.
    intros [? _]%list_elem_of_filter. done. }
  repeat split.
  - apply hidePanel_idem.
  - done.
  - by rewrite hidePanel_idem.
  - apply hideAllPanels_idem.
  - by apply visiblePanels_hideAllPanels.
  - rewrite hasVisiblePanel_visiblePanels, visiblePanels_hideAllPanels by done. done.
Qed.

Lemma hide_is_idempotent_witness :
  UISystem.wellFormed (AppFlowController.uiSystem searchKeyboardOpen)
  /\ UISystem.hidePanel UISystem.Keyboard
       (UISystem.hidePanel UISystem.Keyboard (AppFlowController.uiSystem searchKeyboardOpen))
     = UISystem.hidePanel UISystem.Keyboard (AppFlowController.uiSystem searchKeyboardOpen).
Proof.
  assert (Hwf : UISystem.wellFormed (AppFlowController.uiSystem searchKeyboardOpen)).
  { unfold UISystem.wellFormed. apply (bool_decide_unpack _). vm_compute. exact I. }
  split; [exact Hwf|].
  exact (proj1 (hide_is_idempotent (AppFlowController.uiSystem searchKeyboardOpen)
                  UISystem.Keyboard Hwf)).
Defined.

(** C3 does not hold as stated: entering playing-song does not hide all
    panels.  With the keyboard open over the song list, selecting a song
    leaves the keyboard visible, a panel that the transition did not show;
    hiding all panels first would have left none. *)
Lemma song_select_keeps_keyboard :
  UISystem.visiblePanels (AppFlowController.uiSystem searchKeyboardOpen)
    = [UISystem.SongSearch; UISystem.Keyboard]
  /\ AppFlowController.currentState
       (AppFlowController.handleSongSelect "dQw4w9WgXcQ" searchKeyboardOpen)
     = AppFlowController.PlayingSong
  /\ UISystem.visiblePanels
       (AppFlowController.uiSystem
          (AppFlowController.handleSongSelect "dQw4w9WgXcQ" searchKeyboardOpen))
     = [UISystem.Keyboard]
  /\ UISystem.visiblePanels
       (UISystem.hideAllPanels (AppFlowController.uiSystem searchKeyboardOpen))
     = [].
Proof. vm_compute. done. Qed.

(** C3, amended.  Showing the profile input, the room selection and the song
    search hides all panels and then shows that one panel, so afterwards it
    is the only panel flagged visible (none while the songs are awaited);
    entering playing-song hides the song search panel only and leaves the
    visibility of every other panel as it was. *)
Theorem shown_panel_is_alone (env : Services) (yid : string) (a : AppFlowController.t) :
  UISystem.wellFormed (AppFlowController.uiSystem a) ->
  UISystem.visiblePanels (AppFlowController.uiSystem (AppFlowController.showProfileInput a))
    = only UISystem.ProfileInput (AppFlowController.uiSystem a)
  /\ UISystem.visiblePanels (AppFlowController.uiSystem (AppFlowController.showRoomSelection a))
    = only UISystem.RoomSelection (AppFlowController.uiSystem a)
  /\ UISystem.visiblePanels (AppFlowController.uiSystem (AppFlowController.showSongSearch_begin a))
    = []
  /\ UISystem.visiblePanels (AppFlowController.uiSystem (AppFlowController.showSongSearch env a))
    = only UISystem.SongSearch (AppFlowController.uiSystem a)
  /\ UISystem.visiblePanels (AppFlowController.uiSystem (AppFlowController.handleSongSelect yid a))
    = filter (fun ty => ty ≠ UISystem.SongSearch)
             (UISystem.visiblePanels (AppFlowController.uiSystem a)).
Proof.
  intros Hwf.
  pose proof (hideAllPanels_wellFormed _ Hwf) as Hwf'.
  pose proof (visiblePanels_hideAllPanels _ Hwf) as Hnone.
  repeat split.
  - rewrite showProfileInput_ui, visiblePanels_show_after_hide by done.
    apply only_keys, hideAllPanels_keys.
  - rewrite showRoomSelection_ui, visiblePanels_show_after_hide by done.
    apply only_keys, hideAllPanels_keys.
  - by rewrite showSongSearch_begin_ui.
  - destruct (showSongSearch_ui env a) as [p ->].
    destruct (updateSongList_visiblePanels p
                (UISystem.hideAllPanels (AppFlowController.uiSystem a))) as [Hv Hk].
    rewrite visiblePanels_show_after_hide.
    + apply only_keys. by rewrite Hk, hideAllPanels_keys.
    + unfold UISystem.wellFormed. by rewrite Hk.
    + by rewrite Hv.
  - rewrite handleSongSelect_ui. by apply visiblePanels_hidePanel.
Qed.

Lemma shown_panel_is_alone_witness :
  UISystem.wellFormed (AppFlowController.uiSystem searchKeyboardOpen)
  /\ UISystem.visiblePanels
       (AppFlowController.uiSystem (AppFlowController.showRoomSelection searchKeyboardOpen))
     = only UISystem.RoomSelection (AppFlowController.uiSystem searchKeyboardOpen).
Proof.
  assert (Hwf : UISystem.wellFormed (AppFlowController.uiSystem searchKeyboardOpen)).
  { unfold UISystem.wellFormed. apply (bool_decide_unpack _). vm_compute. exact I. }
  split; [exact Hwf|].
  exact (proj1 (proj2 (shown_panel_is_alone servicesUp "dQw4w9WgXcQ" searchKeyboardOpen Hwf))).
Defined.

(** ** Claims on the retry thunk and on the display name *)

Lemma invoke_lastFailedAction env th a :
  AppFlowController.lastFailedAction a = Some th ->
  AppFlowController.lastFailedAction (AppFlowController.invoke env th a) = Some th.
Proof.
  intros Hth. destruct th as [name|theme|]; simpl.
  - unfold AppFlowController.handleProfileSubmit, AppFlowController.handleProfileSubmit_resume.
    destruct (createProfileResult env name); simpl; done.
  - unfold AppFlowController.handleRoomSelect, AppFlowController.handleRoomSelect_resume.
    destruct (roomSetupResult env theme); simpl; done.
  - unfold AppFlowController.showSongSearch. simpl. done.
Qed.

Lemma invoke_issued env th a :
  AppFlowController.issued (AppFlowController.invoke env th a)
  = callOf th a :: AppFlowController.issued a.
Proof.
  destruct th as [name|theme|]; simpl.
  - unfold AppFlowController.handleProfileSubmit, AppFlowController.handleProfileSubmit_resume.
    destruct (createProfileResult env name); simpl; done.
  - unfold AppFlowController.handleRoomSelect, AppFlowController.handleRoomSelect_resume.
    destruct (roomSetupResult env theme); simpl; done.
  - unfold AppFlowController.showSongSearch. simpl. done.
Qed.

(** C1 does not hold as stated: after a failed profile request the retry
    succeeds (the flow is at the room selection) and the thunk is still
    stored; it is still stored after a dismiss; a second retry issues the
    profile request once more. *)
Lemma retry_thunk_survives_retry_and_dismiss :
  AppFlowController.lastFailedAction profileSubmitFailed
    = Some (AppFlowController.RetryProfileSubmit (js "Alice"))
  /\ AppFlowController.currentState
       (AppFlowController.handleErrorRetry servicesUp profileSubmitFailed)
     = AppFlowController.RoomSelectionState
  /\ AppFlowController.lastFailedAction
       (AppFlowController.handleErrorRetry servicesUp profileSubmitFailed) <> None
  /\ AppFlowController.lastFailedAction
       (AppFlowController.handleErrorDismiss servicesUp profileSubmitFailed) <> None
  /\ AppFlowController.issued
       (AppFlowController.handleErrorRetry servicesUp
          (AppFlowController.handleErrorRetry servicesUp profileSubmitFailed))
     = [CreateProfile (js "Alice"); CreateProfile (js "Alice"); CreateProfile (js "Alice")].
Proof. vm_compute. repeat split; done. Qed.

(** C1, amended.  [lastFailedAction] is written by [showError] only and is
    never cleared: after [handleErrorRetry], whether the retried operation
    succeeds or fails, and after [handleErrorDismiss] the same thunk is
    stored, and a second [handleErrorRetry] invokes it again, issuing its
    service call a second time. *)
Theorem retry_thunk_is_kept (env : Services) (a : AppFlowController.t)
  (th : AppFlowController.RetryThunk) :
  AppFlowController.lastFailedAction a = Some th ->
  AppFlowController.lastFailedAction (AppFlowController.handleErrorRetry env a) = Some th
  /\ AppFlowController.lastFailedAction (AppFlowController.handleErrorDismiss env a) = Some th
  /\ AppFlowController.issued
       (AppFlowController.handleErrorRetry env (AppFlowController.handleErrorRetry env a))
     = callOf th (AppFlowController.handleErrorRetry env a)
         :: callOf th a :: AppFlowController.issued a.
Proof.
  intros Hth.
  assert (Hretry : AppFlowController.handleErrorRetry env a = AppFlowController.invoke env th a).
  { unfold AppFlowController.handleErrorRetry. by rewrite Hth. }
  assert (Hkept : AppFlowController.lastFailedAction (AppFlowController.invoke env th a) = Some th)
    by by apply invoke_lastFailedAction.
  repeat split.
  - by rewrite Hretry.
  - unfold AppFlowController.handleErrorDismiss. simpl.
    destruct (SceneManager.getCurrentRoom (AppFlowController.sceneManager a)); simpl; done.
  - rewrite Hretry. unfold AppFlowController.handleErrorRetry at 1. rewrite Hkept.
    by rewrite !invoke_issued.
Qed.

Lemma retry_thunk_is_kept_witness :
  AppFlowController.lastFailedAction profileSubmitFailed
    = Some (AppFlowController.RetryProfileSubmit (js "Alice"))
  /\ AppFlowController.lastFailedAction
       (AppFlowController.handleErrorRetry servicesUp profileSubmitFailed)
     = Some (AppFlowController.RetryProfileSubmit (js "Alice")).
Proof.
  assert (H : AppFlowController.lastFailedAction profileSubmitFailed
              = Some (AppFlowController.RetryProfileSubmit (js "Alice")))
    by (vm_compute; reflexivity).
  split; [exact H|].
  exact (proj1 (retry_thunk_is_kept servicesUp profileSubmitFailed
                  (AppFlowController.RetryProfileSubmit (js "Alice")) H)).
Defined.

(** C2.  The submitted display name passes validation exactly when its
    trimmed length is between 3 and 20; otherwise an error message is set and
    displayed, [onSubmit] is not called, no service call is issued and the
    flow controller is untouched (its state stays where it was, at
    profile-input); when it passes, [onSubmit] receives the trimmed name and
    the profile request is issued. *)
Theorem display_name_validation (a : AppFlowController.t) :
  let p := AppFlowController.profileInputPanel a in
  let name := trim (ProfileInputPanel.displayName p) in
  (fst (ProfileInputPanel.validateName p) = true <-> (3 <= length name <= 20)%nat)
  /\ (fst (ProfileInputPanel.validateName p) = false ->
        ProfileInputPanel.errorMessage (fst (ProfileInputPanel.handleSubmit p)) <> String.EmptyString
        /\ ProfileInputPanel.errorMeshVisible (fst (ProfileInputPanel.handleSubmit p)) = true
        /\ snd (ProfileInputPanel.handleSubmit p) = None
        /\ AppFlowController.submitName a
           = AppFlowController.withProfilePanel
               (fun _ => fst (ProfileInputPanel.handleSubmit p)) a
        /\ AppFlowController.issued (AppFlowController.submitName a) = AppFlowController.issued a
        /\ AppFlowController.currentState (AppFlowController.submitName a)
           = AppFlowController.currentState a)
  /\ (fst (ProfileInputPanel.validateName p) = true ->
        snd (ProfileInputPanel.handleSubmit p) = Some name
        /\ AppFlowController.issued (AppFlowController.submitName a)
           = CreateProfile name :: AppFlowController.issued a).
Proof.
  intros p name.
  unfold AppFlowController.submitName, ProfileInputPanel.handleSubmit.
  fold p. unfold ProfileInputPanel.validateName. fold name.
  unfold ProfileInputPanel.NAME_MIN_LENGTH, ProfileInputPanel.NAME_MAX_LENGTH.
  destruct (length name <? 3)%nat eqn:Hmin; simpl.
  { apply Nat.ltb_lt in Hmin. repeat split; try done; lia. }
  apply Nat.ltb_ge in Hmin.
  destruct (20 <? length name)%nat eqn:Hmax; simpl.
  { apply Nat.ltb_lt in Hmax. repeat split; try done; lia. }
  apply Nat.ltb_ge in Hmax. repeat split; try done; lia.
Qed.

Lemma display_name_validation_witness :
  fst (ProfileInputPanel.validateName (AppFlowController.profileInputPanel (typed "Al"))) = false
  /\ AppFlowController.issued (AppFlowController.submitName (typed "Al"))
     = AppFlowController.issued (typed "Al").
Proof.
  assert (H : fst (ProfileInputPanel.validateName
                     (AppFlowController.profileInputPanel (typed "Al"))) = false)
    by (vm_compute; reflexivity).
  split; [exact H|].
  exact (proj1 (proj2 (proj2 (proj2 (proj2
           (proj1 (proj2 (display_name_validation (typed "Al"))) H)))))).
Defined.

(** ** Claims on the microphone *)

Lemma microphoneInvariant_create spawn :
  microphoneInvariant spawn (MicrophoneEntity.create spawn).
Proof. by repeat split. Qed.

Lemma microphoneInvariant_call spawn m c :
  microphoneInvariant spawn m -> microphoneInvariant spawn (microphoneCall m c).
Proof.
  intros (Hs & Hb & Hh & Hg).
  destruct c as [controller| |p]; simpl;
    unfold MicrophoneEntity.grab, MicrophoneEntity.release, MicrophoneEntity.updatePosition;
    destruct (MicrophoneEntity.isGrabbed m) eqn:E; simpl; repeat split; try done.
  all: simpl; rewrite ?E; done.
Qed.

Lemma microphoneInvariant_calls spawn cs m :
  microphoneInvariant spawn m -> microphoneInvariant spawn (microphoneCalls cs m).
Proof.
  revert m. induction cs as [|c cs IH]; intros m Hm; [done|].
  apply IH. by apply microphoneInvariant_call.
Qed.

Lemma isGrabbedBy_inv c m :
  MicrophoneEntity.isGrabbedBy c m = true <->
  MicrophoneEntity.isGrabbed m = true /\ MicrophoneEntity.grabbingController m = Some c.
Proof.
  unfold MicrophoneEntity.isGrabbedBy.
  rewrite andb_true_iff, bool_decide_eq_true. done.
Qed.

(** One source of a frame, with the microphone held by [c]: it stays with
    [c], or this source is [c] reporting its trigger up, and the microphone
    is released. *)
Lemma microphoneStep_held c src states m :
  MicrophoneEntity.isGrabbedBy c m = true ->
  MicrophoneEntity.isGrabbedBy c (snd (AppFlowController.microphoneStep src (states, m))) = true
  \/ (source src = c /\ isTriggerPressed <$> gamepad src = Some false
      /\ wasTriggerPressed states c = true
      /\ snd (AppFlowController.microphoneStep src (states, m)) = MicrophoneEntity.release m).
Proof.
  intros Hc. pose proof Hc as [Hg Hctl]%isGrabbedBy_inv.
  unfold AppFlowController.microphoneStep.
  destruct (gamepad src) as [g|]; [|by left].
  destruct (gripSpace src) as [[pose|]|]; [|by left|by left].
  simpl. rewrite Hg. simpl.
  rewrite (andb_false_r _ : _ && false = false) || idtac.
  destruct (isTriggerPressed g) eqn:Hp, (wasTriggerPressed states (source src)) eqn:Hw; simpl.
  all: try (destruct (MicrophoneEntity.isGrabbedBy (source src) m) eqn:Hsrc;
            [ rewrite ?Hsrc | rewrite ?Hsrc ]).
  all: try (left; unfold MicrophoneEntity.updatePosition; rewrite Hg;
            apply isGrabbedBy_inv; simpl; done).
  all: try (left; done).
  (* the trigger went up on the source that holds the microphone *)
  right.
  apply isGrabbedBy_inv in Hsrc as [_ Hsrc].
  assert (source src = c) as Heq by congruence.
  assert (Hrel : MicrophoneEntity.isGrabbedBy (source src) (MicrophoneEntity.release m) = false).
  { unfold MicrophoneEntity.isGrabbedBy, MicrophoneEntity.release. by rewrite Hg. }
  rewrite Hrel. subst c. repeat split; done.
Qed.

Lemma microphoneSteps_held c srcs states m :
  MicrophoneEntity.isGrabbedBy c m = true ->
  MicrophoneEntity.isGrabbedBy c (snd (microphoneSteps srcs (states, m))) = true
  \/ exists src, src ∈ srcs /\ source src = c /\ isTriggerPressed <$> gamepad src = Some false.
Proof.
  revert states m. induction srcs as [|src srcs IH]; intros states m Hc; [by left|].
  change (microphoneSteps (src :: srcs) (states, m))
    with (microphoneSteps srcs (AppFlowController.microphoneStep src (states, m))).
  destruct (microphoneStep_held c src states m Hc) as [Hkeep|(Hs & Hg & _ & _)].
  - destruct (AppFlowController.microphoneStep src (states, m)) as [states' m'].
    destruct (IH states' m' Hkeep) as [?|(s & Hin & ? & ?)]; [by left|].
    right. exists s. split; [apply elem_of_cons; by right|done].
  - right. exists src. split; [apply elem_of_cons; by left|done].
Qed.

Lemma processMicrophoneInput_steps srcs a mic :
  SceneManager.getCurrentMicrophone (AppFlowController.sceneManager a) = Some mic ->
  SceneManager.getCurrentMicrophone
    (AppFlowController.sceneManager (AppFlowController.processMicrophoneInput srcs a))
  = Some (snd (microphoneSteps srcs (AppFlowController.triggerStates a, mic))).
Proof.
  intros Hmic. unfold AppFlowController.processMicrophoneInput. rewrite Hmic.
  change (fold_left _ srcs ?st) with (microphoneSteps srcs st).
  by destruct (microphoneSteps srcs (AppFlowController.triggerStates a, mic)).
Qed.

(** C10.  For a microphone created at [spawn] and any sequence of calls made
    on it since: [grab] on a grabbed microphone changes nothing, so the
    holder stays who it is; [release] on a microphone that is not grabbed
    changes nothing, and such a microphone has no holder; a [release] that
    takes effect puts the microphone at [spawn] with the colours it was
    created with, not emissive, not grabbed and without holder; and while
    controller [c] holds it, a frame of [processMicrophoneInput] leaves it
    with [c] unless the frame has [c] itself reporting its trigger up. *)
Theorem microphone_grab_is_exclusive (spawn : Vector3) (cs : list MicrophoneCall)
  (c : nat) (srcs : list XRInputSource) (states : gmap nat bool) :
  let m := microphoneCalls cs (MicrophoneEntity.create spawn) in
  (MicrophoneEntity.isGrabbed m = true ->
     forall controller, MicrophoneEntity.grab controller m = m)
  /\ (MicrophoneEntity.isGrabbed m = false ->
        MicrophoneEntity.release m = m /\ MicrophoneEntity.grabbingController m = None)
  /\ (MicrophoneEntity.isGrabbed m = true ->
        MicrophoneEntity.rootPosition (MicrophoneEntity.release m) = spawn
        /\ MicrophoneEntity.bodyMaterial (MicrophoneEntity.release m)
           = MicrophoneEntity.mkMaterial MicrophoneEntity.colorBody MicrophoneEntity.black 0
        /\ MicrophoneEntity.headMaterial (MicrophoneEntity.release m)
           = MicrophoneEntity.mkMaterial MicrophoneEntity.colorHead MicrophoneEntity.black 0
        /\ MicrophoneEntity.isGrabbed (MicrophoneEntity.release m) = false
        /\ MicrophoneEntity.grabbingController (MicrophoneEntity.release m) = None)
  /\ (MicrophoneEntity.isGrabbedBy c m = true ->
        MicrophoneEntity.isGrabbedBy c (snd (microphoneSteps srcs (states, m))) = true
        \/ exists src, src ∈ srcs /\ source src = c
                       /\ isTriggerPressed <$> gamepad src = Some false).
Proof.
  intros m.
  destruct (microphoneInvariant_calls spawn cs _ (microphoneInvariant_create spawn))
    as (Hs & Hb & Hh & Hg).
  fold m in Hs, Hb, Hh, Hg.
  repeat split.
  - intros Hm controller. unfold MicrophoneEntity.grab. by rewrite Hm.
  - unfold MicrophoneEntity.release. by rewrite H.
  - by apply Hg.
  - unfold MicrophoneEntity.release. rewrite H. done.
  - unfold MicrophoneEntity.release. rewrite H. simpl. by rewrite Hb.
  - unfold MicrophoneEntity.release. rewrite H. simpl. by rewrite Hh.
  - unfold MicrophoneEntity.release. by rewrite H.
  - unfold MicrophoneEntity.release. by rewrite H.
  - apply microphoneSteps_held.
Qed.

Lemma microphone_grab_is_exclusive_witness :
  MicrophoneEntity.isGrabbed
    (microphoneCalls [Grab (Some 7%nat); UpdatePosition (mkVector3 1 1 1)]
       (MicrophoneEntity.create sampleSpawn)) = true
  /\ MicrophoneEntity.rootPosition
       (MicrophoneEntity.release
          (microphoneCalls [Grab (Some 7%nat); UpdatePosition (mkVector3 1 1 1)]
             (MicrophoneEntity.create sampleSpawn))) = sampleSpawn.
Proof.
  assert (H : MicrophoneEntity.isGrabbed
                (microphoneCalls [Grab (Some 7%nat); UpdatePosition (mkVector3 1 1 1)]
                   (MicrophoneEntity.create sampleSpawn)) = true)
    by (vm_compute; reflexivity).
  split; [exact H|].
  exact (proj1 (proj1 (proj2 (proj2
           (microphone_grab_is_exclusive sampleSpawn
              [Grab (Some 7%nat); UpdatePosition (mkVector3 1 1 1)] 7%nat [] ∅))) H)).
Defined.

(** ** Claims on the trigger edge *)

Section TriggerEdge.

Context (lib : UISystem.RenderLib) {Callback : Type}.

Lemma processSource_effect src pose c (ui : UISystem.t Callback) :
  let r := UIController.processSource lib src pose c ui in
  frameEffect [src] c (fst (fst r)) (snd r).
Proof.
  unfold UIController.processSource.
  destruct (UISystem.handleRaycast lib _ _ ui) as [ui1 hov].
  assert (Hst : forall b col, UIController.triggerStates
                  (UIController.mkController (UIController.rayVisible (UIController.showRay c))
                     b col (UIController.triggerStates (UIController.showRay c)))
                = UIController.triggerStates c) by done.
  destruct (gamepad src) as [g|] eqn:Hg.
  - right. exists src, g. split; [apply list_elem_of_singleton; done|]. split; [done|].
    destruct hov; simpl;
      destruct (isTriggerPressed g), (wasTriggerPressed (UIController.triggerStates c) (source src));
      simpl; try destruct (UISystem.handleTriggerPress ui1) as [ui2 cb]; simpl;
      repeat split; done.
  - left. destruct hov; simpl; done.
Qed.

Lemma frameEffect_weaken srcs srcs' c c' (out : UIController.Outcome Callback) :
  srcs ⊆ srcs' -> frameEffect srcs c c' out -> frameEffect srcs' c c' out.
Proof.
  intros Hsub [?|(src & g & Hin & ?)]; [by left|].
  right. exists src, g. split; [by apply Hsub|done].
Qed.

Lemma processSources_effect srcs c (ui : UISystem.t Callback) :
  let r := UIController.processSources lib srcs c ui in
  frameEffect srcs c (fst (fst r)) (snd r).
Proof.
  induction srcs as [|src srcs IH]; simpl; [by left|].
  assert (Hrest : frameEffect (src :: srcs) c
                    (fst (fst (UIController.processSources lib srcs c ui)))
                    (snd (UIController.processSources lib srcs c ui))).
  { eapply frameEffect_weaken; [|exact IH]. intros x Hx. apply elem_of_cons. by right. }
  destruct (targetRayMode src); try exact Hrest.
  destruct (targetRaySpace src) as [[pose|]|]; try exact Hrest.
  eapply frameEffect_weaken; [|apply processSource_effect].
  intros x ->%list_elem_of_singleton. apply elem_of_cons. by left.
Qed.

Lemma processControllerInput_effect srcs c (ui : UISystem.t Callback) :
  let r := UIController.processControllerInput lib srcs c ui in
  frameEffect srcs c (fst (fst r)) (snd r).
Proof.
  unfold UIController.processControllerInput.
  destruct (negb (UISystem.hasVisiblePanel ui)); [by left|].
  apply processSources_effect.
Qed.

Lemma reading_of_member (s : nat) src g srcs :
  src ∈ srcs -> source src = s -> gamepad src = Some g ->
  isTriggerPressed g ∈ triggerReading s srcs.
Proof.
  intros Hin Hs Hg. unfold triggerReading.
  apply list_elem_of_omap. exists src. split; [done|].
  rewrite decide_True by done. by rewrite Hg.
Qed.

Lemma held_press_count s (frames : list (UISystem.t Callback * list XRInputSource)) c :
  heldThroughout s frames ->
  (pressCount s (UIController.runFrames lib frames c) <= 1)%nat
  /\ (wasTriggerPressed (UIController.triggerStates c) s = true ->
      pressCount s (UIController.runFrames lib frames c) = 0%nat).
Proof.
  revert c. induction frames as [|[ui srcs] frames IH]; intros c Hheld; simpl.
  { split; [unfold pressCount; simpl; lia|done]. }
  apply Forall_cons in Hheld as [Hnow Hheld]. simpl in Hnow.
  pose proof (processControllerInput_effect srcs c ui) as Heff. simpl in Heff.
  destruct (UIController.processControllerInput lib srcs c ui) as [[c' ui'] out].
  simpl in Heff. specialize (IH c' Hheld) as [IHle IHzero].
  unfold pressCount in *. rewrite filter_cons.
  destruct Heff as [(Hst & Hp & _)|(src & g & Hin & Hg & Hst & Hp & _)].
  - rewrite decide_False by (rewrite Hp; done).
    split; [done|]. intros Hwas. apply IHzero. by rewrite Hst.
  - destruct (decide (source src = s)) as [Hs|Hs].
    + assert (isTriggerPressed g = true) as Hpressed.
      { rewrite Forall_forall in Hnow. apply Hnow. by eapply reading_of_member. }
      assert (wasTriggerPressed (UIController.triggerStates c') s = true) as Hwas'.
      { unfold wasTriggerPressed. rewrite Hst, Hs, lookup_insert_eq. by rewrite Hpressed. }
      specialize (IHzero Hwas').
      destruct (decide (UIController.pressedBy out = Some s)) as [Hd|Hd]; simpl; rewrite IHzero.
      * split; [lia|]. intros Hwas.
        rewrite Hp, Hpressed, Hs, Hwas in Hd. simpl in Hd. done.
      * split; [lia|done].
    + assert (UIController.pressedBy out <> Some s) as Hne.
      { rewrite Hp. destruct (_ && _); congruence. }
      rewrite decide_False by done.
      split; [done|]. intros Hwas. apply IHzero.
      unfold wasTriggerPressed in *. by rewrite Hst, lookup_insert_ne.
Qed.

End TriggerEdge.

(** C5 does not hold as stated: controller 0 keeps its trigger down through
    both frames; in the first its pose is not available, so the frame skips
    it without recording its trigger; in the second the Continue button is
    activated, although the trigger was already down on the frame before. *)
Lemma held_trigger_fires_when_tracking_returns :
  triggerReading 0 [heldUntracked] = [true]
  /\ triggerReading 0 [heldTracked] = [true]
  /\ UIController.runFrames rayOnContinue
       [ (AppFlowController.uiSystem (typed "Alice"), [heldUntracked]);
         (AppFlowController.uiSystem (typed "Alice"), [heldTracked]) ]
       UIController.create
     = [ UIController.mkOutcome None None None;
         UIController.mkOutcome (Some 0%nat) (Some SubmitName) None ].
Proof. vm_compute. done. Qed.

(** C5, amended.  [handleTriggerPress] is called for a source only when its
    trigger is pressed in this frame and the state last recorded for it in
    the per-source map is not pressed (a state is recorded only in frames in
    which a panel is visible and the source is the first tracked-pointer
    source with a pose and a gamepad); the call records the trigger as
    pressed, and a button callback runs only inside such a call.  Hence, over
    any frames in which the source reports its trigger pressed whenever it
    reports a gamepad, [handleTriggerPress] is called for it at most once. *)
Theorem trigger_press_on_recorded_edge (lib : UISystem.RenderLib) {Callback : Type}
  (frames : list (UISystem.t Callback * list XRInputSource))
  (srcs : list XRInputSource) (ui : UISystem.t Callback) (c : UIController.t) (s : nat) :
  let r := UIController.processControllerInput lib srcs c ui in
  (UIController.pressedBy (snd r) = Some s ->
     (exists src, src ∈ srcs /\ source src = s
                  /\ isTriggerPressed <$> gamepad src = Some true)
     /\ wasTriggerPressed (UIController.triggerStates c) s = false
     /\ wasTriggerPressed (UIController.triggerStates (fst (fst r))) s = true)
  /\ (UIController.clicked (snd r) <> None -> UIController.pressedBy (snd r) <> None)
  /\ (heldThroughout s frames ->
      (pressCount s (UIController.runFrames lib frames c) <= 1)%nat).
Proof.
  intros r. pose proof (processControllerInput_effect lib srcs c ui) as Heff.
  fold r in Heff. simpl in Heff.
  split; [|split].
  - intros Hp.
    destruct Heff as [(_ & Hnone & _)|(src & g & Hin & Hg & Hst & Hout & _)]; [congruence|].
    rewrite Hout in Hp.
    destruct (isTriggerPressed g) eqn:Hpressed; [|done].
    destruct (wasTriggerPressed (UIController.triggerStates c) (source src)) eqn:Hwas; [done|].
    simpl in Hp. injection Hp as <-.
    split; [|split; [done|]].
    + exists src. rewrite Hg. simpl. by rewrite Hpressed.
    + unfold wasTriggerPressed. by rewrite Hst, lookup_insert_eq.
  - destruct Heff as [(_ & _ & Hnone)|(src & g & _ & _ & _ & _ & Hc)]; [congruence|done].
  - intros Hheld. by apply held_press_count.
Qed.

Lemma trigger_press_on_recorded_edge_witness :
  heldThroughout 0
    [ (AppFlowController.uiSystem (typed "Alice"), [heldUntracked]);
      (AppFlowController.uiSystem (typed "Alice"), [heldTracked]) ]
  /\ (pressCount 0
        (UIController.runFrames rayOnContinue
           [ (AppFlowController.uiSystem (typed "Alice"), [heldUntracked]);
             (AppFlowController.uiSystem (typed "Alice"), [heldTracked]) ]
           UIController.create) <= 1)%nat.
Proof.
  assert (H : heldThroughout 0
                [ (AppFlowController.uiSystem (typed "Alice"), [heldUntracked]);
                  (AppFlowController.uiSystem (typed "Alice"), [heldTracked]) ]).
  { unfold heldThroughout. apply (bool_decide_unpack _). vm_compute. exact I. }
  split; [exact H|].
  exact (proj2 (proj2 (trigger_press_on_recorded_edge rayOnContinue
                         [ (AppFlowController.uiSystem (typed "Alice"), [heldUntracked]);
                           (AppFlowController.uiSystem (typed "Alice"), [heldTracked]) ]
                         [] (AppFlowController.uiSystem (typed "Alice"))
                         UIController.create 0%nat)) H).
Defined.

(** ** Claims on input while the loading overlay is up *)

(** The frame update does route no input while the loading overlay is
    visible: it only turns the spinner. *)
Lemma update_while_loading env lib delta xr a :
  LoadingIndicator.getIsVisible (AppFlowController.loadingIndicator a) = true ->
  AppFlowController.update env lib delta xr a
  = AppFlowController.withLoading (LoadingIndicator.update delta) a.
Proof.
  intros Hvis. unfold AppFlowController.update.
  assert (LoadingIndicator.getIsVisible
            (AppFlowController.loadingIndicator
               (AppFlowController.withLoading (LoadingIndicator.update delta) a)) = true) as ->;
    [|done].
  simpl. unfold LoadingIndicator.update, LoadingIndicator.getIsVisible in *.
  by rewrite Hvis.
Qed.

(** C6, the failing input.  While the profile request is awaited the loading
    overlay is visible and no button is hovered; a mouse move still computes
    a hover (the Continue button), and a mouse click still runs that button's
    callback, which sends the profile request a second time. *)
Theorem mouse_input_passes_the_loading_overlay :
  LoadingIndicator.getIsVisible (AppFlowController.loadingIndicator awaitingProfile) = true
  /\ AppFlowController.issued awaitingProfile = [CreateProfile (js "Alice")]
  /\ UISystem.getHoveredButton (AppFlowController.uiSystem awaitingProfile) = None
  /\ UISystem.getHoveredButton
       (AppFlowController.uiSystem
          (AppFlowController.onMouseMove rayOnContinue cameraPosition towardsContinue
             awaitingProfile)) = Some 1%nat
  /\ UISystem.id <$>
       UISystem.store (AppFlowController.uiSystem awaitingProfile) !! 1%nat
     = Some "submit-name"
  /\ AppFlowController.issued
       (AppFlowController.onMouseClick servicesUp rayOnContinue cameraPosition towardsContinue
          awaitingProfile)
     = [CreateProfile (js "Alice"); CreateProfile (js "Alice")].
Proof. vm_compute. done. Qed.

(** ** Claims on the server *)

Lemma insertBy_Permutation {A} (leb : A -> A -> bool) x l : insertBy leb x l ≡ₚ x :: l.
Proof.
  induction l as [|y l IH]; simpl; [done|].
  destruct (leb x y); [done|]. rewrite IH. apply Permutation_swap.
Qed.

Lemma sortBy_Permutation {A} (leb : A -> A -> bool) l : sortBy leb l ≡ₚ l.
Proof.
  induction l as [|x l IH]; simpl; [done|].
  by rewrite insertBy_Permutation, IH.
Qed.

(** C7 does not hold as stated: a name of trimmed length 3 whose length is
    21 is answered 400, and a name of trimmed length 1 whose length is 6 is
    answered 201 and inserted. *)
Lemma server_checks_untrimmed_length :
  length (trim paddedName) = 3%nat
  /\ Server.status (snd (Server.create engineUp "u-1" 0 (profileBody paddedName) sampleDb)) = 400%nat
  /\ length (trim blankedName) = 1%nat
  /\ Server.status (snd (Server.create engineUp "u-1" 0 (profileBody blankedName) sampleDb)) = 201%nat
  /\ Server.players (fst (Server.create engineUp "u-1" 0 (profileBody blankedName) sampleDb))
     = [newPlayer "u-1" 0 blankedName].
Proof. vm_compute. done. Qed.

(** C7, amended.  For a body that has been parsed: when [displayName] is a
    string whose length, untrimmed, is 3 to 20 and the database executes the
    insert, the answer is 201 with [id], [displayName], [createdAt] and
    [lastActive] of the inserted row (and 500 when the insert is rejected);
    when [displayName] is not a string or its untrimmed length is outside 3
    to 20, the answer is 400 with an error message and nothing is
    inserted. *)
Theorem create_profile_responses (pg : Server.Engine) (uuid : string) (now : Z)
  (reqBody : Server.JSValue) (db : Server.Db) :
  (forall name,
     Server.getField "displayName" reqBody = Server.JString name ->
     (3 <= length name <= 20)%nat ->
     (Server.insertAccepted pg db (newPlayer uuid now name) = true ->
        Server.create pg uuid now reqBody db
        = (Server.mkDb (Server.players db ++ [newPlayer uuid now name]) (Server.songs db),
           Server.mkResponse 201
             (Server.JObject [("id", Server.JString (js uuid));
                              ("displayName", Server.JString name);
                              ("createdAt", Server.JDate now);
                              ("lastActive", Server.JDate now)])))
     /\ (Server.insertAccepted pg db (newPlayer uuid now name) = false ->
           Server.create pg uuid now reqBody db
           = (db, Server.mkResponse 500 (Server.errorBody "Failed to create profile"))))
  /\ (forall name,
        Server.getField "displayName" reqBody = Server.JString name ->
        ~ (3 <= length name <= 20)%nat ->
        Server.create pg uuid now reqBody db
        = (db, Server.mkResponse 400 (Server.errorBody "Display name must be 3-20 characters")))
  /\ (reqBody <> Server.JUndefined -> reqBody <> Server.JNull ->
      (forall name, Server.getField "displayName" reqBody <> Server.JString name) ->
      Server.create pg uuid now reqBody db
      = (db, Server.mkResponse 400 (Server.errorBody "Display name must be a string"))).
Proof.
  assert (Hobj : forall name, Server.getField "displayName" reqBody = Server.JString name ->
                 exists fields, reqBody = Server.JObject fields).
  { intros name. destruct reqBody; simpl; try done. eauto. }
  split; [|split].
  - intros name Hname Hlen. destruct (Hobj name Hname) as [fields ->].
    unfold Server.create. rewrite Hname. simpl.
    assert ((length name <? 3)%nat || (20 <? length name)%nat = false) as ->.
    { apply orb_false_iff. split; apply Nat.ltb_ge; lia. }
    unfold Server.insertPlayer, newPlayer.
    split; intros ->; done.
  - intros name Hname Hlen. destruct (Hobj name Hname) as [fields ->].
    unfold Server.create. rewrite Hname. simpl.
    assert ((length name <? 3)%nat || (20 <? length name)%nat = true) as ->; [|done].
    apply orb_true_iff. rewrite !Nat.ltb_lt. lia.
  - intros Hu Hn Hns. unfold Server.create.
    destruct (Server.getField "displayName" reqBody) eqn:Hf;
      try (by destruct reqBody).
    by specialize (Hns s).
Qed.

Lemma create_profile_responses_witness :
  Server.getField "displayName" (profileBody (js "Alice")) = Server.JString (js "Alice")
  /\ (3 <= length (js "Alice") <= 20)%nat
  /\ Server.insertAccepted engineUp sampleDb (newPlayer "u-1" 0 (js "Alice")) = true
  /\ Server.status (snd (Server.create engineUp "u-1" 0 (profileBody (js "Alice")) sampleDb))
     = 201%nat.
Proof.
  assert (H1 : Server.getField "displayName" (profileBody (js "Alice"))
               = Server.JString (js "Alice")) by (vm_compute; reflexivity).
  assert (H2 : (3 <= length (js "Alice") <= 20)%nat) by (vm_compute; lia).
  assert (H3 : Server.insertAccepted engineUp sampleDb (newPlayer "u-1" 0 (js "Alice")) = true)
    by reflexivity.
  split; [exact H1|]. split; [exact H2|]. split; [exact H3|].
  exact (f_equal (fun r => Server.status (snd r))
           (proj1 (proj1 (create_profile_responses engineUp "u-1" 0
                            (profileBody (js "Alice")) sampleDb) (js "Alice") H1 H2) H3)).
Defined.

(** C8 does not hold as stated: [q] present but empty ([?q=]) is answered
    400 although it is a single string, and a query the database rejects is
    answered 500, neither 400 nor a song list. *)
Lemma empty_query_and_failed_query :
  Server.status (Server.search engineUp (Server.QString []) sampleDb) = 400%nat
  /\ Server.status (Server.search engineDown (Server.QString (js "love")) sampleDb) = 500%nat.
Proof. vm_compute. done. Qed.

(** C8, amended.  The answer is 400 exactly when [q] is missing, empty or
    not a single string.  Otherwise, when the database executes the query,
    the answer is [{songs, total}] where the songs are the rows whose title
    or artist is [ILIKE %q%], in title order, and [total] is their number;
    when the database rejects the query the answer is 500. *)
Theorem search_responses (pg : Server.Engine) (q : Server.QueryValue) (db : Server.Db) :
  (Server.status (Server.search pg q db) = 400%nat
   <-> ~ exists c rest, q = Server.QString (c :: rest))
  /\ (forall c rest,
        q = Server.QString (c :: rest) ->
        (Server.selectAccepted pg db = true ->
           exists rows,
             Server.search pg q db = Server.mkResponse 200 (songsBody rows)
             /\ rows ≡ₚ matching pg (c :: rest) db
             /\ rows = sortBy (fun a b => Server.titleLeb pg (Server.song_title a)
                                                           (Server.song_title b))
                              (matching pg (c :: rest) db))
        /\ (Server.selectAccepted pg db = false ->
              Server.search pg q db
              = Server.mkResponse 500 (Server.errorBody "Failed to search songs"))).
Proof.
  split.
  - destruct q as [|[|c rest]|items|]; simpl.
    1,2,4,5: split; [intros _ (c & rest & Hq); done | done].
    unfold Server.selectSongsLike.
    destruct (Server.selectAccepted pg db); simpl;
      (split; [done | intros Hn; exfalso; apply Hn; eauto]).
  - intros c rest ->. simpl. unfold Server.selectSongsLike.
    split; intros ->; [|done].
    eexists. split; [reflexivity|]. split; [|reflexivity].
    apply sortBy_Permutation.
Qed.

Lemma search_responses_witness :
  Server.selectAccepted engineUp sampleDb = true
  /\ Server.search engineUp (Server.QString (js "taylor")) sampleDb
     = Server.mkResponse 200
         (songsBody
            [ Server.mkSongRow "s-3" "y-3" (js "Blank Space") (js "Taylor Swift") "taylor-swift";
              Server.mkSongRow "s-2" "y-2" (js "Love Story") (js "Taylor Swift") "taylor-swift" ]).
Proof.
  assert (H : Server.selectAccepted engineUp sampleDb = true) by reflexivity.
  split; [exact H|].
  destruct (proj1 (proj2 (search_responses engineUp (Server.QString (js "taylor")) sampleDb)
                     116%N (js "aylor") eq_refl) H) as (rows & -> & _ & ->).
  vm_compute. reflexivity.
Defined.

(** ** Claims on the ray cast *)

Section SortHead.

Context {A : Type} (leb : A -> A -> bool).
Hypothesis leb_total : forall x y, leb x y = true \/ leb y x = true.
Hypothesis leb_trans : forall x y z, leb x y = true -> leb y z = true -> leb x z = true.

Lemma sortBy_nil (l : list A) : sortBy leb l = [] -> l = [].
Proof.
  intros H. apply Permutation_nil_r. by rewrite <- H, sortBy_Permutation.
Qed.

(** The head of the sorted list is a least element of the list. *)
Lemma sortBy_head (l : list A) h t :
  sortBy leb l = h :: t -> h ∈ l /\ forall y, y ∈ l -> leb h y = true.
Proof using leb_total leb_trans.
  revert h t. induction l as [|x l IH]; intros h t; simpl; [done|].
  destruct (sortBy leb l) as [|h' t'] eqn:Hsort.
  - apply sortBy_nil in Hsort as ->. simpl. intros [= -> _].
    split; [apply list_elem_of_singleton; done|].
    intros y ->%list_elem_of_singleton. by destruct (leb_total h h).
  - destruct (IH h' t' eq_refl) as [Hin Hmin]. simpl.
    destruct (leb x h') eqn:Hx.
    + intros [= -> _]. split; [apply elem_of_cons; by left|].
      intros y [->|Hy]%elem_of_cons; [by destruct (leb_total h h)|].
      eapply leb_trans; [exact Hx|by apply Hmin].
    + intros [= -> _]. split; [apply elem_of_cons; by right|].
      intros y [->|Hy]%elem_of_cons; [|by apply Hmin].
      destruct (leb_total h x) as [?|?]; [done|congruence].
Qed.

End SortHead.

Lemma ascSort_total (x y : UISystem.Intersection) :
  UISystem.ascSort x y = true \/ UISystem.ascSort y x = true.
Proof.
  unfold UISystem.ascSort. rewrite !Qle_bool_iff.
  destruct (Qlt_le_dec (UISystem.distance y) (UISystem.distance x)) as [H|H]; [right|left].
  - by apply Qlt_le_weak.
  - done.
Qed.

Lemma ascSort_trans (x y z : UISystem.Intersection) :
  UISystem.ascSort x y = true -> UISystem.ascSort y z = true -> UISystem.ascSort x z = true.
Proof. unfold UISystem.ascSort. rewrite !Qle_bool_iff. apply Qle_trans. Qed.

Section ButtonStore.

Context {Callback : Type}.

Lemma updateButton_store r f (ui : UISystem.t Callback) r' :
  UISystem.store (UISystem.updateButton r f ui) !! r'
  = if decide (r = r') then f <$> UISystem.store ui !! r' else UISystem.store ui !! r'.
Proof.
  unfold UISystem.updateButton.
  destruct (UISystem.store ui !! r) as [b|] eqn:Hb; simpl.
  - case_decide; subst.
    + rewrite list_lookup_insert_eq by (by eapply lookup_lt_Some). by rewrite Hb.
    + by rewrite list_lookup_insert_ne.
  - case_decide; subst; by rewrite ?Hb.
Qed.

Lemma updateButton_panels r f (ui : UISystem.t Callback) :
  UISystem.panels (UISystem.updateButton r f ui) = UISystem.panels ui
  /\ UISystem.hoveredButton (UISystem.updateButton r f ui) = UISystem.hoveredButton ui.
Proof. unfold UISystem.updateButton. by destruct (UISystem.store ui !! r). Qed.

Lemma setButtonHover_store r hov (ui : UISystem.t Callback) r' :
  UISystem.id <$> UISystem.store (UISystem.setButtonHover r hov ui) !! r'
    = UISystem.id <$> UISystem.store ui !! r'
  /\ UISystem.mesh <$> UISystem.store (UISystem.setButtonHover r hov ui) !! r'
    = UISystem.mesh <$> UISystem.store ui !! r'
  /\ UISystem.isHovered <$> UISystem.store (UISystem.setButtonHover r hov ui) !! r'
    = if decide (r = r') then (fun _ => hov) <$> UISystem.store ui !! r'
      else UISystem.isHovered <$> UISystem.store ui !! r'.
Proof.
  unfold UISystem.setButtonHover. rewrite updateButton_store.
  case_decide; [|done]. by destruct (UISystem.store ui !! r').
Qed.

Lemma constant_fmap_store {B} (c : B) (st st' : list (UISystem.UIButton Callback)) r :
  UISystem.id <$> st' !! r = UISystem.id <$> st !! r ->
  (fun _ => c) <$> st' !! r = (fun _ => c) <$> st !! r.
Proof. by destruct (st' !! r), (st !! r). Qed.

Lemma findButtonById_ext bid (ui ui' : UISystem.t Callback) :
  UISystem.panels ui' = UISystem.panels ui ->
  (forall r, UISystem.id <$> UISystem.store ui' !! r = UISystem.id <$> UISystem.store ui !! r) ->
  UISystem.findButtonById bid ui' = UISystem.findButtonById bid ui.
Proof.
  intros Hp Hid. unfold UISystem.findButtonById, UISystem.allButtonRefs. rewrite Hp.
  induction (flat_map _ (UISystem.panels ui)) as [|r l IH]; simpl; [done|].
  specialize (Hid r).
  destruct (UISystem.store ui' !! r) as [b'|], (UISystem.store ui !! r) as [b|];
    simpl in Hid; try done.
  injection Hid as ->. by rewrite IH.
Qed.

End ButtonStore.

Section RayCast.

Context (lib : UISystem.RenderLib) {Callback : Type}.
Context (origin direction : Vector3).

Lemma resetHover_facts (ui : UISystem.t Callback) :
  UISystem.panels (resetHover ui) = UISystem.panels ui
  /\ forall r,
       UISystem.id <$> UISystem.store (resetHover ui) !! r = UISystem.id <$> UISystem.store ui !! r
       /\ UISystem.isHovered <$> UISystem.store (resetHover ui) !! r
          = if decide (UISystem.hoveredButton ui = Some r)
            then (fun _ => false) <$> UISystem.store ui !! r
            else UISystem.isHovered <$> UISystem.store ui !! r.
Proof.
  unfold resetHover. destruct (UISystem.hoveredButton ui) as [h|] eqn:Hh.
  - split.
    + simpl. apply (updateButton_panels h _ ui).
    + intros r. simpl.
      destruct (setButtonHover_store h false ui r) as (Hid & _ & Hhov).
      split; [done|]. rewrite Hhov.
      destruct (decide (h = r)) as [->|Hne].
      * by rewrite decide_True.
      * rewrite decide_False by congruence. done.
  - split; [done|]. intros r. split; [done|]. by rewrite decide_False.
Qed.

Lemma visibleButtonRefs_subseteq (ui : UISystem.t Callback) :
  UISystem.visibleButtonRefs ui ⊆ UISystem.allButtonRefs ui.
Proof.
  unfold UISystem.visibleButtonRefs, UISystem.allButtonRefs.
  intros r (kp & Hkp & Hr)%list_elem_of_In%in_flat_map.
  apply list_elem_of_In, in_flat_map. exists kp. split; [done|].
  destruct (UISystem.isVisible (snd kp)); [done|]. by destruct Hr.
Qed.

Lemma rayHits_elem (ui : UISystem.t Callback) h :
  h ∈ rayHits lib origin direction ui <->
  exists r b, r ∈ UISystem.visibleButtonRefs ui /\ UISystem.store ui !! r = Some b
              /\ UISystem.raycastMesh lib origin direction (UISystem.mesh b)
                 = Some (UISystem.distance h)
              /\ UISystem.object h = UISystem.mesh b.
Proof.
  unfold rayHits, UISystem.buttonMeshes. rewrite list_elem_of_omap. split.
  - intros (m & (r & Hr & Hm)%list_elem_of_omap & Hh).
    destruct (UISystem.store ui !! r) as [b|] eqn:Hb; [|done].
    simpl in Hm. injection Hm as <-.
    destruct (UISystem.raycastMesh lib origin direction (UISystem.mesh b)) as [dist|] eqn:Hd; [|done].
    simpl in Hh. injection Hh as <-. exists r, b. by simpl.
  - intros (r & b & Hr & Hb & Hd & Ho).
    exists (UISystem.mesh b). split.
    + apply list_elem_of_omap. exists r. split; [done|]. by rewrite Hb.
    + rewrite Hd. simpl. f_equal. destruct h. simpl in *. by subst.
Qed.

Lemma find_ext {A} (P Q : A -> bool) (l : list A) :
  (forall x, P x = Q x) -> find P l = find Q l.
Proof.
  intros H. induction l as [|x l IH]; simpl; [done|]. by rewrite H, IH.
Qed.

Lemma find_unique {A B} `{EqDecision B} (f : A -> option B) (l : list A) x v :
  NoDup (omap f l) -> x ∈ l -> f x = Some v ->
  find (fun y => bool_decide (f y = Some v)) l = Some x.
Proof.
  induction l as [|y l IH]; simpl; intros Hnd Hx Hv; [by apply elem_of_nil in Hx|].
  apply elem_of_cons in Hx as [<-|Hx].
  - by rewrite bool_decide_eq_true_2.
  - destruct (f y) as [w|] eqn:Hy; simpl in Hnd.
    + apply NoDup_cons in Hnd as [Hw Hnd].
      case_bool_decide as Hyv; [|by apply IH].
      exfalso. apply Hw. injection Hyv as ->.
      apply list_elem_of_omap. eauto.
    + rewrite bool_decide_eq_false_2 by done. by apply IH.
Qed.

Lemma findButtonById_unique (ui : UISystem.t Callback) r b :
  buttonsConsistent ui ->
  r ∈ UISystem.allButtonRefs ui -> UISystem.store ui !! r = Some b ->
  UISystem.findButtonById (UISystem.id b) ui = Some r.
Proof.
  intros [_ Hnd] Hr Hb. unfold UISystem.findButtonById.
  rewrite <- (find_unique (fun r => UISystem.id <$> UISystem.store ui !! r)
                (UISystem.allButtonRefs ui) r (UISystem.id b) Hnd Hr) by (by rewrite Hb).
  apply find_ext. intros y.
  destruct (UISystem.store ui !! y) as [by'|]; simpl.
  - apply bool_decide_ext. split; congruence.
  - done.
Qed.

End RayCast.

(** C4 does not hold as stated: the button is looked up by id over all
    panels.  With a hidden panel and a visible panel that each have a button
    "ok", a ray that meets only the visible button returns, and marks as
    hovered, the button of the hidden panel, which the ray does not meet. *)
Lemma raycast_returns_button_of_hidden_panel :
  UISystem.visibleButtonRefs twoOkButtons = [1%nat]
  /\ hitDistance rayOnContinue cameraPosition towardsContinue twoOkButtons 1 = Some 2%Q
  /\ hitDistance rayOnContinue cameraPosition towardsContinue twoOkButtons 0 = None
  /\ snd (UISystem.handleRaycast rayOnContinue cameraPosition towardsContinue twoOkButtons)
     = Some 0%nat.
Proof. vm_compute. done. Qed.

(** C4, amended.  When button ids are unique over all panels (each mesh
    carrying its button's id) and some visible panel has a button,
    [handleRaycast] tests exactly the buttons of the visible panels and
    returns the one that the ray meets at the smallest distance, or null when
    it meets none; the returned button becomes the hovered button and is
    marked hovered, the button hovered before is marked not hovered, and no
    other button or panel changes its hover or visibility. *)
Theorem raycast_hovers_nearest_button (lib : UISystem.RenderLib) {Callback : Type}
  (origin direction : Vector3) (ui : UISystem.t Callback) :
  buttonsConsistent ui ->
  UISystem.visibleButtonRefs ui <> [] ->
  let res := snd (UISystem.handleRaycast lib origin direction ui) in
  let ui' := fst (UISystem.handleRaycast lib origin direction ui) in
  match res with
  | Some b =>
      b ∈ UISystem.visibleButtonRefs ui
      /\ exists dist,
           hitDistance lib origin direction ui b = Some dist
           /\ forall b' dist',
                b' ∈ UISystem.visibleButtonRefs ui ->
                hitDistance lib origin direction ui b' = Some dist' -> (dist <= dist')%Q
  | None =>
      forall b, b ∈ UISystem.visibleButtonRefs ui ->
                hitDistance lib origin direction ui b = None
  end
  /\ UISystem.hoveredButton ui' = res
  /\ UISystem.panels ui' = UISystem.panels ui
  /\ forall b,
       UISystem.isHovered <$> UISystem.store ui' !! b
       = if decide (res = Some b) then (fun _ => true) <$> UISystem.store ui !! b
         else if decide (UISystem.hoveredButton ui = Some b)
              then (fun _ => false) <$> UISystem.store ui !! b
              else UISystem.isHovered <$> UISystem.store ui !! b.
Proof.
  intros Hcons Hvis. pose proof Hcons as [Hvalid Hnd].
  assert (Hstore : forall r, r ∈ UISystem.visibleButtonRefs ui ->
                     exists b, UISystem.store ui !! r = Some b
                               /\ UISystem.userData_buttonId (UISystem.mesh b) = UISystem.id b).
  { intros r Hr%visibleButtonRefs_subseteq. rewrite Forall_forall in Hvalid.
    destruct (Hvalid r Hr) as [[b Hb] Htag]. rewrite Hb in Htag. simpl in Htag.
    exists b. split; [done|congruence]. }
  destruct (resetHover_facts ui) as [Hpanels Hreset].
  unfold UISystem.handleRaycast.
  change (match UISystem.hoveredButton ui with
          | Some h => UISystem.setHoveredButton None (UISystem.setButtonHover h false ui)
          | None => ui
          end) with (resetHover ui).
  change (UISystem.intersectObjects lib origin direction (UISystem.buttonMeshes ui))
    with (sortBy UISystem.ascSort (rayHits lib origin direction ui)).
  rewrite decide_False; cycle 1.
  { unfold UISystem.buttonMeshes.
    destruct (UISystem.visibleButtonRefs ui) as [|r rs] eqn:Hrs; [done|].
    destruct (Hstore r) as (b & Hb & _); [rewrite ?Hrs; apply elem_of_cons; by left|].
    simpl. by rewrite Hb. }
  destruct (sortBy UISystem.ascSort (rayHits lib origin direction ui)) as [|hit rest] eqn:Hsort.
  - (* the ray meets no visible button *)
    apply sortBy_nil in Hsort. simpl.
    split; [|split; [|split]].
    + intros b Hb. destruct (Hstore b Hb) as (btn & Hbtn & _).
      unfold hitDistance. rewrite Hbtn. simpl.
      destruct (UISystem.raycastMesh lib origin direction (UISystem.mesh btn)) as [dist|] eqn:Hd;
        [|done].
      exfalso.
      assert (UISystem.mkHit dist (UISystem.mesh btn) ∈ rayHits lib origin direction ui) as Hin.
      { apply rayHits_elem. exists b, btn. by simpl. }
      rewrite Hsort in Hin. by apply elem_of_nil in Hin.
    + unfold resetHover. by destruct (UISystem.hoveredButton ui) eqn:Hh.
    + done.
    + intros b. apply Hreset.
  - (* [hit] is the nearest hit *)
    apply (sortBy_head UISystem.ascSort ascSort_total ascSort_trans) in Hsort as [Hin Hmin].
    apply rayHits_elem in Hin as (r & btn & Hr & Hbtn & Hdist & Hobj).
    destruct (Hstore r Hr) as (btn' & Hbtn' & Htag). simplify_eq.
    rewrite Hobj, Htag.
    rewrite (findButtonById_ext (UISystem.id btn) ui (resetHover ui) Hpanels)
      by (intros r'; apply Hreset).
    rewrite (findButtonById_unique ui r btn Hcons);
      [|by apply visibleButtonRefs_subseteq|done].
    simpl. split; [|split; [|split]].
    + split; [done|]. exists (UISystem.distance hit). split.
      * unfold hitDistance. rewrite Hbtn. simpl. done.
      * intros b' dist' Hb' Hd'. unfold hitDistance in Hd'.
        destruct (UISystem.store ui !! b') as [btn'|] eqn:Hbtn'; [|done]. simpl in Hd'.
        apply Qle_bool_iff.
        apply (Hmin (UISystem.mkHit dist' (UISystem.mesh btn'))).
        apply rayHits_elem. exists b', btn'. by simpl.
    + done.
    + destruct (updateButton_panels r
                  (fun b => UISystem.mkButton (UISystem.id b) (UISystem.label b) (UISystem.mesh b)
                              UISystem.buttonHover (UISystem.onClick b) true (UISystem.isActive b))
                  (resetHover ui)) as [Hp _].
      unfold UISystem.setButtonHover. by rewrite Hp.
    + intros b.
      destruct (setButtonHover_store r true (resetHover ui) b) as (_ & _ & Hhov).
      rewrite Hhov. destruct (Hreset b) as [Hid Hh].
      destruct (decide (r = b)) as [->|Hne].
      * rewrite decide_True by done. by apply constant_fmap_store.
      * rewrite decide_False by congruence. done.
Qed.

Lemma raycast_hovers_nearest_button_witness :
  buttonsConsistent (AppFlowController.uiSystem (typed "Alice"))
  /\ UISystem.visibleButtonRefs (AppFlowController.uiSystem (typed "Alice")) <> []
  /\ UISystem.hoveredButton
       (fst (UISystem.handleRaycast rayOnContinue cameraPosition towardsContinue
               (AppFlowController.uiSystem (typed "Alice"))))
     = snd (UISystem.handleRaycast rayOnContinue cameraPosition towardsContinue
              (AppFlowController.uiSystem (typed "Alice"))).
Proof.
  assert (H1 : buttonsConsistent (AppFlowController.uiSystem (typed "Alice"))).
  { unfold buttonsConsistent. apply (bool_decide_unpack _). vm_compute. exact I. }
  assert (H2 : UISystem.visibleButtonRefs (AppFlowController.uiSystem (typed "Alice")) <> []).
  { vm_compute. discriminate. }
  split; [exact H1|]. split; [exact H2|].
  exact (proj1 (proj2 (raycast_hovers_nearest_button rayOnContinue cameraPosition
                         towardsContinue (AppFlowController.uiSystem (typed "Alice")) H1 H2))).
Defined.

(** * Further properties *)

(** ** The server routes *)

Lemma filter_fresh_id (uuid : string) (rows : list Server.PlayerRow) :
  uuid ∉ map Server.id rows -> filter (fun row => Server.id row = uuid) rows = [].
Proof.
  intros Hfresh. apply filter_none, Forall_forall. intros row Hrow Hid.
  apply Hfresh. apply list_elem_of_fmap. eauto.
Qed.

Lemma create_201_inversion pg uuid now reqBody db :
  Server.status (snd (Server.create pg uuid now reqBody db)) = 201%nat ->
  exists name,
    fst (Server.create pg uuid now reqBody db)
    = Server.mkDb (Server.players db ++ [Server.mkPlayerRow uuid name now now]) (Server.songs db)
    /\ snd (Server.create pg uuid now reqBody db)
       = Server.mkResponse 201 (Server.playerJson (Server.mkPlayerRow uuid name now now)).
Proof.
  unfold Server.create, Server.insertPlayer.
  destruct reqBody; try discriminate;
    (destruct (Server.validateDisplayName _); [discriminate|]);
    (destruct (Server.getField _ _) as [| | | |name| | |]; try discriminate);
    (destruct (Server.insertAccepted pg _ _); [|discriminate]);
    intros _; exists name; done.
Qed.

(** X1.  Create, then get: when [create] answers 201 for an id that no
    player had, and the look-up is executed, [getById] of that id answers 200
    with the same body. *)
Theorem created_profile_is_found (pg : Server.Engine)
  (lookupAccepted : Server.Db -> string -> bool)
  (uuid : string) (now : Z) (reqBody : Server.JSValue) (db : Server.Db) :
  Server.status (snd (Server.create pg uuid now reqBody db)) = 201%nat ->
  uuid ∉ map Server.id (Server.players db) ->
  lookupAccepted (fst (Server.create pg uuid now reqBody db)) uuid = true ->
  ServerRoutes.getById lookupAccepted uuid (fst (Server.create pg uuid now reqBody db))
  = Server.mkResponse 200 (Server.body (snd (Server.create pg uuid now reqBody db))).
Proof.
  intros Hstatus Hfresh.
  destruct (create_201_inversion pg uuid now reqBody db Hstatus) as (name & -> & ->).
  unfold ServerRoutes.getById, ServerRoutes.selectPlayer. simpl. intros ->.
  rewrite filter_app, filter_fresh_id by done. simpl.
  by rewrite filter_cons_True by done.
Qed.

Lemma created_profile_is_found_witness :
  ServerRoutes.getById everyLookup "u-9"
    (fst (Server.create engineUp "u-9" 30 (profileBody (js "Carol")) aliceDb))
  = Server.mkResponse 200
      (Server.body (snd (Server.create engineUp "u-9" 30 (profileBody (js "Carol")) aliceDb))).
Proof.
  assert (H1 : Server.status
                 (snd (Server.create engineUp "u-9" 30 (profileBody (js "Carol")) aliceDb))
               = 201%nat) by (vm_compute; reflexivity).
  assert (H2 : "u-9" ∉ map Server.id (Server.players aliceDb)).
  { apply (bool_decide_unpack _). vm_compute. exact I. }
  exact (created_profile_is_found engineUp everyLookup "u-9" 30 (profileBody (js "Carol"))
           aliceDb H1 H2 eq_refl).
Defined.

Lemma update_players_ids id name now (rows : list Server.PlayerRow) :
  map Server.id
    (map (fun row => if decide (Server.id row = id)
                     then ServerRoutes.renamed name now row else row) rows)
  = map Server.id rows.
Proof.
  induction rows as [|row rows IH]; simpl; [done|].
  rewrite IH. by destruct (decide (Server.id row = id)).
Qed.

(** X2.  [update] with a name of length 3 to 20 that the database executes:
    no player is added or removed and the players of other ids are as they
    were; when no player has the id the answer is 404 and the table is
    unchanged; otherwise the answer is 200 and every player of that id has
    the new name, the new [last_active] and the [created_at] it had. *)
Theorem update_profile_responses (updateAccepted : Server.Db -> string -> JSString -> bool)
  (id : string) (now : Z) (reqBody : Server.JSValue) (db : Server.Db) (name : JSString) :
  Server.getField "displayName" reqBody = Server.JString name ->
  (3 <= length name <= 20)%nat ->
  updateAccepted db id name = true ->
  let db' := fst (ServerRoutes.update updateAccepted id now reqBody db) in
  let response := snd (ServerRoutes.update updateAccepted id now reqBody db) in
  map Server.id (Server.players db') = map Server.id (Server.players db)
  /\ Server.songs db' = Server.songs db
  /\ (forall row, row ∈ Server.players db -> Server.id row <> id -> row ∈ Server.players db')
  /\ (id ∉ map Server.id (Server.players db) ->
        Server.status response = 404%nat /\ Server.players db' = Server.players db)
  /\ (id ∈ map Server.id (Server.players db) ->
        Server.status response = 200%nat
        /\ Server.getField "displayName" (Server.body response) = Server.JString name
        /\ forall row, row ∈ Server.players db -> Server.id row = id ->
             Server.mkPlayerRow id name (Server.created_at row) now ∈ Server.players db').
Proof.
  intros Hname Hlen Hacc.
  assert (exists fields, reqBody = Server.JObject fields) as [fields ->].
  { destruct reqBody; simpl in Hname; try done. eauto. }
  unfold ServerRoutes.update. rewrite Hname. simpl.
  assert ((length name <? 3)%nat || (20 <? length name)%nat = false) as ->.
  { apply orb_false_iff. split; apply Nat.ltb_ge; lia. }
  unfold ServerRoutes.updatePlayer. rewrite Hacc.
  set (rows := Server.players db).
  set (rows' := map (fun row => if decide (Server.id row = id)
                                then ServerRoutes.renamed name now row else row) rows).
  assert (Hids : map Server.id rows' = map Server.id rows) by apply update_players_ids.
  assert (Hothers : forall row, row ∈ rows -> Server.id row <> id -> row ∈ rows').
  { intros row Hrow Hne. unfold rows'. apply list_elem_of_fmap.
    exists row. split; [|done]. by rewrite decide_False. }
  assert (Hin : forall row, row ∈ rows -> Server.id row = id ->
                  row ∈ filter (fun row => Server.id row = id) rows).
  { intros row Hrow Hid. by apply list_elem_of_filter. }
  destruct (filter (fun row => Server.id row = id) rows) as [|first rest] eqn:Hfilter; simpl.
  - split; [done|]. split; [done|]. split; [done|]. split.
    + intros Hfresh. split; [done|].
      unfold rows'. clear -Hfresh. induction rows as [|row rows0 IH]; simpl; [done|].
      simpl in Hfresh. apply not_elem_of_cons in Hfresh as [Hne Hfresh].
      rewrite decide_False by done. f_equal. by apply IH.
    + intros (row & Hid & Hrow)%list_elem_of_fmap.
      exfalso. by eapply elem_of_nil, Hin.
  - split; [done|]. split; [done|]. split; [done|]. split.
    + intros Hfresh. exfalso. apply Hfresh.
      assert (first ∈ filter (fun row => Server.id row = id) rows) as Hf
        by (rewrite Hfilter; apply elem_of_cons; by left).
      apply list_elem_of_filter in Hf as [Hid Hf].
      apply list_elem_of_fmap. eauto.
    + intros _. split; [done|]. split; [done|].
      intros row' Hrow' Hid'. unfold rows'. apply list_elem_of_fmap.
      exists row'. split; [|done]. rewrite decide_True by done.
      unfold ServerRoutes.renamed. by rewrite Hid'.
Qed.

Lemma update_profile_responses_witness :
  Server.status (snd (ServerRoutes.update everyUpdate "u-2" 40 (profileBody (js "Robert")) aliceDb))
  = 200%nat.
Proof.
  assert (H1 : Server.getField "displayName" (profileBody (js "Robert"))
               = Server.JString (js "Robert")) by (vm_compute; reflexivity).
  assert (H2 : (3 <= length (js "Robert") <= 20)%nat) by (vm_compute; lia).
  assert (H3 : "u-2" ∈ map Server.id (Server.players aliceDb)).
  { apply (bool_decide_unpack _). vm_compute. exact I. }
  exact (proj1 (proj2 (proj2 (proj2 (proj2
           (update_profile_responses everyUpdate "u-2" 40 (profileBody (js "Robert"))
              aliceDb (js "Robert") H1 H2 eq_refl)))) H3)).
Defined.



(** X4.  A name that the profile input panel submits passes the server's
    validation: the panel hands on the trimmed name, of length 3 to 20, and
    [create] answers 201 for it when the database executes the insert. *)
Theorem submitted_name_is_accepted (pg : Server.Engine) (uuid : string) (now : Z)
  (db : Server.Db) (p : ProfileInputPanel.t) (name : JSString) :
  snd (ProfileInputPanel.handleSubmit p) = Some name ->
  Server.validateDisplayName (Server.JString name) = None
  /\ (Server.insertAccepted pg db (newPlayer uuid now name) = true ->
      Server.status (snd (Server.create pg uuid now (profileBody name) db)) = 201%nat).
Proof.
  unfold ProfileInputPanel.handleSubmit, ProfileInputPanel.validateName.
  unfold ProfileInputPanel.NAME_MIN_LENGTH, ProfileInputPanel.NAME_MAX_LENGTH.
  destruct (length (trim (ProfileInputPanel.displayName p)) <? 3)%nat eqn:Hmin; [done|].
  destruct (20 <? length (trim (ProfileInputPanel.displayName p)))%nat eqn:Hmax; [done|].
  simpl. intros [= <-].
  assert (Server.validateDisplayName (Server.JString (trim (ProfileInputPanel.displayName p)))
          = None) as Hvalid.
  { simpl. by rewrite Hmin, Hmax. }
  split; [done|]. intros Hacc.
  unfold Server.create. rewrite Hmin, Hmax. simpl.
  unfold Server.insertPlayer. unfold newPlayer in Hacc. by rewrite Hacc.
Qed.

Lemma submitted_name_is_accepted_witness :
  Server.validateDisplayName (Server.JString (js "Alice")) = None.
Proof.
  assert (H : snd (ProfileInputPanel.handleSubmit
                     (AppFlowController.profileInputPanel (typed "  Alice ")))
              = Some (js "Alice")) by (vm_compute; reflexivity).
  exact (proj1 (submitted_name_is_accepted engineUp "u-1" 0 sampleDb
                  (AppFlowController.profileInputPanel (typed "  Alice ")) (js "Alice") H)).
Defined.

(** ** The profile service *)

(** X5.  [loadCachedProfile] with a stored id that is not empty: when the
    server answers with the profile, that profile is returned and cached;
    when it answers 404, null is returned and nothing changes, so the stored
    id stays; on any other answer null is returned and the cache is cleared,
    the stored id included.  Without a stored id, or with an empty one, null
    is returned and nothing changes. *)
Theorem load_cached_profile_outcomes (server : string -> ProfileService.Answer)
  (s : ProfileService.t) :
  let r := ProfileService.loadCachedProfile server s in
  (forall profileId,
     ProfileService.getCachedProfileId s = Some profileId ->
     profileId <> String.EmptyString ->
     (forall data,
        server profileId = ProfileService.Ok (inr data) ->
        r = (Some (ProfileService.responseToPlayer data),
             ProfileService.mkService (Some (ProfileService.responseToPlayer data))
                                      (ProfileService.storage s)))
     /\ (forall body, server profileId = ProfileService.NotOk 404 body -> r = (None, s))
     /\ ((forall data, server profileId <> ProfileService.Ok (inr data)) ->
         (forall body, server profileId <> ProfileService.NotOk 404 body) ->
         fst r = None
         /\ ProfileService.getCachedProfile (snd r) = None
         /\ ProfileService.getCachedProfileId (snd r) = None
         /\ ProfileService.hasProfile (snd r) = false))
  /\ (ProfileService.getCachedProfileId s = None
      \/ ProfileService.getCachedProfileId s = Some String.EmptyString ->
      r = (None, s)).
Proof.
  unfold ProfileService.loadCachedProfile. split.
  - intros profileId Hid Hne. rewrite Hid.
    rewrite bool_decide_eq_false_2 by done.
    assert (Hopen : ProfileService.blocked (ProfileService.storage s) = false).
    { unfold ProfileService.getCachedProfileId in Hid.
      by destruct (ProfileService.blocked (ProfileService.storage s)). }
    split; [|split].
    + intros data ->. done.
    + intros body ->. done.
    + intros Hok H404.
      assert (Hcleared : forall s', ProfileService.storage s' = ProfileService.storage s ->
                ProfileService.getCachedProfile (ProfileService.clearCache s') = None
                /\ ProfileService.getCachedProfileId (ProfileService.clearCache s') = None
                /\ ProfileService.hasProfile (ProfileService.clearCache s') = false).
      { intros s' Hs'.
        unfold ProfileService.hasProfile, ProfileService.getCachedProfileId,
          ProfileService.clearCache. simpl. rewrite Hs', Hopen. simpl. done. }
      unfold ProfileService.getProfile.
      destruct (server profileId) as [m|[m|data]|status body] eqn:Hanswer; simpl.
      * split; [done|]. by apply Hcleared.
      * split; [done|]. by apply Hcleared.
      * by specialize (Hok data).
      * case_bool_decide as Hs; [subst; by specialize (H404 body)|].
        simpl. split; [done|]. by apply Hcleared.
  - intros [->| ->]; done.
Qed.

Lemma load_cached_profile_outcomes_witness :
  ProfileService.loadCachedProfile aliceServer
    (ProfileService.create (ProfileService.mkStorage (Some "u-7") false))
  = (None, ProfileService.create (ProfileService.mkStorage (Some "u-7") false)).
Proof.
  assert (H1 : ProfileService.getCachedProfileId
                 (ProfileService.create (ProfileService.mkStorage (Some "u-7") false))
               = Some "u-7") by reflexivity.
  assert (H2 : "u-7" <> String.EmptyString) by discriminate.
  exact (proj1 (proj2 (proj1 (load_cached_profile_outcomes aliceServer
                                (ProfileService.create
                                   (ProfileService.mkStorage (Some "u-7") false)))
                         "u-7" H1 H2))
           (Some (Some "Profile not found")) eq_refl).
Defined.

(** X6.  A created profile is remembered through [localStorage]: after a
    successful [createProfile] with storage that works, the service has the
    profile, the stored id is the profile's, and a new service on the same
    storage loads that profile from a server that knows it.  With storage
    that throws nothing is stored, and a new service loads nothing. *)
Theorem created_profile_is_remembered (server : string -> ProfileService.Answer)
  (data : ProfileService.ProfileResponse) (s : ProfileService.t) :
  let s' := snd (ProfileService.createProfile (ProfileService.Ok (inr data)) s) in
  let next := ProfileService.create (ProfileService.storage s') in
  ProfileService.getCachedProfile s' = Some (ProfileService.responseToPlayer data)
  /\ ProfileService.hasProfile s' = true
  /\ (ProfileService.blocked (ProfileService.storage s) = false ->
      ProfileService.response_id data <> String.EmptyString ->
      server (ProfileService.response_id data) = ProfileService.Ok (inr data) ->
      ProfileService.getCachedProfileId s' = Some (ProfileService.response_id data)
      /\ fst (ProfileService.loadCachedProfile server next)
         = Some (ProfileService.responseToPlayer data))
  /\ (ProfileService.blocked (ProfileService.storage s) = true ->
      ProfileService.getCachedProfileId s' = None
      /\ ProfileService.loadCachedProfile server next = (None, next)).
Proof.
  unfold ProfileService.createProfile, ProfileService.saveProfileId. simpl.
  destruct (ProfileService.blocked (ProfileService.storage s)) eqn:Hblocked; simpl.
  - repeat split; try done.
    + unfold ProfileService.getCachedProfileId. simpl. by rewrite Hblocked.
    + unfold ProfileService.loadCachedProfile, ProfileService.getCachedProfileId. simpl.
      by rewrite Hblocked.
  - repeat split; try done.
    unfold ProfileService.loadCachedProfile. simpl.
    rewrite bool_decide_eq_false_2 by done. rewrite H1. done.
Qed.

Lemma created_profile_is_remembered_witness :
  fst (ProfileService.loadCachedProfile aliceServer
         (ProfileService.create
            (ProfileService.storage
               (snd (ProfileService.createProfile (ProfileService.Ok (inr aliceResponse))
                       (ProfileService.create emptyStorage))))))
  = Some (ProfileService.responseToPlayer aliceResponse).
Proof.
  assert (H : "u-1" <> String.EmptyString) by discriminate.
  exact (proj2 (proj1 (proj2 (proj2
           (created_profile_is_remembered aliceServer aliceResponse
              (ProfileService.create emptyStorage)))) eq_refl H eq_refl)).
Defined.

(** ** The panel registry: press and release *)

Section PressRelease.

Context (lib : UISystem.RenderLib) {Callback : Type}.

Lemma setButtonHover_onClick r hov (ui : UISystem.t Callback) r' :
  UISystem.onClick <$> UISystem.store (UISystem.setButtonHover r hov ui) !! r'
  = UISystem.onClick <$> UISystem.store ui !! r'.
Proof.
  unfold UISystem.setButtonHover. rewrite updateButton_store.
  case_decide; [|done]. by destruct (UISystem.store ui !! r').
Qed.

Lemma resetHover_onClick (ui : UISystem.t Callback) r :
  UISystem.onClick <$> UISystem.store (resetHover ui) !! r
  = UISystem.onClick <$> UISystem.store ui !! r.
Proof.
  unfold resetHover. destruct (UISystem.hoveredButton ui) as [h|]; [|done].
  simpl. apply (setButtonHover_onClick h false ui r).
Qed.

(** After a ray cast that had a mesh to test, the hovered button is the
    button returned, and callbacks are what they were. *)
Lemma handleRaycast_hovered origin direction (ui : UISystem.t Callback) :
  length (UISystem.buttonMeshes ui) <> 0%nat ->
  UISystem.hoveredButton (fst (UISystem.handleRaycast lib origin direction ui))
  = snd (UISystem.handleRaycast lib origin direction ui)
  /\ forall r,
       UISystem.onClick <$> UISystem.store (fst (UISystem.handleRaycast lib origin direction ui)) !! r
       = UISystem.onClick <$> UISystem.store ui !! r.
Proof.
  intros Hmeshes. unfold UISystem.handleRaycast.
  rewrite decide_False by done.
  change (match UISystem.hoveredButton ui with
          | Some h => UISystem.setHoveredButton None (UISystem.setButtonHover h false ui)
          | None => ui
          end) with (resetHover ui).
  assert (Hnone : UISystem.hoveredButton (resetHover ui) = None).
  { unfold resetHover. by destruct (UISystem.hoveredButton ui) eqn:Hh. }
  destruct (UISystem.intersectObjects lib origin direction (UISystem.buttonMeshes ui))
    as [|hit rest]; simpl.
  - split; [done|]. apply resetHover_onClick.
  - destruct (UISystem.findButtonById _ (resetHover ui)) as [r|]; simpl.
    + split; [done|]. intros r'.
      rewrite (setButtonHover_onClick r true (resetHover ui) r'). apply resetHover_onClick.
    + split; [done|]. apply resetHover_onClick.
Qed.

End PressRelease.

(** X7.  Ray cast, then trigger press: when the ray cast had at least one
    mesh to test, [handleTriggerPress] invokes the callback of the button
    that the ray cast returned, and no callback when it returned null. *)
Theorem press_invokes_the_returned_button (lib : UISystem.RenderLib) {Callback : Type}
  (origin direction : Vector3) (ui : UISystem.t Callback) :
  length (UISystem.buttonMeshes ui) <> 0%nat ->
  snd (UISystem.handleTriggerPress (fst (UISystem.handleRaycast lib origin direction ui)))
  = snd (UISystem.handleRaycast lib origin direction ui)
      ≫= fun r => UISystem.onClick <$> UISystem.store ui !! r.
Proof.
  intros Hmeshes.
  destruct (handleRaycast_hovered lib origin direction ui Hmeshes) as [Hhov Hclick].
  unfold UISystem.handleTriggerPress. rewrite Hhov.
  destruct (snd (UISystem.handleRaycast lib origin direction ui)) as [r|]; simpl; [|done].
  specialize (Hclick r).
  destruct (UISystem.store (fst (UISystem.handleRaycast lib origin direction ui)) !! r) as [b|];
    simpl in *; done.
Qed.

Lemma press_invokes_the_returned_button_witness :
  snd (UISystem.handleTriggerPress
         (fst (UISystem.handleRaycast rayOnContinue cameraPosition towardsContinue
                 (AppFlowController.uiSystem (typed "Alice")))))
  = snd (UISystem.handleRaycast rayOnContinue cameraPosition towardsContinue
           (AppFlowController.uiSystem (typed "Alice")))
      ≫= fun r => UISystem.onClick <$>
                    UISystem.store (AppFlowController.uiSystem (typed "Alice")) !! r.
Proof.
  assert (H1 : length (UISystem.buttonMeshes (AppFlowController.uiSystem (typed "Alice")))
               <> 0%nat) by (vm_compute; discriminate).
  exact (press_invokes_the_returned_button rayOnContinue cameraPosition towardsContinue
           (AppFlowController.uiSystem (typed "Alice")) H1).
Defined.



(** X9.  The active panel is not a record of what is on screen: after
    panel A is shown, panel B is shown over it and B is hidden again,
    [getActivePanel] answers null although A is still visible. *)
Theorem active_panel_is_forgotten {Callback : Type} (ui : UISystem.t Callback)
  (A B : UISystem.UIPanelType) :
  A ≠ B -> is_Some (UISystem.getPanel A ui) -> is_Some (UISystem.getPanel B ui) ->
  UISystem.getActivePanel (UISystem.hidePanel B (UISystem.showPanel B (UISystem.showPanel A ui)))
  = None
  /\ UISystem.isVisible
       <$> UISystem.getPanel A (UISystem.hidePanel B (UISystem.showPanel B (UISystem.showPanel A ui)))
     = Some true.
Proof.
  intros Hne [pa Ha] [pb Hb]. unfold UISystem.getPanel, UISystem.getActivePanel in *.
  rewrite hidePanel_unfold, !showPanel_unfold. simpl.
  assert (HB : is_Some (UISystem.mapGet B (UISystem.mapUpdate A shown (UISystem.panels ui)))).
  { apply mapGet_is_Some_update. eauto. }
  split.
  - rewrite (decide_True (P := is_Some (UISystem.mapGet B _))) by done.
    rewrite decide_True; [done|]. split; [done|]. by apply mapGet_is_Some_update.
  - rewrite !mapGet_mapUpdate_ne by done. rewrite mapGet_mapUpdate_eq, Ha. done.
Qed.

Lemma active_panel_is_forgotten_witness :
  UISystem.getActivePanel
    (UISystem.hidePanel UISystem.Keyboard
       (UISystem.showPanel UISystem.Keyboard
          (UISystem.showPanel UISystem.ProfileInput
             (AppFlowController.uiSystem AppFlowController.create))))
  = None.
Proof.
  assert (H1 : UISystem.ProfileInput ≠ UISystem.Keyboard) by discriminate.
  assert (H2 : is_Some (UISystem.getPanel UISystem.ProfileInput
                          (AppFlowController.uiSystem AppFlowController.create)))
    by (vm_compute; eauto).
  assert (H3 : is_Some (UISystem.getPanel UISystem.Keyboard
                          (AppFlowController.uiSystem AppFlowController.create)))
    by (vm_compute; eauto).
  exact (proj1 (active_panel_is_forgotten _ _ _ H1 H2 H3)).
Defined.

(** X10.  One controller per frame: while a panel is visible,
    [processControllerInput] runs the loop body for the first source that
    is a tracked pointer with a known pose and for no other; the trigger
    state recorded for every other source is left as it was. *)
Theorem first_pointer_only (lib : UISystem.RenderLib) {Callback : Type}
  (skipped rest : list XRInputSource) (src : XRInputSource) (pose : Pose)
  (c : UIController.t) (ui : UISystem.t Callback) :
  UISystem.hasVisiblePanel ui = true ->
  Forall (fun s => ~ usablePointer s) skipped ->
  targetRayMode src = TrackedPointer ->
  targetRaySpace src = Some (Some pose) ->
  UIController.processControllerInput lib (skipped ++ src :: rest) c ui
  = UIController.processSource lib src pose c ui
  /\ forall s, s ≠ source src ->
       UIController.triggerStates
         (fst (fst (UIController.processControllerInput lib (skipped ++ src :: rest) c ui))) !! s
       = UIController.triggerStates c !! s.
Proof.
  intros Hvis Hskip Hmode Hpose.
  assert (Heq : UIController.processControllerInput lib (skipped ++ src :: rest) c ui
                = UIController.processSource lib src pose c ui).
  { unfold UIController.processControllerInput. rewrite Hvis. simpl.
    induction Hskip as [|s skipped Hs _ IH]; simpl.
    - by rewrite Hmode, Hpose.
    - destruct (targetRayMode s) eqn:Hm; try exact IH.
      destruct (targetRaySpace s) as [[p|]|] eqn:Hp; try exact IH.
      exfalso. apply Hs. split; eauto. }
  split; [exact Heq|]. intros s Hs. rewrite Heq.
  unfold UIController.processSource.
  destruct (UISystem.handleRaycast lib _ _ ui) as [ui1 hov].
  destruct (gamepad src) as [g|]; [|by destruct hov].
  destruct (_ && _); [destruct (UISystem.handleTriggerPress ui1)|];
    destruct (_ && _); simpl; rewrite lookup_insert_ne by done; by destruct hov.
Qed.

Lemma first_pointer_only_witness :
  UIController.processControllerInput rayOnContinue
    ([heldUntracked] ++ idleTracked :: [heldTracked]) UIController.create
    (AppFlowController.uiSystem (typed "Alice"))
  = UIController.processSource rayOnContinue idleTracked samplePose UIController.create
      (AppFlowController.uiSystem (typed "Alice")).
Proof.
  assert (H1 : UISystem.hasVisiblePanel (AppFlowController.uiSystem (typed "Alice")) = true)
    by (vm_compute; reflexivity).
  assert (H2 : Forall (fun s => ~ usablePointer s) [heldUntracked]).
  { constructor; [|constructor]. intros [_ [p Hp]]. vm_compute in Hp. discriminate. }
  exact (proj1 (first_pointer_only rayOnContinue [heldUntracked] [heldTracked] idleTracked
                  samplePose UIController.create _ H1 H2 eq_refl eq_refl)).
Defined.

(** ** Name entry *)

Lemma trimStart_length (s : JSString) : (length (trimStart s) <= length s)%nat.
Proof.
  induction s as [|c s IH]; simpl; [done|]. destruct (isWhiteSpace c); simpl; lia.
Qed.

Lemma trim_length (s : JSString) : (length (trim s) <= length s)%nat.
Proof.
  unfold trim, trimEnd. rewrite length_rev.
  etrans; [apply trimStart_length|]. rewrite length_rev. apply trimStart_length.
Qed.

Lemma keyboard_key_length (key : string) :
  key ∈ concat AppFlowController.KEYBOARD_ROWS ->
  key = VirtualKeyboard.backspaceKey \/ key = "Space" \/ key = "Done" \/ length (js key) = 1%nat.
Proof.
  intros H. simpl in H.
  repeat (apply elem_of_cons in H as [->|H];
          [first [ by left | by (right; left) | by (right; right; left)
                 | by (right; right; right) ] |]).
  by apply elem_of_nil in H.
Qed.

Lemma removelast_length {A} (l : list A) : (length (removelast l) <= length l)%nat.
Proof.
  induction l as [|x [|y l] IH]; simpl in *; lia.
Qed.

Lemma handleKeyPress_bound (key : string) (k : VirtualKeyboard.t) :
  key ∈ concat AppFlowController.KEYBOARD_ROWS ->
  (length (VirtualKeyboard.currentText k) <= VirtualKeyboard.maxLength k)%nat ->
  VirtualKeyboard.maxLength (fst (VirtualKeyboard.handleKeyPress key k)) = VirtualKeyboard.maxLength k
  /\ (length (VirtualKeyboard.currentText (fst (VirtualKeyboard.handleKeyPress key k)))
      <= VirtualKeyboard.maxLength k)%nat
  /\ match snd (VirtualKeyboard.handleKeyPress key k) with
     | VirtualKeyboard.TextChanged text
     | VirtualKeyboard.Done text =>
         text = VirtualKeyboard.currentText (fst (VirtualKeyboard.handleKeyPress key k))
     | VirtualKeyboard.NoEffect => True
     end.
Proof.
  intros Hkey Hlen. unfold VirtualKeyboard.handleKeyPress.
  repeat case_bool_decide.
  - destruct (0 <? _)%nat; simpl; [|done].
    split; [done|]. split; [|done]. pose proof (removelast_length (VirtualKeyboard.currentText k)). lia.
  - destruct (_ <? _)%nat eqn:Hlt; simpl; [|done].
    apply Nat.ltb_lt in Hlt. rewrite length_app. simpl. split; [done|]. split; [lia|done].
  - done.
  - destruct (_ <? _)%nat eqn:Hlt; simpl; [|done].
    apply Nat.ltb_lt in Hlt. rewrite length_app.
    destruct (keyboard_key_length key Hkey) as [?|[?|[?|Hone]]]; try done.
    rewrite Hone. split; [done|]. split; [lia|done].
Qed.

Lemma entryStep_invariant (e : EntryEvent) (a : AppFlowController.t) :
  onKeyboard e -> entryInvariant a -> entryInvariant (entryStep e a).
Proof.
  intros He (Hname & Htext & Hmax). destruct e as [target|key|key]; simpl.
  - destruct target; unfold entryInvariant; simpl.
    + split; [done|]. split; [|done]. rewrite length_take.
      unfold ProfileInputPanel.getDisplayName. lia.
    + split; [done|]. split; [|done]. rewrite length_take. simpl. lia.
  - simpl in He. unfold AppFlowController.keyPress.
    pose proof (handleKeyPress_bound key (AppFlowController.virtualKeyboard a) He Htext)
      as (Hm & Hl & Heff).
    destruct (VirtualKeyboard.handleKeyPress key (AppFlowController.virtualKeyboard a))
      as [k eff]; simpl in *.
    destruct eff as [text|text|]; subst.
    + unfold AppFlowController.handleKeyboardTextChange; simpl.
      destruct (AppFlowController.currentKeyboardTarget a) as [[|]|] eqn:Ht;
        unfold entryInvariant; simpl; rewrite ?Ht, ?Hm; repeat split; try done; try lia.
      specialize (Hmax eq_refl). lia.
    + unfold AppFlowController.handleKeyboardDone_begin; simpl.
      destruct (AppFlowController.currentKeyboardTarget a) as [[|]|] eqn:Ht; simpl.
      * unfold entryInvariant; simpl. rewrite Hm. repeat split; try done; try lia.
        specialize (Hmax eq_refl). lia.
      * destruct (trim (VirtualKeyboard.currentText k));
          unfold entryInvariant; simpl; rewrite ?Ht, ?Hm; repeat split; try done; lia.
      * unfold entryInvariant; simpl. rewrite Hm. repeat split; try done; lia.
    + unfold entryInvariant; simpl. rewrite Hm. repeat split; try done; lia.
  - unfold AppFlowController.onKeyDown.
    destruct (UISystem.getPanel _ _) as [panel|]; [|done].
    destruct (UISystem.isVisible panel); [|done].
    assert (Hk : (length (ProfileInputPanel.displayName
                            (fst (ProfileInputPanel.keyboardHandler key
                                    (AppFlowController.profileInputPanel a)))) <= 20)%nat).
    { destruct key; simpl.
      - unfold ProfileInputPanel.handleSubmit, ProfileInputPanel.validateName.
        repeat (destruct (_ <? _)%nat; simpl; try done).
      - pose proof (removelast_length
                      (ProfileInputPanel.displayName (AppFlowController.profileInputPanel a))).
        lia.
      - destruct (_ <? _)%nat eqn:Hlt; simpl; [|done].
        apply Nat.ltb_lt in Hlt. unfold ProfileInputPanel.NAME_MAX_LENGTH in Hlt.
        rewrite length_app. simpl. lia.
      - done. }
    destruct (ProfileInputPanel.keyboardHandler key (AppFlowController.profileInputPanel a))
      as [p [name|]]; simpl in *; by unfold entryInvariant.
Qed.

(** X11.  The entered name never exceeds twenty code units: whatever
    sequence of keyboard openings, clicks on keys of the virtual keyboard
    and desktop key presses is applied, the display name of the profile
    panel has at most 20 code units and the keyboard text fits its maximum
    length, so that validation can fail for a short name only. *)
Theorem entered_name_within_limit (events : list EntryEvent) (a : AppFlowController.t) :
  Forall onKeyboard events ->
  entryInvariant a ->
  entryInvariant (entrySteps events a)
  /\ (fst (ProfileInputPanel.validateName
             (AppFlowController.profileInputPanel (entrySteps events a))) = true
      \/ ProfileInputPanel.errorMessage
           (snd (ProfileInputPanel.validateName
                   (AppFlowController.profileInputPanel (entrySteps events a))))
         = "Name must be at least 3 characters").
Proof.
  intros Hev Hinv.
  assert (H : entryInvariant (entrySteps events a)).
  { revert a Hinv. induction Hev as [|e events He _ IH]; intros a Hinv; [done|].
    apply IH. by apply entryStep_invariant. }
  split; [done|]. destruct H as (Hname & _).
  unfold ProfileInputPanel.validateName.
  destruct (_ <? ProfileInputPanel.NAME_MIN_LENGTH)%nat; simpl; [by right|].
  destruct (_ <? _)%nat eqn:Hlt; simpl; [|by left].
  apply Nat.ltb_lt in Hlt. unfold ProfileInputPanel.NAME_MAX_LENGTH in Hlt.
  pose proof (trim_length (ProfileInputPanel.displayName
                (AppFlowController.profileInputPanel (entrySteps events a)))). lia.
Qed.

Lemma entered_name_within_limit_witness :
  entryInvariant
    (entrySteps [DesktopKey (ProfileInputPanel.Char 65); OpenKeyboard KProfile;
                 VirtualKey "L"; VirtualKey "Done"] newVisitor).
Proof.
  assert (H1 : Forall onKeyboard
                 [DesktopKey (ProfileInputPanel.Char 65); OpenKeyboard KProfile;
                  VirtualKey "L"; VirtualKey "Done"]).
  { repeat constructor; simpl; apply (bool_decide_unpack _); vm_compute; exact I. }
  assert (H2 : entryInvariant newVisitor).
  { unfold entryInvariant. vm_compute. repeat split; try lia. discriminate. }
  exact (proj1 (entered_name_within_limit _ newVisitor H1 H2)).
Defined.

Lemma keyPress_typing (key : string) (a : AppFlowController.t) :
  key ≠ "Done" ->
  AppFlowController.currentKeyboardTarget (AppFlowController.keyPress key a)
  = AppFlowController.currentKeyboardTarget a
  /\ AppFlowController.issued (AppFlowController.keyPress key a) = AppFlowController.issued a.
Proof.
  intros Hkey. unfold AppFlowController.keyPress, VirtualKeyboard.handleKeyPress.
  repeat case_bool_decide; try done;
    (destruct (_ <? _)%nat; simpl; [|done]);
    unfold AppFlowController.handleKeyboardTextChange; simpl;
    by destruct (AppFlowController.currentKeyboardTarget a) as [[|]|] eqn:Ht.
Qed.

(** X12.  Editing the name on the virtual keyboard: after the keyboard has
    been opened for the profile panel and any keys other than Done have been
    clicked, clicking Done leaves the keyboard text as the display name of
    the profile panel, clears its error message, forgets the keyboard target
    and hides the keyboard; no request is sent on the way. *)
Theorem keyboard_edit_reaches_profile (keys : list string) (a : AppFlowController.t) :
  Forall (fun key => key ≠ "Done") keys ->
  let a1 := entrySteps (OpenKeyboard KProfile :: map VirtualKey keys) a in
  let a2 := entryStep (VirtualKey "Done") a1 in
  ProfileInputPanel.displayName (AppFlowController.profileInputPanel a2)
  = VirtualKeyboard.currentText (AppFlowController.virtualKeyboard a1)
  /\ ProfileInputPanel.errorMessage (AppFlowController.profileInputPanel a2) = String.EmptyString
  /\ AppFlowController.currentKeyboardTarget a2 = None
  /\ UISystem.isVisible <$> UISystem.getPanel UISystem.Keyboard (AppFlowController.uiSystem a2)
     ≠ Some true
  /\ AppFlowController.issued a2 = AppFlowController.issued a.
Proof.
  intros Hkeys a1 a2.
  assert (H1 : AppFlowController.currentKeyboardTarget a1 = Some KProfile
               /\ AppFlowController.issued a1 = AppFlowController.issued a).
  { subst a1. unfold entrySteps. simpl.
    assert (H0 : AppFlowController.currentKeyboardTarget
                   (AppFlowController.openKeyboard KProfile a) = Some KProfile
                 /\ AppFlowController.issued (AppFlowController.openKeyboard KProfile a)
                    = AppFlowController.issued a) by done.
    revert H0. generalize (AppFlowController.openKeyboard KProfile a). clear a2.
    induction Hkeys as [|key keys Hkey _ IH]; intros b [Ht Hi]; [done|].
    simpl. apply IH. destruct (keyPress_typing key b Hkey) as [-> ->]. done. }
  destruct H1 as [Ht Hi]. subst a2. simpl.
  unfold AppFlowController.keyPress.
  change (VirtualKeyboard.handleKeyPress "Done" (AppFlowController.virtualKeyboard a1))
    with (AppFlowController.virtualKeyboard a1,
          VirtualKeyboard.Done (VirtualKeyboard.currentText (AppFlowController.virtualKeyboard a1))).
  simpl. unfold AppFlowController.handleKeyboardDone_begin. simpl. rewrite Ht. simpl.
  repeat split; try done.
  unfold UISystem.getPanel. rewrite hidePanel_unfold. simpl.
  rewrite mapGet_mapUpdate_eq.
  by destruct (UISystem.mapGet UISystem.Keyboard _).
Qed.

Lemma keyboard_edit_reaches_profile_witness :
  ProfileInputPanel.displayName
    (AppFlowController.profileInputPanel
       (entryStep (VirtualKey "Done")
          (entrySteps (OpenKeyboard KProfile :: map VirtualKey ["B"; "O"; "B"]) newVisitor)))
  = js "BOB".
Proof.
  assert (H : Forall (fun key : string => key ≠ "Done") ["B"; "O"; "B"])
    by (repeat constructor; discriminate).
  exact (eq_trans (proj1 (keyboard_edit_reaches_profile ["B"; "O"; "B"] newVisitor H))
                  eq_refl).
Defined.

(** ** The flow of the application *)

(** X13.  The loading overlay brackets every request: it is visible from
    the moment a request is sent (profile creation, room loading, song
    loading, the profile look-up at start) and hidden once the request has
    been answered, whether it succeeded or failed. *)
Theorem loading_overlay_brackets_requests (a : AppFlowController.t)
  (name : JSString) (theme : RoomTheme)
  (profileAnswer : Awaited Player) (roomAnswer : Awaited Room)
  (songsAnswer : Awaited (option (list Song))) (startAnswer : Awaited (option Player)) :
  (loadingVisible (AppFlowController.handleProfileSubmit_begin name a) = true
   /\ loadingVisible (AppFlowController.handleProfileSubmit_resume name profileAnswer
                        (AppFlowController.handleProfileSubmit_begin name a)) = false)
  /\ (loadingVisible (AppFlowController.handleRoomSelect_begin theme roomAnswer a) = true
      /\ loadingVisible (AppFlowController.handleRoomSelect_resume theme roomAnswer
                           (AppFlowController.handleRoomSelect_begin theme roomAnswer a)) = false)
  /\ (loadingVisible (AppFlowController.showSongSearch_begin a) = true
      /\ loadingVisible (AppFlowController.showSongSearch_resume songsAnswer
                           (AppFlowController.showSongSearch_begin a)) = false)
  /\ (loadingVisible (AppFlowController.start_begin a) = true
      /\ loadingVisible (AppFlowController.start_resume startAnswer
                           (AppFlowController.start_begin a)) = false).
Proof.
  repeat split; try done.
  - by destruct profileAnswer.
  - by destruct roomAnswer.
  - destruct songsAnswer as [response|]; [|done].
    unfold AppFlowController.showSongSearch_resume.
    by destruct (SongSearchPanel.loadSongs_resume _ _ _).
  - by destruct startAnswer as [[|]|].
Qed.

(** X14.  A room that fails to load leaves no room: the error overlay is
    shown with the message of the failure (or the default text), every
    panel is hidden, and the scene has no current room even when one was
    loaded before; dismissing the error then shows the room selection
    alone. *)
Theorem failed_room_load_leaves_no_room (env : Services) (theme : RoomTheme)
  (m : option string) (a : AppFlowController.t) :
  UISystem.wellFormed (AppFlowController.uiSystem a) ->
  roomSetupResult env theme = Rejected m ->
  let a' := AppFlowController.handleRoomSelect env theme a in
  let a'' := AppFlowController.handleErrorDismiss env a' in
  AppFlowController.currentState a' = AppFlowController.ErrorState
  /\ ErrorDisplay.isVisible (AppFlowController.errorDisplay a') = true
  /\ ErrorDisplay.message (AppFlowController.errorDisplay a') = default "Failed to load room" m
  /\ SceneManager.getCurrentRoom (AppFlowController.sceneManager a') = None
  /\ UISystem.visiblePanels (AppFlowController.uiSystem a') = []
  /\ AppFlowController.currentState a'' = AppFlowController.RoomSelectionState
  /\ ErrorDisplay.isVisible (AppFlowController.errorDisplay a'') = false
  /\ UISystem.visiblePanels (AppFlowController.uiSystem a'')
     = only UISystem.RoomSelection (AppFlowController.uiSystem a).
Proof.
  intros Hwf Hfail a' a''.
  assert (Hroom : SceneManager.getCurrentRoom (AppFlowController.sceneManager a') = None).
  { subst a'. unfold AppFlowController.handleRoomSelect. rewrite Hfail. simpl.
    unfold SceneManager.loadRoom, SceneManager.unloadCurrentRoom.
    by destruct (SceneManager.currentRoom (AppFlowController.sceneManager a)) eqn:E. }
  assert (Hui : AppFlowController.uiSystem a'
                = UISystem.hideAllPanels (AppFlowController.uiSystem a)).
  { subst a'. unfold AppFlowController.handleRoomSelect. by rewrite Hfail. }
  assert (Hnone : UISystem.visiblePanels (AppFlowController.uiSystem a') = []).
  { rewrite Hui. by apply visiblePanels_hideAllPanels. }
  split; [subst a'; unfold AppFlowController.handleRoomSelect; by rewrite Hfail|].
  split; [subst a'; unfold AppFlowController.handleRoomSelect; by rewrite Hfail|].
  split; [subst a'; unfold AppFlowController.handleRoomSelect; by rewrite Hfail|].
  split; [done|]. split; [done|].
  assert (Hd : a'' = AppFlowController.showRoomSelection
                       (AppFlowController.withError ErrorDisplay.hide a')).
  { subst a''. unfold AppFlowController.handleErrorDismiss.
    change (AppFlowController.sceneManager (AppFlowController.withError ErrorDisplay.hide a'))
      with (AppFlowController.sceneManager a').
    by rewrite Hroom. }
  rewrite Hd. split; [done|]. split; [done|].
  rewrite showRoomSelection_ui.
  change (AppFlowController.uiSystem (AppFlowController.withError ErrorDisplay.hide a'))
    with (AppFlowController.uiSystem a').
  rewrite visiblePanels_show_after_hide.
  - apply only_keys. rewrite hideAllPanels_keys, Hui. apply hideAllPanels_keys.
  - apply hideAllPanels_wellFormed. rewrite Hui. by apply hideAllPanels_wellFormed.
  - apply visiblePanels_hideAllPanels. rewrite Hui. by apply hideAllPanels_wellFormed.
Qed.

Lemma failed_room_load_leaves_no_room_witness :
  SceneManager.getCurrentRoom
    (AppFlowController.sceneManager
       (AppFlowController.handleRoomSelect servicesDown Kpop inSongSearch)) = None.
Proof.
  assert (H1 : UISystem.wellFormed (AppFlowController.uiSystem inSongSearch)).
  { unfold UISystem.wellFormed. apply (bool_decide_unpack _). vm_compute. exact I. }
  assert (H2 : roomSetupResult servicesDown Kpop = Rejected (Some "Room setup failed"))
    by reflexivity.
  exact (proj1 (proj2 (proj2 (proj2
           (failed_room_load_leaves_no_room servicesDown Kpop _ inSongSearch H1 H2))))).
Defined.

(** X15.  Dismissing a failed profile creation: with no room loaded, the
    dismiss action shows the room selection alone although no profile has
    been created; the one profile request sent is the failed one. *)
Theorem dismissed_profile_error_reaches_rooms (env : Services) (name : JSString)
  (m : option string) (a : AppFlowController.t) :
  UISystem.wellFormed (AppFlowController.uiSystem a) ->
  createProfileResult env name = Rejected m ->
  SceneManager.getCurrentRoom (AppFlowController.sceneManager a) = None ->
  let a' := AppFlowController.handleErrorDismiss env
              (AppFlowController.handleProfileSubmit env name a) in
  AppFlowController.currentState a' = AppFlowController.RoomSelectionState
  /\ AppFlowController.cachedProfile a' = AppFlowController.cachedProfile a
  /\ UISystem.visiblePanels (AppFlowController.uiSystem a')
     = only UISystem.RoomSelection (AppFlowController.uiSystem a)
  /\ AppFlowController.issued a' = CreateProfile name :: AppFlowController.issued a.
Proof.
  intros Hwf Hfail Hroom a'.
  assert (Hd : a' = AppFlowController.showRoomSelection
                      (AppFlowController.withError ErrorDisplay.hide
                         (AppFlowController.handleProfileSubmit env name a))).
  { subst a'. unfold AppFlowController.handleErrorDismiss, AppFlowController.handleProfileSubmit.
    rewrite Hfail. simpl. unfold SceneManager.getCurrentRoom in *. by rewrite Hroom. }
  rewrite Hd. unfold AppFlowController.handleProfileSubmit. rewrite Hfail.
  split; [done|]. split; [done|]. split; [|done].
  rewrite showRoomSelection_ui. simpl.
  rewrite visiblePanels_show_after_hide.
  - apply only_keys, hideAllPanels_keys.
  - by apply hideAllPanels_wellFormed.
  - by apply visiblePanels_hideAllPanels.
Qed.

Lemma dismissed_profile_error_reaches_rooms_witness :
  AppFlowController.currentState
    (AppFlowController.handleErrorDismiss servicesDown
       (AppFlowController.handleProfileSubmit servicesDown (js "Alice") newVisitor))
  = AppFlowController.RoomSelectionState
  /\ AppFlowController.cachedProfile
       (AppFlowController.handleErrorDismiss servicesDown
          (AppFlowController.handleProfileSubmit servicesDown (js "Alice") newVisitor))
     = AppFlowController.cachedProfile newVisitor.
Proof.
  assert (H1 : UISystem.wellFormed (AppFlowController.uiSystem newVisitor)).
  { unfold UISystem.wellFormed. apply (bool_decide_unpack _). vm_compute. exact I. }
  assert (H2 : createProfileResult servicesDown (js "Alice") = Rejected (Some "Failed to fetch"))
    by reflexivity.
  assert (H3 : SceneManager.getCurrentRoom (AppFlowController.sceneManager newVisitor) = None)
    by reflexivity.
  split.
  - exact (proj1 (dismissed_profile_error_reaches_rooms servicesDown (js "Alice") _
                    newVisitor H1 H2 H3)).
  - exact (proj1 (proj2 (dismissed_profile_error_reaches_rooms servicesDown (js "Alice") _
                           newVisitor H1 H2 H3))).
Defined.

Lemma hidden_when_none_visible {Callback : Type} (ui : UISystem.t Callback) ty p :
  UISystem.hasVisiblePanel ui = false ->
  UISystem.getPanel ty ui = Some p -> UISystem.isVisible p = false.
Proof.
  unfold UISystem.hasVisiblePanel, UISystem.getPanel.
  induction (UISystem.panels ui) as [|[k q] m IH]; simpl; [done|].
  intros Hex. apply orb_false_iff in Hex as [Hq Hm].
  case_decide; [by intros [= <-]|by apply IH].
Qed.

Lemma processMicrophoneInput_scope srcs a :
  AppFlowController.uiSystem (AppFlowController.processMicrophoneInput srcs a)
  = AppFlowController.uiSystem a
  /\ AppFlowController.currentState (AppFlowController.processMicrophoneInput srcs a)
     = AppFlowController.currentState a
  /\ AppFlowController.issued (AppFlowController.processMicrophoneInput srcs a)
     = AppFlowController.issued a
  /\ SceneManager.currentVideoScreen
       (AppFlowController.sceneManager (AppFlowController.processMicrophoneInput srcs a))
     = SceneManager.currentVideoScreen (AppFlowController.sceneManager a).
Proof.
  unfold AppFlowController.processMicrophoneInput.
  destruct (SceneManager.getCurrentMicrophone _) as [mic|]; [|done].
  by destruct (fold_left _ _ _).
Qed.

(** With no panel visible, a frame, a mouse event or a key event changes
    neither the panels, nor the state, nor the video, and sends nothing. *)
Lemma inputStep_inert env lib e a :
  UISystem.hasVisiblePanel (AppFlowController.uiSystem a) = false ->
  AppFlowController.uiSystem (inputStep env lib e a) = AppFlowController.uiSystem a
  /\ AppFlowController.currentState (inputStep env lib e a) = AppFlowController.currentState a
  /\ AppFlowController.issued (inputStep env lib e a) = AppFlowController.issued a
  /\ SceneManager.currentVideoScreen (AppFlowController.sceneManager (inputStep env lib e a))
     = SceneManager.currentVideoScreen (AppFlowController.sceneManager a).
Proof.
  intros Hnone. destruct e as [delta xr|o d|o d|key]; simpl.
  - unfold AppFlowController.update.
    destruct (LoadingIndicator.getIsVisible _); [done|].
    destruct xr as [srcs|]; [|done].
    unfold UIController.processControllerInput. simpl. rewrite Hnone. simpl.
    destruct (_ || _); [|done].
    match goal with
    | |- context [AppFlowController.processMicrophoneInput srcs ?x] =>
        destruct (processMicrophoneInput_scope srcs x) as (-> & -> & -> & ->)
    end.
    done.
  - unfold AppFlowController.onMouseClick. by rewrite Hnone.
  - unfold AppFlowController.onMouseMove. by rewrite Hnone.
  - unfold AppFlowController.onKeyDown.
    destruct (UISystem.getPanel _ _) as [panel|] eqn:Hp; [|done].
    by rewrite (hidden_when_none_visible _ _ _ Hnone Hp).
Qed.

(** X16.  No input reaches a playing song: when a song is selected while
    the song search is the only visible panel, no panel is visible
    afterwards, and whatever frames, mouse events and key events follow, the
    state stays playing-song, the panels and the video stay as they are and
    no request is sent; the Stop and Back buttons cannot be activated. *)
Theorem no_input_reaches_a_playing_song (env : Services) (lib : UISystem.RenderLib)
  (yid : string) (events : list InputEvent) (a : AppFlowController.t) :
  UISystem.wellFormed (AppFlowController.uiSystem a) ->
  Forall (fun ty => ty = UISystem.SongSearch)
         (UISystem.visiblePanels (AppFlowController.uiSystem a)) ->
  let a' := AppFlowController.handleSongSelect yid a in
  let b := inputSteps env lib events a' in
  UISystem.hasVisiblePanel (AppFlowController.uiSystem a') = false
  /\ AppFlowController.currentState b = AppFlowController.PlayingSong
  /\ AppFlowController.uiSystem b = AppFlowController.uiSystem a'
  /\ SceneManager.currentVideoScreen (AppFlowController.sceneManager b)
     = SceneManager.currentVideoScreen (AppFlowController.sceneManager a')
  /\ AppFlowController.issued b = AppFlowController.issued a.
Proof.
  intros Hwf Honly a' b.
  assert (Hnone : UISystem.hasVisiblePanel (AppFlowController.uiSystem a') = false).
  { subst a'. rewrite handleSongSelect_ui, hasVisiblePanel_visiblePanels.
    rewrite visiblePanels_hidePanel by done.
    rewrite filter_none; [done|].
    eapply Forall_impl; [exact Honly|]. intros ty -> H. by apply H. }
  split; [done|].
  assert (Hstate : AppFlowController.currentState a' = AppFlowController.PlayingSong) by done.
  assert (Hissued : AppFlowController.issued a' = AppFlowController.issued a) by done.
  rewrite <- Hissued. rewrite <- Hstate at 1. subst b.
  clearbody a'. clear Hstate Hissued.
  revert a' Hnone. induction events as [|e events IH]; intros a' Hnone; [done|].
  unfold inputSteps in *. simpl.
  destruct (inputStep_inert env lib e a' Hnone) as (Hui & Hst & His & Hv).
  rewrite <- Hui, <- Hst, <- His, <- Hv. apply IH. by rewrite Hui.
Qed.

Lemma no_input_reaches_a_playing_song_witness :
  AppFlowController.currentState
    (inputSteps servicesUp rayOnContinue
       [Frame 1 (Some [heldTracked]); MouseClick cameraPosition towardsContinue;
        KeyDown ProfileInputPanel.Enter]
       (AppFlowController.handleSongSelect "dQw4w9WgXcQ" inSongSearch))
  = AppFlowController.PlayingSong.
Proof.
  assert (H1 : UISystem.wellFormed (AppFlowController.uiSystem inSongSearch)).
  { unfold UISystem.wellFormed. apply (bool_decide_unpack _). vm_compute. exact I. }
  assert (H2 : Forall (fun ty => ty = UISystem.SongSearch)
                 (UISystem.visiblePanels (AppFlowController.uiSystem inSongSearch))).
  { apply (bool_decide_unpack _). vm_compute. exact I. }
  exact (proj1 (proj2 (no_input_reaches_a_playing_song servicesUp rayOnContinue "dQw4w9WgXcQ"
                         [Frame 1 (Some [heldTracked]); MouseClick cameraPosition towardsContinue;
                          KeyDown ProfileInputPanel.Enter]
                         inSongSearch H1 H2))).
Defined.

(** X17.  Back to the room selection: the scene has no room afterwards,
    the microphone and the video screen of a loaded room are gone, the
    state is room-selection and the room selection is the only visible
    panel. *)
Theorem back_empties_the_scene (a : AppFlowController.t) :
  UISystem.wellFormed (AppFlowController.uiSystem a) ->
  let a' := AppFlowController.handleBackToRoomSelection a in
  AppFlowController.currentState a' = AppFlowController.RoomSelectionState
  /\ SceneManager.getCurrentRoom (AppFlowController.sceneManager a') = None
  /\ (SceneManager.getCurrentRoom (AppFlowController.sceneManager a) ≠ None ->
      AppFlowController.sceneManager a' = SceneManager.create)
  /\ UISystem.visiblePanels (AppFlowController.uiSystem a')
     = only UISystem.RoomSelection (AppFlowController.uiSystem a).
Proof.
  intros Hwf a'. subst a'. unfold AppFlowController.handleBackToRoomSelection.
  split; [done|].
  assert (Hstop : SceneManager.currentRoom
                    (SceneManager.stopVideo (AppFlowController.sceneManager a))
                  = SceneManager.currentRoom (AppFlowController.sceneManager a)).
  { unfold SceneManager.stopVideo. by destruct (SceneManager.currentVideoScreen _). }
  split; [|split].
  - simpl. unfold SceneManager.getCurrentRoom, SceneManager.unloadCurrentRoom.
    rewrite Hstop.
    destruct (SceneManager.currentRoom (AppFlowController.sceneManager a)) eqn:E; [done|].
    by rewrite Hstop.
  - simpl. unfold SceneManager.getCurrentRoom, SceneManager.unloadCurrentRoom.
    rewrite Hstop.
    by destruct (SceneManager.currentRoom (AppFlowController.sceneManager a)).
  - rewrite showRoomSelection_ui. simpl.
    rewrite visiblePanels_show_after_hide.
    + apply only_keys, hideAllPanels_keys.
    + by apply hideAllPanels_wellFormed.
    + by apply visiblePanels_hideAllPanels.
Qed.

Lemma back_empties_the_scene_witness :
  AppFlowController.sceneManager (AppFlowController.handleBackToRoomSelection inSongSearch)
  = SceneManager.create.
Proof.
  assert (H1 : UISystem.wellFormed (AppFlowController.uiSystem inSongSearch)).
  { unfold UISystem.wellFormed. apply (bool_decide_unpack _). vm_compute. exact I. }
  assert (H2 : SceneManager.getCurrentRoom (AppFlowController.sceneManager inSongSearch) ≠ None)
    by (vm_compute; discriminate).
  exact (proj1 (proj2 (proj2 (back_empties_the_scene inSongSearch H1))) H2).
Defined.

(** X18.  The start never ends in the error state: once the profile
    look-up is answered, the room selection is shown alone when a profile
    was found, and otherwise (no profile, or the look-up failed) the profile
    input is shown alone with an empty name; the error overlay and the
    stored retry thunk are untouched. *)
Theorem start_outcomes (r : Awaited (option Player)) (a : AppFlowController.t) :
  UISystem.wellFormed (AppFlowController.uiSystem a) ->
  let a' := AppFlowController.start_resume r (AppFlowController.start_begin a) in
  AppFlowController.errorDisplay a' = AppFlowController.errorDisplay a
  /\ AppFlowController.lastFailedAction a' = AppFlowController.lastFailedAction a
  /\ match r with
     | Fulfilled (Some player) =>
         AppFlowController.currentState a' = AppFlowController.RoomSelectionState
         /\ AppFlowController.cachedProfile a' = Some player
         /\ UISystem.visiblePanels (AppFlowController.uiSystem a')
            = only UISystem.RoomSelection (AppFlowController.uiSystem a)
     | _ =>
         AppFlowController.currentState a' = AppFlowController.ProfileInputState
         /\ AppFlowController.cachedProfile a' = AppFlowController.cachedProfile a
         /\ ProfileInputPanel.displayName (AppFlowController.profileInputPanel a') = []
         /\ UISystem.visiblePanels (AppFlowController.uiSystem a')
            = only UISystem.ProfileInput (AppFlowController.uiSystem a)
     end.
Proof.
  intros Hwf a'. subst a'.
  assert (Hshow : forall ty,
            UISystem.visiblePanels
              (UISystem.showPanel ty (UISystem.hideAllPanels (AppFlowController.uiSystem a)))
            = only ty (AppFlowController.uiSystem a)).
  { intros ty. rewrite visiblePanels_show_after_hide.
    - apply only_keys, hideAllPanels_keys.
    - by apply hideAllPanels_wellFormed.
    - by apply visiblePanels_hideAllPanels. }
  destruct r as [[player|]|m]; simpl; repeat split; try done; apply Hshow.
Qed.

Lemma start_outcomes_witness :
  AppFlowController.errorDisplay
    (AppFlowController.start_resume (Rejected None)
       (AppFlowController.start_begin AppFlowController.create))
  = AppFlowController.errorDisplay AppFlowController.create.
Proof.
  assert (H1 : UISystem.wellFormed (AppFlowController.uiSystem AppFlowController.create)).
  { unfold UISystem.wellFormed. apply (bool_decide_unpack _). vm_compute. exact I. }
  exact (proj1 (start_outcomes (Rejected None) AppFlowController.create H1)).
Defined.

(** ** The microphone in a frame *)








(** ** The song list *)

Lemma getPanel_addButtonToPanel ty b (ui : UISystem.t Callback) :
  UISystem.getPanel ty (UISystem.addButtonToPanel ty b ui)
  = (fun p => UISystem.mkPanel (UISystem.buttons p ++ [length (UISystem.store ui)])
                               (UISystem.isVisible p) (UISystem.rootVisible p))
      <$> UISystem.getPanel ty ui.
Proof.
  unfold UISystem.getPanel, UISystem.addButtonToPanel. simpl. apply mapGet_mapUpdate_eq.
Qed.

Lemma addSongButtons (l : list Song) (ui : UISystem.t Callback) (panel : UISystem.UIPanel) :
  UISystem.getPanel UISystem.SongSearch ui = Some panel ->
  let ui' := fold_left (fun u song =>
                          UISystem.addButtonToPanel UISystem.SongSearch
                            (SongSearchPanel.createSongButton song (length (UISystem.store u))) u)
                       l ui in
  UISystem.store ui'
  = UISystem.store ui
    ++ imap (fun i song => SongSearchPanel.createSongButton song (length (UISystem.store ui) + i)) l
  /\ UISystem.buttons <$> UISystem.getPanel UISystem.SongSearch ui'
     = Some (UISystem.buttons panel ++ seq (length (UISystem.store ui)) (length l)).
Proof.
  revert ui panel. induction l as [|song l IH]; intros ui panel Hp; simpl.
  - rewrite Hp, !app_nil_r. done.
  - set (b := SongSearchPanel.createSongButton song (length (UISystem.store ui))).
    pose proof (getPanel_addButtonToPanel UISystem.SongSearch b ui) as Hp1.
    rewrite Hp in Hp1. simpl in Hp1.
    destruct (IH _ _ Hp1) as [Hstore Hbuttons].
    assert (Hlen : length (UISystem.store (UISystem.addButtonToPanel UISystem.SongSearch b ui))
                   = S (length (UISystem.store ui))).
    { unfold UISystem.addButtonToPanel. simpl. rewrite length_app. simpl. lia. }
    rewrite Hlen in Hstore, Hbuttons. split.
    + rewrite Hstore. unfold UISystem.addButtonToPanel at 1. simpl.
      rewrite <- app_assoc. simpl. f_equal.
      rewrite Nat.add_0_r. f_equal.
      apply imap_ext. intros i s _. simpl. f_equal. lia.
    + rewrite Hbuttons. simpl. by rewrite <- app_assoc.
Qed.

(** X20.  The song buttons pile up: [updateSongList] appends one button
    for each of the first six songs to the store and to the buttons of the
    song-search panel, and removes none, so the buttons of every earlier
    list stay registered (and are found by id look-up and ray casting). *)
Theorem song_buttons_accumulate (p : SongSearchPanel.t) (ui : UISystem.t Callback)
  (panel : UISystem.UIPanel) :
  UISystem.getPanel UISystem.SongSearch ui = Some panel ->
  let shown := take SongSearchPanel.maxVisibleSongs (SongSearchPanel.songs p) in
  let ui' := SongSearchPanel.updateSongList p ui in
  UISystem.store ui'
  = UISystem.store ui
    ++ imap (fun i song => SongSearchPanel.createSongButton song (length (UISystem.store ui) + i))
            shown
  /\ UISystem.buttons <$> UISystem.getPanel UISystem.SongSearch ui'
     = Some (UISystem.buttons panel ++ seq (length (UISystem.store ui)) (length shown))
  /\ (length shown <= 6)%nat.
Proof.
  intros Hp shown ui'. subst ui'. unfold SongSearchPanel.updateSongList. rewrite Hp.
  destruct (addSongButtons shown ui panel Hp) as [Hs Hb].
  split; [exact Hs|]. split; [exact Hb|].
  subst shown. rewrite length_take. unfold SongSearchPanel.maxVisibleSongs. lia.
Qed.

Lemma song_buttons_accumulate_witness :
  UISystem.buttons
    <$> UISystem.getPanel UISystem.SongSearch
          (SongSearchPanel.updateSongList
             (AppFlowController.songSearchPanel inSongSearch)
             (AppFlowController.uiSystem inSongSearch))
  = Some [7; 8; 9; 49; 50]%nat.
Proof.
  assert (H : UISystem.getPanel UISystem.SongSearch (AppFlowController.uiSystem inSongSearch)
              = Some (UISystem.mkPanel [7; 8; 9; 49]%nat true true))
    by (vm_compute; reflexivity).
  exact (eq_trans
           (proj1 (proj2 (song_buttons_accumulate
                            (AppFlowController.songSearchPanel inSongSearch)
                            (AppFlowController.uiSystem inSongSearch) _ H)))
           eq_refl).
Defined.

Lemma updateSongList_nil (p : SongSearchPanel.t) (ui : UISystem.t Callback) :
  SongSearchPanel.songs p = [] -> SongSearchPanel.updateSongList p ui = ui.
Proof.
  intros Hnil. unfold SongSearchPanel.updateSongList. rewrite Hnil.
  by destruct (UISystem.getPanel UISystem.SongSearch ui).
Qed.

Lemma hideAllPanels_store {Callback : Type} (ui : UISystem.t Callback) :
  UISystem.store (UISystem.hideAllPanels ui) = UISystem.store ui.
Proof.
  unfold UISystem.hideAllPanels. generalize (map fst (UISystem.panels ui)). intros ks.
  revert ui. induction ks as [|k ks IH]; intros ui; simpl; [done|].
  rewrite IH. by rewrite hidePanel_unfold.
Qed.

(** X21.  A failed song request is silent: when the request of
    [loadSongs] fails, [showSongSearch] still ends in the song-search state
    with the loading overlay hidden and the song-search panel shown alone;
    the list is empty and no button is added, the error overlay is not
    shown and no retry thunk is stored. *)
Theorem failed_song_load_is_silent (env : Services) (a : AppFlowController.t) :
  UISystem.wellFormed (AppFlowController.uiSystem a) ->
  loadSongsResult env
    (themeName <$> SceneManager.getCurrentTheme (AppFlowController.sceneManager a)) = None ->
  let a' := AppFlowController.showSongSearch env a in
  AppFlowController.currentState a' = AppFlowController.SongSearchState
  /\ loadingVisible a' = false
  /\ AppFlowController.errorDisplay a' = AppFlowController.errorDisplay a
  /\ AppFlowController.lastFailedAction a' = AppFlowController.lastFailedAction a
  /\ SongSearchPanel.songs (AppFlowController.songSearchPanel a') = []
  /\ UISystem.store (AppFlowController.uiSystem a') = UISystem.store (AppFlowController.uiSystem a)
  /\ UISystem.visiblePanels (AppFlowController.uiSystem a')
     = only UISystem.SongSearch (AppFlowController.uiSystem a).
Proof.
  intros Hwf Hfail a'.
  assert (Ha : a' = AppFlowController.withUI (UISystem.showPanel UISystem.SongSearch)
                      (AppFlowController.hideLoading
                         (AppFlowController.withSongPanel
                            (fun p => SongSearchPanel.mkSongPanel []
                                        (SongSearchPanel.searchQuery p)
                                        (SongSearchPanel.currentTheme p))
                            (AppFlowController.showSongSearch_begin a)))).
  { subst a'. unfold AppFlowController.showSongSearch, AppFlowController.showSongSearch_resume.
    unfold SongSearchPanel.loadSongs_resume.
    change (SongSearchPanel.currentTheme
              (AppFlowController.songSearchPanel (AppFlowController.showSongSearch_begin a)))
      with (themeName <$> SceneManager.getCurrentTheme (AppFlowController.sceneManager a)).
    rewrite Hfail. simpl default. rewrite updateSongList_nil by done.
    by destruct a. }
  rewrite Ha. repeat split; try done.
  - simpl. rewrite showPanel_unfold. simpl. apply hideAllPanels_store.
  - simpl. rewrite visiblePanels_show_after_hide.
    + apply only_keys, hideAllPanels_keys.
    + by apply hideAllPanels_wellFormed.
    + by apply visiblePanels_hideAllPanels.
Qed.

Lemma failed_song_load_is_silent_witness :
  AppFlowController.currentState (AppFlowController.showSongSearch servicesDown inSongSearch)
  = AppFlowController.SongSearchState
  /\ SongSearchPanel.songs
       (AppFlowController.songSearchPanel
          (AppFlowController.showSongSearch servicesDown inSongSearch)) = [].
Proof.
  assert (H1 : UISystem.wellFormed (AppFlowController.uiSystem inSongSearch)).
  { unfold UISystem.wellFormed. apply (bool_decide_unpack _). vm_compute. exact I. }
  assert (H2 : loadSongsResult servicesDown
                 (themeName <$> SceneManager.getCurrentTheme
                                  (AppFlowController.sceneManager inSongSearch)) = None)
    by reflexivity.
  split.
  - exact (proj1 (failed_song_load_is_silent servicesDown inSongSearch H1 H2)).
  - exact (proj1 (proj2 (proj2 (proj2 (proj2
             (failed_song_load_is_silent servicesDown inSongSearch H1 H2)))))).
Defined.

(** X22.  A failed search keeps the list: when the request made on Done
    fails, the keyboard target is forgotten and the panels are left as they
    are; the songs on display stay for a query that is not blank, and are
    dropped for a blank one (which reloads the list of the theme). *)
Theorem failed_search_keeps_the_list (text : JSString) (a : AppFlowController.t) :
  let a' := AppFlowController.handleKeyboardDone_resume text None a in
  AppFlowController.currentKeyboardTarget a' = None
  /\ AppFlowController.uiSystem a' = AppFlowController.uiSystem a
  /\ AppFlowController.currentState a' = AppFlowController.currentState a
  /\ AppFlowController.errorDisplay a' = AppFlowController.errorDisplay a
  /\ SongSearchPanel.songs (AppFlowController.songSearchPanel a')
     = (if bool_decide (trim text = []) then []
        else SongSearchPanel.songs (AppFlowController.songSearchPanel a)).
Proof.
  intros a'. subst a'. unfold AppFlowController.handleKeyboardDone_resume.
  destruct (trim text) as [|c rest] eqn:Ht.
  - unfold SongSearchPanel.loadSongs_resume. simpl. rewrite updateSongList_nil by done.
    done.
  - done.
Qed.

(** ** The error overlay *)



(** X24.  A room that loads is fresh: the scene holds the selected room,
    a new microphone at the position the room gives, not grabbed, and an
    idle video screen, whatever was loaded before; the state is in-room, the
    loading overlay is hidden and no panel is visible until the song search
    is shown. *)
Theorem loaded_room_is_fresh (env : Services) (theme : RoomTheme) (room : Room)
  (a : AppFlowController.t) :
  UISystem.wellFormed (AppFlowController.uiSystem a) ->
  roomSetupResult env theme = Fulfilled room ->
  let a' := AppFlowController.handleRoomSelect env theme a in
  AppFlowController.currentState a' = AppFlowController.InRoom
  /\ AppFlowController.sceneManager a'
     = SceneManager.mkScene (Some theme)
         (Some (MicrophoneEntity.create (microphonePosition room))) (Some None)
  /\ loadingVisible a' = false
  /\ UISystem.visiblePanels (AppFlowController.uiSystem a') = []
  /\ AppFlowController.issued a' = LoadRoom theme :: AppFlowController.issued a.
Proof.
  intros Hwf Hok a'. subst a'. unfold AppFlowController.handleRoomSelect. rewrite Hok.
  repeat split; try done.
  simpl. by apply visiblePanels_hideAllPanels.
Qed.

Lemma loaded_room_is_fresh_witness :
  AppFlowController.sceneManager (AppFlowController.handleRoomSelect servicesUp Kpop inSongSearch)
  = SceneManager.mkScene (Some Kpop)
      (Some (MicrophoneEntity.create (mkVector3 0 1 (-1)))) (Some None).
Proof.
  assert (H1 : UISystem.wellFormed (AppFlowController.uiSystem inSongSearch)).
  { unfold UISystem.wellFormed. apply (bool_decide_unpack _). vm_compute. exact I. }
  assert (H2 : roomSetupResult servicesUp Kpop = Fulfilled (mkRoom (mkVector3 0 1 (-1))))
    by reflexivity.
  exact (proj1 (proj2 (loaded_room_is_fresh servicesUp Kpop _ inSongSearch H1 H2))).
Defined.
